(** * Response-recovery pipeline of the nutrition analyzer

    A shallow embedding of [src/ai_analyzer.py]: the shape check, the
    validator, the heuristic extraction, the deterministic fallback and the
    parsing section of [analyze_food], together with the part of the Python
    runtime they call ([str] methods, [int], binary64 arithmetic,
    [json.loads], [re.findall] and [re.split]); then the size computed
    before the image is encoded, the advice and the daily summary of the
    analyzer, and the daily totals of [src/database.py].

    Text is a list of Unicode code points.  Floats are IEEE 754 binary64
    values ([spec_float] at precision 53), so that [int(c * 0.16 / 4)] is
    computed with the roundings Python performs.  Dicts are association
    lists in insertion order.  Exceptions are values of [exn] carried by
    the [outcome] monad.  Interpreter resource limits (recursion depth,
    memory, the digit limit of [int]) are outside the model. *)

From Stdlib Require Import String Ascii List ZArith NArith Bool Lia DecimalString.
From Stdlib Require Import Floats.SpecFloat.
From Stdlib Require Floats.PrimFloat Floats.FloatOps Floats.FloatAxioms.
From Stdlib Require Numbers.Cyclic.Int63.Uint63.
Import ListNotations.

Set Implicit Arguments.
#[local] Set Warnings "-register-all".

(** ** The Python runtime the analyzer relies on *)

Module Py.

Definition char := N.
Definition str := list char.

(** [u "abc"] is the Python literal ["abc"] (ASCII literals only). *)
Definition u (s : string) : str := map N_of_ascii (list_ascii_of_string s).

Definition str_eq_dec : forall a b : str, {a = b} + {a <> b} :=
  list_eq_dec N.eq_dec.

Definition str_eqb (a b : str) : bool :=
  if str_eq_dec a b then true else false.

(** *** Exceptions *)

Inductive exn :=
| JSONDecodeError
| ValueError
| OverflowError
| TypeError
| AttributeError
| KeyError
| IndexError
| ZeroDivisionError.

Inductive outcome (A : Type) :=
| Ok (a : A)
| Raise (e : exn).

Arguments Ok {A} a.
Arguments Raise {A} e.

Definition bind {A B} (m : outcome A) (k : A -> outcome B) : outcome B :=
  match m with
  | Ok a => k a
  | Raise e => Raise e
  end.

Declare Scope py_scope.
Delimit Scope py_scope with py.
Notation "x <- m ;; k" := (bind m (fun x => k))
  (at level 61, m at next level, right associativity) : py_scope.
Open Scope py_scope.

(** [try: body  except Exception: handler] *)
Definition try_except {A} (body : outcome A) (handler : exn -> outcome A) : outcome A :=
  match body with
  | Ok a => Ok a
  | Raise e => handler e
  end.

(** *** Values *)

Inductive pyval :=
| PNone
| PBool (b : bool)
| PInt (z : Z)
| PFloat (f : spec_float)
| PStr (s : str)
| PList (l : list pyval)
| PDict (d : list (str * pyval)).

Definition dict := list (str * pyval).

(** [key in d] *)
Fixpoint dict_get (k : str) (d : dict) : option pyval :=
  match d with
  | [] => None
  | (k', v) :: d' => if str_eqb k k' then Some v else dict_get k d'
  end.

Definition dict_has (k : str) (d : dict) : bool :=
  match dict_get k d with Some _ => true | None => false end.

(** [d[key] = v]: an existing key keeps its position, a new one goes last. *)
Fixpoint dict_set (k : str) (v : pyval) (d : dict) : dict :=
  match d with
  | [] => [(k, v)]
  | (k', v') :: d' =>
      if str_eqb k k' then (k', v) :: d' else (k', v') :: dict_set k v d'
  end.

(** [isinstance(v, list)], [isinstance(v, dict)], [isinstance(v, (int, float))];
    [bool] is a subclass of [int]. *)
Definition is_list (v : pyval) : bool :=
  match v with PList _ => true | _ => false end.

Definition is_dict (v : pyval) : bool :=
  match v with PDict _ => true | _ => false end.

Definition is_int_or_float (v : pyval) : bool :=
  match v with PInt _ | PFloat _ | PBool _ => true | _ => false end.

(** *** Characters and [str] methods *)

Definition in_range (lo hi c : N) : bool := ((lo <=? c) && (c <=? hi))%N.

(** [str.isspace] on one code point, also the class [\s] of [re]. *)
Definition is_space (c : char) : bool :=
  (in_range 9 13 c || in_range 28 32 c || (c =? 133) || (c =? 160)
   || (c =? 5760) || in_range 8192 8202 c || (c =? 8232) || (c =? 8233)
   || (c =? 8239) || (c =? 8287) || (c =? 12288))%N.

(** Code points of the digit zero of every decimal script (category Nd);
    the nine code points after each are its digits one to nine. *)
Definition nd_zeros : list N :=
  [48; 1632; 1776; 1984; 2406; 2534; 2662; 2790; 2918; 3046; 3174; 3302;
   3430; 3558; 3664; 3792; 3872; 4160; 4240; 6112; 6160; 6470; 6608; 6784;
   6800; 6992; 7088; 7232; 7248; 42528; 43216; 43264; 43472; 43504; 43600;
   44016; 65296; 66720; 68912; 69734; 69872; 69942; 70096; 70384; 70736;
   70864; 71248; 71360; 71472; 71904; 72016; 72784; 73040; 73120; 92768;
   92864; 93008; 120782; 120792; 120802; 120812; 120822; 123200; 123632;
   125264; 130032]%N.

Definition decimal_digit (c : char) : option Z :=
  match find (fun z => in_range z (z + 9) c) nd_zeros with
  | Some z => Some (Z.of_N (c - z))
  | None => None
  end.

(** The class [\d] of [re] on [str] patterns. *)
Definition is_digit (c : char) : bool :=
  match decimal_digit c with Some _ => true | None => false end.

Fixpoint drop_while (p : char -> bool) (s : str) : str :=
  match s with
  | [] => []
  | c :: s' => if p c then drop_while p s' else s
  end.

Definition lstrip_by (p : char -> bool) (s : str) : str := drop_while p s.
Definition rstrip_by (p : char -> bool) (s : str) : str :=
  rev (drop_while p (rev s)).

(** [s.strip()] *)
Definition strip (s : str) : str := rstrip_by is_space (lstrip_by is_space s).

(** [s.startswith(p)], [s.endswith(p)] *)
Fixpoint startswith (p s : str) : bool :=
  match p, s with
  | [], _ => true
  | _ :: _, [] => false
  | a :: p', b :: s' => (a =? b)%N && startswith p' s'
  end.

Definition endswith (p s : str) : bool := startswith (rev p) (rev s).

(** [sub in s] *)
Fixpoint contains (sub s : str) : bool :=
  startswith sub s ||
  match s with
  | [] => false
  | _ :: s' => contains sub s'
  end.

(** [s.replace(old, new)]: occurrences are replaced from the left and do not
    overlap.  [skip] counts the characters of an occurrence still to drop. *)
Fixpoint replace_from (old new s : str) (skip : nat) : str :=
  match s with
  | [] => []
  | c :: s' =>
      match skip with
      | S k => replace_from old new s' k
      | O =>
          if startswith old s
          then new ++ replace_from old new s' (length old - 1)
          else c :: replace_from old new s' 0
      end
  end.

Definition replace (old new s : str) : str :=
  match old with
  | [] => new ++ flat_map (fun c => c :: new) s
  | _ :: _ => replace_from old new s 0
  end.

(** [s.lower()], exact on every code point whose lower-case form contains an
    ASCII character: the ASCII capitals, U+0130 and the Kelvin sign.  Other
    code points are kept as they are; their lower-case forms contain no ASCII
    character, so a test for an ASCII substring cannot tell the difference. *)
Definition lower_char (c : char) : str :=
  if in_range 65 90 c then [c + 32]%N
  else if (c =? 304)%N then [105; 775]%N
  else if (c =? 8490)%N then [107]%N
  else [c].

Definition lower (s : str) : str := flat_map lower_char s.

(** [sep.join(items)] *)
Fixpoint join (sep : str) (items : list pyval) : outcome str :=
  match items with
  | [] => Ok []
  | PStr a :: rest =>
      match rest with
      | [] => Ok a
      | _ :: _ => r <- join sep rest ;; Ok (a ++ sep ++ r)
      end
  | _ :: _ => Raise TypeError
  end.

(** [items[:n]] *)
Definition slice_to {A} (n : nat) (items : list A) : list A := firstn n items.

(** *** Integers *)

(** Whitespace that [int] accepts around a literal. *)
Definition is_int_space (c : char) : bool :=
  (in_range 9 13 c || (c =? 32) || ((127 <=? c) && is_space c))%N.

Definition digit_value (c : char) : option Z :=
  match decimal_digit c with
  | Some d => Some d
  | None =>
      if in_range 97 122 c then Some (Z.of_N (c - 87))
      else if in_range 65 90 c then Some (Z.of_N (c - 55))
      else None
  end.

(** Digits of a literal in base [base]; single underscores may separate
    digits.  [after_digit] tells whether the previous character was a digit. *)
Fixpoint int_digits (base : Z) (s : str) (acc : Z) (after_digit : bool) : option Z :=
  match s with
  | [] => if after_digit then Some acc else None
  | c :: s' =>
      if (c =? 95)%N
      then (if after_digit then int_digits base s' acc false else None)
      else
        match digit_value c with
        | Some d =>
            if (d <? base)%Z then int_digits base s' (acc * base + d)%Z true
            else None
        | None => None
        end
  end.

(** [int(s, base)] for [base] 10 or 16. *)
Definition int_of_str (s : str) (base : Z) : outcome Z :=
  let s1 := rstrip_by is_int_space (lstrip_by is_int_space s) in
  let '(neg, s2) :=
    match s1 with
    | c :: r =>
        if (c =? 43)%N then (false, r)
        else if (c =? 45)%N then (true, r)
        else (false, s1)
    | [] => (false, s1)
    end in
  let s3 :=
    if (base =? 16)%Z then
      match s2 with
      | z :: x :: r =>
          if ((z =? 48) && ((x =? 120) || (x =? 88)))%N
          then match r with
               | c :: r' => if (c =? 95)%N then r' else r
               | [] => r
               end
          else s2
      | _ => s2
      end
    else s2 in
  match int_digits base s3 0%Z false with
  | Some n => Ok (if neg then (- n)%Z else n)
  | None => Raise ValueError
  end.

(** [str(n)], the text an f-string puts for an [int]. *)
Definition str_of_int (n : Z) : str := u (NilZero.string_of_int (Z.to_int n)).

(** *** Floats: IEEE 754 binary64 *)

Definition prec : Z := 53.
Definition emax : Z := 1024.

Definition fmul : spec_float -> spec_float -> spec_float := SFmul prec emax.
Definition fdiv : spec_float -> spec_float -> spec_float := SFdiv prec emax.

(** The float nearest to [m * 10 ^ e], as [float] reads a decimal literal. *)
Definition float_of_decimal (neg : bool) (m : N) (e : Z) : spec_float :=
  match m with
  | N0 => S754_zero neg
  | Npos p =>
      match e with
      | Zneg k =>
          let '(q, e', l) :=
            SFdiv_core_binary prec emax (Zpos p) 0 (Z.pow_pos 10 k) 0 in
          binary_round_aux prec emax neg q e' l
      | _ => binary_round prec emax neg (p * Z.to_pos (10 ^ e)) 0
      end
  end.

(** [float(n)] for an [int]. *)
Definition float_of_int (n : Z) : outcome spec_float :=
  match binary_normalize prec emax n 0 false with
  | S754_infinity _ => Raise OverflowError
  | f => Ok f
  end.

(** The operand of [*] or [/] next to a float. *)
Definition to_float (v : pyval) : outcome spec_float :=
  match v with
  | PFloat f => Ok f
  | PInt z => float_of_int z
  | PBool b => float_of_int (if b then 1 else 0)
  | _ => Raise TypeError
  end.

(** [v * f] for a float [f] *)
Definition mul_float (v : pyval) (f : spec_float) : outcome spec_float :=
  x <- to_float v ;; Ok (fmul x f).

(** [a / b] on two [int]s: the float nearest to the quotient.  When both
    operands are below [2 ^ 53] in magnitude, CPython converts them to
    floats, which is exact, and divides those; otherwise the quotient of the
    integers is rounded once. *)
Definition int_truediv (a b : Z) : outcome spec_float :=
  match a, b with
  | _, Z0 => Raise ZeroDivisionError
  | Z0, _ => Ok (S754_zero (b <? 0)%Z)
  | _, _ =>
      if ((Z.abs a <? 2 ^ 53) && (Z.abs b <? 2 ^ 53))%Z then
        da <- float_of_int a ;;
        db <- float_of_int b ;;
        Ok (fdiv da db)
      else
        let '(q, e', l) := SFdiv_core_binary prec emax (Z.abs a) 0 (Z.abs b) 0 in
        match binary_round_aux prec emax (xorb (a <? 0)%Z (b <? 0)%Z) q e' l with
        | S754_infinity _ => Raise OverflowError
        | f => Ok f
        end
  end.

(** [v / n] for an [int] literal [n] *)
Definition div_int (v : pyval) (n : Z) : outcome spec_float :=
  match v with
  | PFloat f => d <- float_of_int n ;; Ok (fdiv f d)
  | PInt z => int_truediv z n
  | PBool b => int_truediv (if b then 1 else 0) n
  | _ => Raise TypeError
  end.

(** [f / n] for a float [f] and an [int] literal [n] *)
Definition fdiv_int (f : spec_float) (n : Z) : outcome spec_float :=
  d <- float_of_int n ;; Ok (fdiv f d).

(** [int(f)]: truncation toward zero. *)
Definition int_of_float (f : spec_float) : outcome Z :=
  match f with
  | S754_nan => Raise ValueError
  | S754_infinity _ => Raise OverflowError
  | S754_zero _ => Ok 0%Z
  | S754_finite s m e =>
      let a := Z.shiftl (Zpos m) e in
      Ok (if s then (- a)%Z else a)
  end.

(** *** [json.loads] *)

Module Json.

Definition is_ws (c : char) : bool :=
  ((c =? 32) || (c =? 9) || (c =? 10) || (c =? 13))%N.

Definition skip_ws (s : str) : str := drop_while is_ws s.

Definition is_ascii_digit (c : char) : bool := in_range 48 57 c.

Definition hex_digit (c : char) : option N :=
  if in_range 48 57 c then Some (c - 48)%N
  else if in_range 97 102 c then Some (c - 87)%N
  else if in_range 65 70 c then Some (c - 55)%N
  else None.

Definition hex4 (a b c d : char) : option N :=
  match hex_digit a, hex_digit b, hex_digit c, hex_digit d with
  | Some x, Some y, Some z, Some w => Some (((x * 16 + y) * 16 + z) * 16 + w)%N
  | _, _, _, _ => None
  end.

(** The body of a string literal, after the opening quote: the decoded text
    and what follows the closing quote.  Control characters are refused
    (strict mode); a high surrogate escape directly followed by a low one is
    joined into one code point. *)
Fixpoint scanstring (s : str) : option (str * str) :=
  match s with
  | [] => None
  | 34%N :: rest => Some ([], rest)
  | 92%N :: esc :: rest =>
      if (esc =? 117)%N then
        match rest with
        | a :: b :: c :: d :: rest' =>
            match hex4 a b c d with
            | None => None
            | Some hi =>
                let lone :=
                  match scanstring rest' with
                  | Some (t, r) => Some (hi :: t, r)
                  | None => None
                  end in
                if in_range 55296 56319 hi then
                  match rest' with
                  | 92%N :: 117%N :: a2 :: b2 :: c2 :: d2 :: rest'' =>
                      match hex4 a2 b2 c2 d2 with
                      | None => None
                      | Some lo =>
                          if in_range 56320 57343 lo then
                            match scanstring rest'' with
                            | Some (t, r) =>
                                Some ((65536 + (hi - 55296) * 1024 + (lo - 56320))%N :: t, r)
                            | None => None
                            end
                          else lone
                      end
                  | _ => lone
                  end
                else lone
            end
        | _ => None
        end
      else
        let plain (c : char) :=
          match scanstring rest with
          | Some (t, r) => Some (c :: t, r)
          | None => None
          end in
        if (esc =? 34)%N then plain 34%N
        else if (esc =? 92)%N then plain 92%N
        else if (esc =? 47)%N then plain 47%N
        else if (esc =? 98)%N then plain 8%N
        else if (esc =? 102)%N then plain 12%N
        else if (esc =? 110)%N then plain 10%N
        else if (esc =? 114)%N then plain 13%N
        else if (esc =? 116)%N then plain 9%N
        else None
  | c :: rest =>
      if (c <=? 31)%N then None
      else if (c =? 92)%N then None
      else
        match scanstring rest with
        | Some (t, r) => Some (c :: t, r)
        | None => None
        end
  end.

(** A maximal run of ASCII digits: its value, its length and the rest. *)
Fixpoint digits (s : str) (acc : N) (n : nat) : N * nat * str :=
  match s with
  | c :: s' =>
      if is_ascii_digit c then digits s' (acc * 10 + (c - 48))%N (S n)
      else (acc, n, s)
  | [] => (acc, n, s)
  end.

(** A number literal: an optional minus sign, then a zero or a run of
    digits not starting with zero, then an optional fraction (a dot and at
    least one digit), then an optional exponent (e or E, an optional sign and
    at least one digit).  It is an [int] without fraction and exponent and a
    [float] otherwise. *)
Definition match_number (s : str) : option (pyval * str) :=
  let '(neg, s1) := match s with 45%N :: r => (true, r) | _ => (false, s) end in
  let int_part :=
    match s1 with
    | c :: r =>
        if (c =? 48)%N then Some (0%N, r)
        else if in_range 49 57 c then
          let '(v, _, r') := digits s1 0%N 0%nat in Some (v, r')
        else None
    | [] => None
    end in
  match int_part with
  | None => None
  | Some (ip, s2) =>
      let '(m, fl, has_frac, s3) :=
        match s2 with
        | 46%N :: c :: _ =>
            if is_ascii_digit c then
              let '(v, n, r) := digits (tl s2) ip 0%nat in (v, n, true, r)
            else (ip, 0%nat, false, s2)
        | _ => (ip, 0%nat, false, s2)
        end in
      let '(ex, has_exp, s4) :=
        match s3 with
        | e :: r =>
            if ((e =? 101) || (e =? 69))%N then
              let '(eneg, r1) :=
                match r with
                | 45%N :: r' => (true, r')
                | 43%N :: r' => (false, r')
                | _ => (false, r)
                end in
              let '(v, n, r2) := digits r1 0%N 0%nat in
              match n with
              | O => (0%Z, false, s3)
              | S _ => ((if eneg then - Z.of_N v else Z.of_N v)%Z, true, r2)
              end
            else (0%Z, false, s3)
        | [] => (0%Z, false, s3)
        end in
      if has_frac || has_exp
      then Some (PFloat (float_of_decimal neg m (ex - Z.of_nat fl)), s4)
      else Some (PInt (if neg then - Z.of_N m else Z.of_N m)%Z, s4)
  end.

(** One JSON value at the head of [s] and the text after it.  Object
    members and array items are read by the two loops; a repeated key keeps
    its first position and takes the last value. *)
Fixpoint scan_once (fuel : nat) (s : str) : option (pyval * str) :=
  match fuel with
  | O => None
  | S fuel' =>
      match s with
      | 34%N :: r =>
          match scanstring r with
          | Some (t, r') => Some (PStr t, r')
          | None => None
          end
      | 123%N :: r =>
          match skip_ws r with
          | 125%N :: r' => Some (PDict [], r')
          | r' =>
              match object_loop fuel' r' [] with
              | Some (d, r'') => Some (PDict d, r'')
              | None => None
              end
          end
      | 91%N :: r =>
          match skip_ws r with
          | 93%N :: r' => Some (PList [], r')
          | r' =>
              match array_loop fuel' r' [] with
              | Some (l, r'') => Some (PList l, r'')
              | None => None
              end
          end
      | 110%N :: 117%N :: 108%N :: 108%N :: r => Some (PNone, r)
      | 116%N :: 114%N :: 117%N :: 101%N :: r => Some (PBool true, r)
      | 102%N :: 97%N :: 108%N :: 115%N :: 101%N :: r => Some (PBool false, r)
      | 78%N :: 97%N :: 78%N :: r => Some (PFloat S754_nan, r)
      | 73%N :: 110%N :: 102%N :: 105%N :: 110%N :: 105%N :: 116%N :: 121%N :: r =>
          Some (PFloat (S754_infinity false), r)
      | 45%N :: 73%N :: 110%N :: 102%N :: 105%N :: 110%N :: 105%N :: 116%N :: 121%N :: r =>
          Some (PFloat (S754_infinity true), r)
      | _ => match_number s
      end
  end

with object_loop (fuel : nat) (s : str) (acc : dict) : option (dict * str) :=
  match fuel with
  | O => None
  | S fuel' =>
      match s with
      | 34%N :: r =>
          match scanstring r with
          | None => None
          | Some (key, r1) =>
              match skip_ws r1 with
              | 58%N :: r2 =>
                  match scan_once fuel' (skip_ws r2) with
                  | None => None
                  | Some (v, r3) =>
                      let acc' := dict_set key v acc in
                      match skip_ws r3 with
                      | 125%N :: r4 => Some (acc', r4)
                      | 44%N :: r4 => object_loop fuel' (skip_ws r4) acc'
                      | _ => None
                      end
                  end
              | _ => None
              end
          end
      | _ => None
      end
  end

with array_loop (fuel : nat) (s : str) (acc : list pyval) : option (list pyval * str) :=
  match fuel with
  | O => None
  | S fuel' =>
      match scan_once fuel' s with
      | None => None
      | Some (v, r) =>
          match skip_ws r with
          | 93%N :: r' => Some (acc ++ [v], r')
          | 44%N :: r' => array_loop fuel' (skip_ws r') (acc ++ [v])
          | _ => None
          end
      end
  end.

(** [json.loads(s)]: one value, surrounded by JSON whitespace only. *)
Definition loads (s : str) : outcome pyval :=
  match scan_once (2 * length s + 2) (skip_ws s) with
  | Some (v, r) =>
      match skip_ws r with
      | [] => Ok v
      | _ :: _ => Raise JSONDecodeError
      end
  | None => Raise JSONDecodeError
  end.

End Json.

(** *** [re]: a backtracking matcher *)

Module Re.

(** Patterns with at most one capture group.  [Star true] is the greedy
    star, [Star false] the lazy one. *)
Inductive regex :=
| Eps
| Chr (p : char -> bool)
| Seq (r1 r2 : regex)
| Alt (r1 r2 : regex)
| Star (greedy : bool) (r : regex)
| Group (r : regex).

Definition Opt (r : regex) : regex := Alt r Eps.
Definition Plus (r : regex) : regex := Seq r (Star true r).

(** A literal character, and the same under [re.IGNORECASE]: a letter stands
    for both of its cases and for the code points that lower-case to it. *)
Definition is_char (c : char) : char -> bool := fun x => (x =? c)%N.

Definition is_char_ci (c : char) : char -> bool :=
  fun x =>
    if in_range 97 122 c then
      ((x =? c) || (x =? c - 32)
       || ((c =? 105) && ((x =? 304) || (x =? 305)))
       || ((c =? 115) && (x =? 383))
       || ((c =? 107) && (x =? 8490)))%N
    else (x =? c)%N.

Fixpoint seq_of (f : char -> char -> bool) (s : str) : regex :=
  match s with
  | [] => Eps
  | [c] => Chr (f c)
  | c :: s' => Seq (Chr (f c)) (seq_of f s')
  end.

Definition lit (s : string) : regex := seq_of is_char (u s).
Definition lit_ci (s : string) : regex := seq_of is_char_ci (u s).

(** Character classes: [one_of s] is the set of the characters of [s],
    [none_of s] its complement; [or_space] adds the whitespace class. *)
Definition one_of (s : str) : char -> bool :=
  fun x => existsb (fun c => (x =? c)%N) s.
Definition none_of (s : str) : char -> bool := fun x => negb (one_of s x).
Definition or_space (p : char -> bool) : char -> bool := fun x => p x || is_space x.
Definition any_char : char -> bool := fun _ => true.

(** [run r s g k] matches [r] at the head of [s] and hands the rest of the
    text and the text of the group to [k]; when [k] fails the matcher
    backtracks into [r].  An iteration of a star that consumes nothing is
    not taken. *)
Fixpoint run {A} (r : regex) (s : str) (g : option str)
         (k : str -> option str -> option A) : option A :=
  match r with
  | Eps => k s g
  | Chr p =>
      match s with
      | c :: s' => if p c then k s' g else None
      | [] => None
      end
  | Seq r1 r2 => run r1 s g (fun s1 g1 => run r2 s1 g1 k)
  | Alt r1 r2 =>
      match run r1 s g k with
      | Some x => Some x
      | None => run r2 s g k
      end
  | Group r1 =>
      run r1 s g (fun s1 _ => k s1 (Some (firstn (length s - length s1) s)))
  | Star greedy r1 =>
      (fix loop (fuel : nat) (s : str) (g : option str) {struct fuel} : option A :=
         match fuel with
         | O => k s g
         | S fuel' =>
             let again (_ : unit) :=
               run r1 s g (fun s1 g1 =>
                 if (length s1 <? length s)%nat then loop fuel' s1 g1 else None) in
             if greedy then
               match again tt with
               | Some x => Some x
               | None => k s g
               end
             else
               match k s g with
               | Some x => Some x
               | None => again tt
               end
         end) (length s) s g
  end.

(** The first match at the head of [s]: the rest of the text and the group. *)
Definition match_here (r : regex) (s : str) : option (str * option str) :=
  run r s None (fun s1 g => Some (s1, g)).

(** [re.findall(r, s)] for a pattern that matches no empty text: the
    matches from left to right, without overlap; each is reported by the
    text of its group, or by its whole text when the pattern has no group.
    [skip] counts the characters of the last match still to pass. *)
Fixpoint findall_from (r : regex) (s : str) (skip : nat) : list str :=
  match s with
  | [] => []
  | _ :: s' =>
      match skip with
      | S k => findall_from r s' k
      | O =>
          match match_here r s with
          | Some (rest, g) =>
              let n := (length s - length rest)%nat in
              match g with Some t => t | None => firstn n s end
                :: findall_from r s' (n - 1)
          | None => findall_from r s' 0
          end
      end
  end.

Definition findall (r : regex) (s : str) : list str := findall_from r s 0.

(** [re.split(r, s)] for a pattern without group that matches no empty
    text; [cur] holds the current piece, reversed. *)
Fixpoint split_from (r : regex) (s : str) (skip : nat) (cur : str) : list str :=
  match s with
  | [] => [rev cur]
  | c :: s' =>
      match skip with
      | S k => split_from r s' k cur
      | O =>
          match match_here r s with
          | Some (rest, _) =>
              match (length s - length rest)%nat with
              | O => split_from r s' 0 (c :: cur)
              | S n => rev cur :: split_from r s' n []
              end
          | None => split_from r s' 0 (c :: cur)
          end
      end
  end.

Definition split (r : regex) (s : str) : list str := split_from r s 0 [].

End Re.

End Py.

(** ** The analyzer *)

Module NutritionAnalyzer.

Import Py.

Definition PyStr (s : string) : pyval := PStr (u s).

(** Float literals of the source. *)
Definition flt (m : N) (e : Z) : spec_float := float_of_decimal false m e.

(** *** Shape check *)

(** [field in result]: a key of a dict, an item of a list, a substring of a
    string; other values are not iterable. *)
Definition has_field (field : str) (result : pyval) : outcome bool :=
  match result with
  | PDict d => Ok (dict_has field d)
  | PList l =>
      Ok (existsb (fun x => match x with PStr t => str_eqb t field | _ => false end) l)
  | PStr t => Ok (contains field t)
  | _ => Raise TypeError
  end.

(** [result.get(key, default)] *)
Definition get (result : pyval) (key : str) (default : pyval) : outcome pyval :=
  match result with
  | PDict d =>
      Ok match dict_get key d with Some v => v | None => default end
  | _ => Raise AttributeError
  end.

(** [len(v)] *)
Definition len (v : pyval) : outcome nat :=
  match v with
  | PList l => Ok (length l)
  | PStr t => Ok (length t)
  | PDict d => Ok (length d)
  | _ => Raise TypeError
  end.

Definition _is_valid_nutrition_result (result : pyval) : outcome bool :=
  has_foods <- has_field (u "foods_detected") result ;;
  has_both <- (if has_foods then has_field (u "total_calories") result else Ok false) ;;
  if has_both then
    foods <- get result (u "foods_detected") PNone ;;
    if is_list foods then
      foods' <- get result (u "foods_detected") (PList []) ;;
      n <- len foods' ;;
      Ok (0 <? n)%nat
    else Ok false
  else Ok false.

(** *** Validator *)

(** [int(total_calories * ratio / kcal)] *)
Definition grams_int (total_calories : pyval) (ratio : spec_float) (kcal : Z) : outcome Z :=
  x <- mul_float total_calories ratio ;;
  y <- fdiv_int x kcal ;;
  int_of_float y.

(** [int(total_calories / per)] *)
Definition per_int (total_calories : pyval) (per : Z) : outcome Z :=
  y <- div_int total_calories per ;;
  int_of_float y.

(** [f"{n}g"] *)
Definition in_grams (n : Z) : pyval := PStr (str_of_int n ++ u "g").

(** [f"{int(total_calories * ratio / kcal)}g"] *)
Definition grams (total_calories : pyval) (ratio : spec_float) (kcal : Z) : outcome pyval :=
  n <- grams_int total_calories ratio kcal ;;
  Ok (in_grams n).

(** [f"{max(least, int(total_calories / per))}g"] *)
Definition grams_at_least (least : Z) (total_calories : pyval) (per : Z) : outcome pyval :=
  n <- per_int total_calories per ;;
  Ok (in_grams (Z.max least n)).

(** The [nutritional_breakdown] literal; the validator, the heuristic
    extraction and the fallback all spell out this same dict. *)
Definition breakdown (total_calories : pyval) : outcome pyval :=
  protein <- grams total_calories (flt 16 (-2)) 4 ;;
  carbohydrates <- grams total_calories (flt 54 (-2)) 4 ;;
  fat <- grams total_calories (flt 30 (-2)) 9 ;;
  fiber <- grams_at_least 4 total_calories 120 ;;
  sugar <- grams_at_least 3 total_calories 150 ;;
  Ok (PDict [(u "calories", total_calories);
             (u "protein", protein);
             (u "carbohydrates", carbohydrates);
             (u "fat", fat);
             (u "fiber", fiber);
             (u "sugar", sugar)]).

(** [int(total_cal * share)] *)
Definition share_calories (total_cal : pyval) (share : spec_float) : outcome pyval :=
  x <- mul_float total_cal share ;;
  n <- int_of_float x ;;
  Ok (PInt n).

(** [f"{int(total_cal * portion_ratio * ratio / kcal)}g"] *)
Definition portion_grams (total_cal : pyval) (portion_ratio ratio : spec_float) (kcal : Z)
  : outcome pyval :=
  x <- mul_float total_cal portion_ratio ;;
  y <- fdiv_int (fmul x ratio) kcal ;;
  n <- int_of_float y ;;
  Ok (in_grams n).

(** One pass of the loop over [enumerate(foods[:3])]. *)
Definition food_entry (i : nat) (food_name total_cal : pyval) : outcome pyval :=
  let portion_ratio :=
    match i with
    | 0%nat => flt 6 (-1)
    | 1%nat => flt 3 (-1)
    | _ => flt 1 (-1)
    end in
  let size :=
    match i with
    | 0%nat => u "utama"
    | 1%nat => u "sedang"
    | _ => u "kecil"
    end in
  calories <- share_calories total_cal portion_ratio ;;
  protein <- portion_grams total_cal portion_ratio (flt 15 (-2)) 4 ;;
  carbs <- portion_grams total_cal portion_ratio (flt 55 (-2)) 4 ;;
  fat <- portion_grams total_cal portion_ratio (flt 30 (-2)) 9 ;;
  Ok (PDict [(u "name", food_name);
             (u "estimated_portion", PStr (u "1 porsi " ++ size));
             (u "calories", calories);
             (u "protein", protein);
             (u "carbs", carbs);
             (u "fat", fat)]).

Fixpoint food_entries (i : nat) (foods : list pyval) (total_cal : pyval)
  : outcome (list pyval) :=
  match foods with
  | [] => Ok []
  | food_name :: rest =>
      e <- food_entry i food_name total_cal ;;
      es <- food_entries (S i) rest total_cal ;;
      Ok (e :: es)
  end.

(** [key not in result or not isinstance(result[key], T)] *)
Definition missing_or_not (is_T : pyval -> bool) (key : str) (result : dict) : bool :=
  match dict_get key result with
  | None => true
  | Some v => negb (is_T v)
  end.

(** The six blocks of the validator, in their order. *)
Definition ensure_foods_detected (result : dict) : dict :=
  if missing_or_not is_list (u "foods_detected") result
  then dict_set (u "foods_detected") (PList [PyStr "Makanan dari analisis AI"]) result
  else result.

Definition ensure_total_calories (result : dict) : dict :=
  if missing_or_not is_int_or_float (u "total_calories") result
  then dict_set (u "total_calories") (PInt 450) result
  else result.

Definition ensure_confidence_score (result : dict) : dict :=
  if negb (dict_has (u "confidence_score") result)
  then dict_set (u "confidence_score") (PFloat (flt 8 (-1))) result
  else result.

Definition ensure_nutritional_breakdown (result : dict) : outcome dict :=
  if missing_or_not is_dict (u "nutritional_breakdown") result then
    match dict_get (u "total_calories") result with
    | Some total_calories =>
        b <- breakdown total_calories ;;
        Ok (dict_set (u "nutritional_breakdown") b result)
    | None => Raise KeyError
    end
  else Ok result.

Definition ensure_individual_foods (result : dict) : outcome dict :=
  if missing_or_not is_list (u "individual_foods") result then
    foods <- get (PDict result) (u "foods_detected") (PList [PyStr "Makanan utama"]) ;;
    total_cal <- get (PDict result) (u "total_calories") (PInt 450) ;;
    match foods with
    | PList l =>
        entries <- food_entries 0 (slice_to 3 l) total_cal ;;
        Ok (dict_set (u "individual_foods") (PList entries) result)
    | _ => Raise TypeError
    end
  else Ok result.

Definition ensure_health_tips (result : dict) : outcome dict :=
  if missing_or_not is_list (u "health_tips") result then
    foods <- get (PDict result) (u "foods_detected") (PList []) ;;
    match foods with
    | PList l =>
        foods_str <- join (u ", ") l ;;
        Ok (dict_set (u "health_tips")
              (PList [PStr (u "Kombinasi " ++ foods_str ++ u " memberikan energi yang baik");
                      PyStr "Pastikan keseimbangan nutrisi harian";
                      PyStr "Minum air putih yang cukup"])
              result)
    | _ => Raise TypeError
    end
  else Ok result.

Definition _validate_llm_result (result : dict) : outcome dict :=
  let result := ensure_foods_detected result in
  let result := ensure_total_calories result in
  let result := ensure_confidence_score result in
  result <- ensure_nutritional_breakdown result ;;
  result <- ensure_individual_foods result ;;
  ensure_health_tips result.

(** *** Deterministic fallback *)

Definition food_combinations : list (string * string * string * Z) :=
  [("Nasi putih", "Ayam goreng", "Sayur bayam", 580);
   ("Gado-gado", "Kerupuk", "Es teh", 520);
   ("Mie ayam", "Pangsit", "Es jeruk", 620);
   ("Rendang", "Nasi putih", "Sayur asem", 720);
   ("Soto ayam", "Nasi putih", "Emping", 480);
   ("Gudeg", "Tahu bacem", "Telur", 650);
   ("Pecel lele", "Nasi putih", "Sambal", 590)]%string%Z.

(** One entry of an [individual_foods] literal: [total_cal] is an [int];
    [share] is the factor of the calories and [protein], [carbs] and [fat]
    are the ratios of the three gram figures. *)
Definition portion (name : pyval) (size : string) (total_cal : Z)
           (share protein carbs fat : spec_float) : outcome pyval :=
  calories <- share_calories (PInt total_cal) share ;;
  protein <- grams (PInt total_cal) protein 4 ;;
  carbs <- grams (PInt total_cal) carbs 4 ;;
  fat <- grams (PInt total_cal) fat 9 ;;
  Ok (PDict [(u "name", name);
             (u "estimated_portion", PyStr size);
             (u "calories", calories);
             (u "protein", protein);
             (u "carbs", carbs);
             (u "fat", fat)]).

(** The record the fallback builds from the selected table entry. *)
Definition fallback_record (selected : string * string * string * Z) (image_hash : str)
  : outcome dict :=
  let '(food0, food1, food2, total_cal) := selected in
  let foods := [PyStr food0; PyStr food1; PyStr food2] in
  nutritional_breakdown <- breakdown (PInt total_cal) ;;
  first <- portion (PyStr food0) "1 porsi utama" total_cal
             (flt 6 (-1)) (flt 1 (-1)) (flt 35 (-2)) (flt 18 (-2)) ;;
  second <- portion (PyStr food1) "1 porsi sedang" total_cal
              (flt 3 (-1)) (flt 5 (-2)) (flt 15 (-2)) (flt 8 (-2)) ;;
  third <- portion (PyStr food2) "1 porsi kecil" total_cal
             (flt 1 (-1)) (flt 1 (-2)) (flt 4 (-2)) (flt 4 (-2)) ;;
  Ok [(u "foods_detected", PList foods);
      (u "total_calories", PInt total_cal);
      (u "nutritional_breakdown", nutritional_breakdown);
      (u "individual_foods", PList [first; second; third]);
      (u "health_tips",
        PList [PStr (u "Kombinasi " ++ u food0 ++ u " dan " ++ u food1
                       ++ u " memberikan energi yang baik");
               PyStr "Pastikan keseimbangan nutrisi dengan sayuran";
               PyStr "Minum air putih yang cukup untuk hidrasi"]);
      (u "confidence_score", PFloat (flt 75 (-2)));
      (u "note",
        PStr ([240; 376; 381; 175]%N ++ u " Analisis konsisten berdasarkan foto (ID: "
                ++ image_hash ++ u ")"));
      (u "analysis_source", PyStr "smart_fallback")].

Definition _create_smart_fallback (image_hash : str) : outcome dict :=
  hash_int <- (match image_hash with
               | [] => Ok 0%Z
               | _ :: _ => int_of_str image_hash 16
               end) ;;
  let index := (hash_int mod Z.of_nat (length food_combinations))%Z in
  match nth_error food_combinations (Z.to_nat index) with
  | Some selected => fallback_record selected image_hash
  | None => Raise IndexError
  end.

(** *** Heuristic extraction *)

Import Re.

Definition nl : char := 10%N.
Definition dquote : char := 34%N.

(** The class of a colon and whitespace, and the class of the characters
    other than a full stop and a newline. *)
Definition colon_space : regex := Chr (or_space (one_of (u ":"))).
Definition quote_colon_space : regex := Chr (or_space (one_of (dquote :: u ":"))).
Definition quote_colon_space_bracket : regex := Chr (or_space (one_of (dquote :: u ":["))).
Definition to_stop : regex := Chr (none_of (u "." ++ [nl])).
Definition to_bracket : regex := Chr (none_of (u "]")).
Definition digit : regex := Chr is_digit.
Definition space : regex := Chr is_space.

(** Three or four digits. *)
Definition digits_3_4 : regex := Seq digit (Seq digit (Seq digit (Opt digit))).

(** A keyword, separators, and a captured run; all under [re.IGNORECASE]. *)
Definition keyed (keyword : string) (sep run : regex) : regex :=
  Seq (lit_ci keyword) (Seq (Star true sep) (Group run)).

Definition food_patterns : list regex :=
  [keyed "makanan" colon_space (Plus to_stop);
   keyed "terdeteksi" colon_space (Plus to_stop);
   keyed "terdiri" colon_space (Plus to_stop);
   keyed "menu" colon_space (Plus to_stop);
   keyed "foods_detected" quote_colon_space_bracket (Plus to_bracket)].

Definition calorie_patterns : list regex :=
  [keyed "total_calories" quote_colon_space digits_3_4;
   Seq (Group digits_3_4) (Seq (Star true space) (Seq (Opt (lit_ci "k")) (lit_ci "cal")));
   keyed "kalori" colon_space digits_3_4;
   keyed "calories" quote_colon_space digits_3_4].

Definition tip_patterns : list regex :=
  [keyed "health_tips" quote_colon_space_bracket (Plus to_bracket);
   keyed "saran" colon_space (Plus to_stop);
   keyed "tips" colon_space (Plus to_stop)].

(** The separators of the two [re.split] calls. *)
Definition food_separator : regex := Plus (Chr (or_space (one_of (u ",;dan")))).
Definition tip_separator : regex := Plus (Chr (one_of (u ",;"))).

(** The first match, stripped, with its double and single quotes removed. *)
Definition unquote (m : str) : str :=
  replace (u "'") [] (replace [dquote] [] (strip m)).

(** The loop over [food_patterns]: the first pattern whose first match
    yields a name of more than two characters decides. *)
Fixpoint detect_foods (patterns : list regex) (response : str) : list str :=
  match patterns with
  | [] => []
  | pattern :: rest =>
      match findall pattern response with
      | m :: _ =>
          let foods_text := unquote m in
          let foods :=
            map strip
              (filter (fun f => negb (str_eqb (strip f) []) && (2 <? length (strip f))%nat)
                      (split food_separator foods_text)) in
          match foods with
          | [] => detect_foods rest response
          | _ :: _ => slice_to 3 foods
          end
      | [] => detect_foods rest response
      end
  end.

(** The loop over [calorie_patterns], starting from the default. *)
Fixpoint detect_calories (patterns : list regex) (response : str) (total_calories : Z) : Z :=
  match patterns with
  | [] => total_calories
  | pattern :: rest =>
      match findall pattern response with
      | m :: _ =>
          match int_of_str m 10 with
          | Ok n => n
          | Raise _ => detect_calories rest response total_calories
          end
      | [] => detect_calories rest response total_calories
      end
  end.

(** The loop over [tip_patterns], starting from the default. *)
Fixpoint detect_tips (patterns : list regex) (response : str) (health_tips : list str)
  : list str :=
  match patterns with
  | [] => health_tips
  | pattern :: rest =>
      match findall pattern response with
      | m :: _ =>
          let tips_text := unquote m in
          let tips :=
            map strip
              (filter (fun t => negb (str_eqb (strip t) []))
                      (split tip_separator tips_text)) in
          match tips with
          | [] => detect_tips rest response health_tips
          | _ :: _ => slice_to 3 tips
          end
      | [] => detect_tips rest response health_tips
      end
  end.

(** The names found in the reply, or the default name. *)
Definition detected_or_default (response : str) : list str :=
  match detect_foods food_patterns response with
  | [] => [u "Makanan dari foto"]
  | foods => foods
  end.

(** The record built from the extracted data. *)
Definition extracted_record (detected_foods : list str) (total_calories : Z)
           (health_tips : list str) (image_hash : str) : outcome dict :=
  nutritional_breakdown <- breakdown (PInt total_calories) ;;
  first <- portion (PStr (nth 0 detected_foods (u "Makanan utama")))
             "1 porsi utama" total_calories
             (flt 65 (-2)) (flt 1 (-1)) (flt 35 (-2)) (flt 2 (-1)) ;;
  second <- portion (PStr (nth 1 detected_foods (u "Makanan pendamping")))
              "1 porsi kecil" total_calories
              (flt 35 (-2)) (flt 6 (-2)) (flt 19 (-2)) (flt 1 (-1)) ;;
  Ok [(u "foods_detected", PList (map PStr detected_foods));
      (u "total_calories", PInt total_calories);
      (u "nutritional_breakdown", nutritional_breakdown);
      (u "individual_foods", PList [first; second]);
      (u "health_tips", PList (map PStr health_tips));
      (u "confidence_score", PFloat (flt 75 (-2)));
      (u "note",
        PStr ([240; 376; 167; 160]%N ++ u " Ekstraksi manual dari respons AI (ID: "
                ++ image_hash ++ u ")"));
      (u "analysis_source", PyStr "extracted_llm");
      (u "image_id", PStr image_hash)].

Definition _extract_from_llm_response (response image_hash : str) : outcome dict :=
  try_except
    (let detected_foods := detected_or_default response in
     let total_calories := detect_calories calorie_patterns response 450 in
     let health_tips :=
       detect_tips tip_patterns response
         [u "Konsumsi dengan porsi seimbang"; u "Perbanyak sayuran"; u "Minum air putih cukup"] in
     extracted_record detected_foods total_calories health_tips image_hash)
    (fun _ => _create_smart_fallback image_hash).

(** *** The parsing section of [analyze_food] *)

(** The robot prefix of the three parse notes. *)
Definition robot : str := [240; 376; 164; 8211]%N.

(** The three assignments that follow a successful validation. *)
Definition stamp (validated_result : dict) (how source : string) (image_hash : str) : dict :=
  dict_set (u "image_id") (PStr image_hash)
    (dict_set (u "analysis_source") (PyStr source)
       (dict_set (u "note")
          (PStr (robot ++ u " " ++ u how ++ u " (ID: " ++ image_hash ++ u ")"))
          validated_result)).

(** [try: ... except json.JSONDecodeError: ...] around one candidate: the
    decode error alone is swallowed. *)
Definition except_decode_error {A} (body : outcome (option A)) : outcome (option A) :=
  match body with
  | Raise JSONDecodeError => Ok None
  | other => other
  end.

(** One candidate text: decoded, shape-checked, validated and stamped.
    [None] means that the pipeline goes on with the next candidate. *)
Definition attempt (candidate : str) (how source : string) (image_hash : str)
  : outcome (option dict) :=
  except_decode_error
    (parsed_result <- Json.loads candidate ;;
     valid <- _is_valid_nutrition_result parsed_result ;;
     if valid then
       match parsed_result with
       | PDict d =>
           validated_result <- _validate_llm_result d ;;
           Ok (Some (stamp validated_result how source image_hash))
       | _ => Raise TypeError
       end
     else Ok None).

(** The [for] loops of methods 2 and 3: the first accepted candidate wins. *)
Fixpoint attempt_each (candidates : list str) (how source : string) (image_hash : str)
  : outcome (option dict) :=
  match candidates with
  | [] => Ok None
  | candidate :: rest =>
      r <- attempt (strip candidate) how source image_hash ;;
      match r with
      | Some record => Ok (Some record)
      | None => attempt_each rest how source image_hash
      end
  end.

Definition backticks : string := "```".

(** Method 2: a fenced block, with an optional json tag, holding braces;
    [re.DOTALL | re.IGNORECASE]. *)
Definition json_block : regex :=
  Seq (lit backticks)
    (Seq (Opt (lit_ci "json"))
       (Seq (Star true space)
          (Seq (Group (Seq (lit "{") (Seq (Star false (Chr any_char)) (lit "}"))))
             (Seq (Star true space) (lit backticks))))).

(** Method 3: braces with at most one level of braces inside; [re.DOTALL]. *)
Definition json_pattern : regex :=
  let no_brace := Chr (none_of (u "{}")) in
  Seq (lit "{")
    (Seq (Star true
            (Alt no_brace
                 (Star true (Seq (lit "{") (Seq (Star true no_brace) (lit "}"))))))
       (lit "}")).

Definition explanation_keywords : list str :=
  [u "image processing"; u "computer vision"; u "cannot analyze"].

Definition is_explanation (response_text : str) : bool :=
  existsb (fun keyword => contains keyword (lower response_text)) explanation_keywords.

Definition response_cleaned (response_text : str) : str :=
  replace (u backticks) [] (replace (u backticks ++ u "json") [] (strip response_text)).

(** Method 1 *)
Definition direct_parse (response_text image_hash : str) : outcome (option dict) :=
  let cleaned := response_cleaned response_text in
  if startswith (u "{") cleaned && endswith (u "}") cleaned
  then attempt cleaned "Direct JSON parse" "direct_json" image_hash
  else Ok None.

(** Method 2 *)
Definition code_block_parse (response_text image_hash : str) : outcome (option dict) :=
  attempt_each (findall json_block response_text)
    "Code block JSON parse" "code_block_json" image_hash.

(** Method 3 *)
Definition pattern_parse (response_text image_hash : str) : outcome (option dict) :=
  attempt_each (findall json_pattern response_text)
    "Pattern match JSON parse" "pattern_json" image_hash.

(** The body of the inner [try]. *)
Definition parse_response (response_text image_hash : str) : outcome dict :=
  r1 <- direct_parse response_text image_hash ;;
  match r1 with
  | Some record => Ok record
  | None =>
      r2 <- code_block_parse response_text image_hash ;;
      match r2 with
      | Some record => Ok record
      | None =>
          r3 <- pattern_parse response_text image_hash ;;
          match r3 with
          | Some record => Ok record
          | None =>
              if is_explanation response_text
              then _create_smart_fallback image_hash
              else _extract_from_llm_response response_text image_hash
          end
      end
  end.

(** The inner [try] with its handler: from the raw reply to the record. *)
Definition recover (response_text image_hash : str) : outcome dict :=
  try_except (parse_response response_text image_hash)
    (fun _ => _extract_from_llm_response response_text image_hash).

(** [analyze_food], given what the model call produced: its reply text or
    the exception it raised. *)
Definition analyze_food (reply : outcome str) (image_hash : str) : outcome dict :=
  try_except
    (response_text <- reply ;; recover response_text image_hash)
    (fun _ => _create_smart_fallback image_hash).

End NutritionAnalyzer.

(** ** The words of the specification *)

Module Spec.

Import Py NutritionAnalyzer.

(** A hex digest: hexadecimal digits only. *)
Definition is_hex (c : char) : bool :=
  match Json.hex_digit c with Some _ => true | None => false end.

Definition hex_digest (h : str) : bool := forallb is_hex h.

(** The fingerprint decoded as a base-16 non-negative integer. *)
Definition hex_value (c : char) : Z :=
  match Json.hex_digit c with Some d => Z.of_N d | None => 0%Z end.

Definition base16 (h : str) : Z :=
  fold_left (fun acc c => (acc * 16 + hex_value c)%Z) h 0%Z.

(** A text that [float] reads as a number: an optional sign, then inf,
    infinity or nan in any case, or a decimal literal with an optional
    exponent; whitespace around it is ignored. *)
Definition float_text : Re.regex :=
  let d := Re.Chr is_digit in
  let sign := Re.Opt (Re.Chr (Re.one_of (u "+-"))) in
  let exponent := Re.Seq (Re.Chr (Re.one_of (u "eE"))) (Re.Seq sign (Re.Plus d)) in
  let decimal :=
    Re.Alt (Re.Seq (Re.Plus d) (Re.Opt (Re.Seq (Re.lit ".") (Re.Star true d))))
           (Re.Seq (Re.lit ".") (Re.Plus d)) in
  Re.Seq sign
    (Re.Alt (Re.Seq decimal (Re.Opt exponent))
            (Re.Alt (Re.Seq (Re.lit_ci "inf") (Re.Opt (Re.lit_ci "inity")))
                    (Re.lit_ci "nan"))).

Definition reads_as_float (s : str) : bool :=
  match Re.run float_text (rstrip_by is_int_space (lstrip_by is_int_space s)) None
          (fun rest _ => match rest with [] => Some tt | _ :: _ => None end) with
  | Some _ => true
  | None => false
  end.

(** A value that is numeric or coercible to a number. *)
Definition numeric_or_coercible (v : pyval) : bool :=
  match v with
  | PInt _ | PFloat _ | PBool _ => true
  | PStr s => reads_as_float s
  | _ => false
  end.

(** The grams the specification derives from a calorie figure [c]:
    16 percent at 4 kcal per gram, 54 percent at 4, 30 percent at 9, one
    gram of fiber per 120 kcal but at least 4, one of sugar per 150 kcal but
    at least 3.  [round] is the integer division that rounds the quotient:
    [Z.div] rounds down, as the specification says, and [Z.quot] rounds
    toward zero. *)
Definition protein_g (round : Z -> Z -> Z) (c : Z) : Z := round (c * 16)%Z (100 * 4)%Z.
Definition carbohydrates_g (round : Z -> Z -> Z) (c : Z) : Z := round (c * 54)%Z (100 * 4)%Z.
Definition fat_g (round : Z -> Z -> Z) (c : Z) : Z := round (c * 30)%Z (100 * 9)%Z.
Definition fiber_g (round : Z -> Z -> Z) (c : Z) : Z := Z.max 4 (round c 120%Z).
Definition sugar_g (round : Z -> Z -> Z) (c : Z) : Z := Z.max 3 (round c 150%Z).

Definition derived_breakdown (round : Z -> Z -> Z) (c : Z) : pyval :=
  PDict [(u "calories", PInt c);
         (u "protein", in_grams (protein_g round c));
         (u "carbohydrates", in_grams (carbohydrates_g round c));
         (u "fat", in_grams (fat_g round c));
         (u "fiber", in_grams (fiber_g round c));
         (u "sugar", in_grams (sugar_g round c))].

(** The texts of the scenarios. *)
Definition quoted (s : string) : str := dquote :: u s ++ [dquote].

Definition minimal_json : str :=
  u "{" ++ quoted "foods_detected" ++ u ":[" ++ quoted "Nasi" ++ u "],"
    ++ quoted "total_calories" ++ u ":500}".

Definition fenced_json : str :=
  u "Here is the analysis:" ++ [nl] ++ u backticks ++ u "json" ++ [nl]
    ++ minimal_json ++ [nl] ++ u backticks.

Definition refusal_text : str :=
  u "I cannot analyze this image, it appears to be a general photo.".

Definition zero_calories_json : str :=
  u "{" ++ quoted "foods_detected" ++ u ":[" ++ quoted "Nasi" ++ u "],"
    ++ quoted "total_calories" ++ u ":0}".

Definition text_calories : pyval :=
  PDict [(u "foods_detected", PList [PyStr "Nasi"]);
         (u "total_calories", PyStr "unknown")].

(** The field set of the data model. *)
Definition core_fields : list str :=
  [u "foods_detected"; u "total_calories"; u "nutritional_breakdown";
   u "individual_foods"; u "health_tips"; u "confidence_score"].

Definition tag_fields : list str := [u "analysis_source"; u "note"].

Definition full_field_set : list str := core_fields ++ tag_fields ++ [u "image_id"].

Definition has_all (fields : list str) (record : dict) : bool :=
  forallb (fun k => dict_has k record) fields.

(** The tag of a record. *)
Definition source_is (tag : string) (record : dict) : Prop :=
  dict_get (u "analysis_source") record = Some (PyStr tag).

End Spec.

(** ** Checking the derived grams on a range of calorie figures *)

Module Range.

Import Py NutritionAnalyzer Spec.

(** The five gram figures computed for the int [c] agree with the
    specification's, the quotients rounded toward zero. *)
Definition agrees (c : Z) : bool :=
  match grams_int (PInt c) (flt 16 (-2)) 4,
        grams_int (PInt c) (flt 54 (-2)) 4,
        grams_int (PInt c) (flt 30 (-2)) 9,
        per_int (PInt c) 120,
        per_int (PInt c) 150 with
  | Ok protein, Ok carbohydrates, Ok fat, Ok fiber, Ok sugar =>
      ((protein =? (c * 16) ÷ (100 * 4)) && (carbohydrates =? (c * 54) ÷ (100 * 4))
       && (fat =? (c * 30) ÷ (100 * 9)) && (fiber =? c ÷ 120) && (sugar =? c ÷ 150))%Z
  | _, _, _, _, _ => false
  end.

(** [agrees] on every int of magnitude up to [n]. *)
Fixpoint agrees_upto (n : nat) : bool :=
  agrees (Z.of_nat n) && agrees (- Z.of_nat n) &&
  match n with
  | O => true
  | S k => agrees_upto k
  end.

(** The magnitude up to which the figures are checked. *)
Definition checked_magnitude : nat := Z.to_nat 10000.

(** The candidate of the macro derivation scenario and a negative one. *)
Definition candidate (c : Z) : dict :=
  [(u "foods_detected", PList [PyStr "Nasi"]); (u "total_calories", PInt c)].

(** A record that is already complete. *)
Definition complete_record : dict :=
  [(u "foods_detected", PList [PyStr "Nasi"]);
   (u "total_calories", PInt 500);
   (u "confidence_score", PFloat (flt 9 (-1)));
   (u "nutritional_breakdown", PDict [(u "calories", PInt 500)]);
   (u "individual_foods", PList []);
   (u "health_tips", PList [PyStr "Minum air"])].

End Range.

(** ** The same figures on the machine's floats *)

Module Machine.

Import Py NutritionAnalyzer Spec.

(** The constants of the breakdown as primitive floats and integers. *)
Definition of_spec (f : spec_float) : PrimFloat.float := FloatOps.SF2Prim f.

Definition ratio_16 : PrimFloat.float := Eval vm_compute in of_spec (flt 16 (-2)).
Definition ratio_54 : PrimFloat.float := Eval vm_compute in of_spec (flt 54 (-2)).
Definition ratio_30 : PrimFloat.float := Eval vm_compute in of_spec (flt 30 (-2)).

Definition float_4 : PrimFloat.float :=
  Eval vm_compute in of_spec (binary_normalize prec emax 4 0 false).
Definition float_9 : PrimFloat.float :=
  Eval vm_compute in of_spec (binary_normalize prec emax 9 0 false).
Definition float_120 : PrimFloat.float :=
  Eval vm_compute in of_spec (binary_normalize prec emax 120 0 false).
Definition float_150 : PrimFloat.float :=
  Eval vm_compute in of_spec (binary_normalize prec emax 150 0 false).
Definition two_62 : PrimFloat.float :=
  Eval vm_compute in of_spec (binary_normalize prec emax (2 ^ 62) 0 false).

Definition int (z : Z) : PrimInt63.int := Uint63Axioms.of_Z z.

Definition int_1 : PrimInt63.int := Eval vm_compute in int 1.
Definition int_16 : PrimInt63.int := Eval vm_compute in int 16.
Definition int_54 : PrimInt63.int := Eval vm_compute in int 54.
Definition int_30 : PrimInt63.int := Eval vm_compute in int 30.
Definition int_400 : PrimInt63.int := Eval vm_compute in int 400.
Definition int_900 : PrimInt63.int := Eval vm_compute in int 900.
Definition int_120 : PrimInt63.int := Eval vm_compute in int 120.
Definition int_150 : PrimInt63.int := Eval vm_compute in int 150.

(** The exponent bias of [frshiftexp] plus the precision. *)
Definition bias_53 : PrimInt63.int := Eval vm_compute in int (prec + FloatOps.shift).

(** [y] is zero or positive, and finite. *)
Definition nonneg_finite (y : PrimFloat.float) : bool :=
  PrimFloat.leb PrimFloat.zero y && PrimFloat.ltb y two_62.

(** [y] is zero or positive, below [2 ^ 62], and its integer part is [n]:
    the mantissa of [y], shifted right by the bits after the point. *)
Definition trunc_is (y : PrimFloat.float) (n : PrimInt63.int) : bool :=
  nonneg_finite y &&
  let '(m, e) := PrimFloat.frshiftexp y in
  PrimInt63.leb e bias_53 &&
  PrimInt63.eqb
    (PrimInt63.lsr (PrimFloat.normfr_mantissa m) (PrimInt63.sub bias_53 e)) n.

(** The five figures for the calorie figure [c], computed on the machine,
    are the quotients of the specification. *)
Definition ok_at (c : PrimInt63.int) : bool :=
  let x := PrimFloat.of_uint63 c in
  nonneg_finite x
  && trunc_is (PrimFloat.div (PrimFloat.mul x ratio_16) float_4)
       (PrimInt63.div (PrimInt63.mul c int_16) int_400)
  && trunc_is (PrimFloat.div (PrimFloat.mul x ratio_54) float_4)
       (PrimInt63.div (PrimInt63.mul c int_54) int_400)
  && trunc_is (PrimFloat.div (PrimFloat.mul x ratio_30) float_9)
       (PrimInt63.div (PrimInt63.mul c int_30) int_900)
  && trunc_is (PrimFloat.div x float_120) (PrimInt63.div c int_120)
  && trunc_is (PrimFloat.div x float_150) (PrimInt63.div c int_150).

Definition step (state : PrimInt63.int * bool) : PrimInt63.int * bool :=
  let '(c, ok) := state in (PrimInt63.add c int_1, ok && ok_at c).

(** [ok_at] on the first [n] calorie figures, from zero. *)
Definition all_ok (n : N) : bool := snd (N.iter n step (int 0, true)).

Definition negated (r : outcome Z) : outcome Z :=
  match r with
  | Ok n => Ok (- n)%Z
  | Raise e => Raise e
  end.

End Machine.

(** ** Notions used in the proofs *)

Module Notions.

Import Py NutritionAnalyzer Spec.

(** What one block of the validator does with the field it guards: a
    field that is present and well-typed leaves the record as it is, no
    other field is touched, and the field is well-typed afterwards. *)
Definition block_spec (is_ok : pyval -> bool) (key : str) (d : dict) (r : outcome dict)
  : Prop :=
  forall d', r = Ok d' ->
    (missing_or_not is_ok key d = false -> d' = d) /\
    (forall k, k <> key -> dict_get k d' = dict_get k d) /\
    (exists v, dict_get key d' = Some v /\ is_ok v = true).

(** The guarded fields with their type tests, in the order of the blocks. *)
Definition blocks : list (str * (pyval -> bool)) :=
  [(u "foods_detected", is_list);
   (u "total_calories", is_int_or_float);
   (u "confidence_score", fun _ => true);
   (u "nutritional_breakdown", is_dict);
   (u "individual_foods", is_list);
   (u "health_tips", is_list)].

Definition well_typed (d : dict) (b : str * (pyval -> bool)) : Prop :=
  exists v, dict_get (fst b) d = Some v /\ snd b v = true.

(** The shape the shape check asks for. *)
Definition shaped (d : dict) : Prop :=
  (exists x l, dict_get (u "foods_detected") d = Some (PList (x :: l))) /\
  (exists v, dict_get (u "total_calories") d = Some v).

(** The hexadecimal digits. *)
Definition hex_chars : list N :=
  [48; 49; 50; 51; 52; 53; 54; 55; 56; 57;
   97; 98; 99; 100; 101; 102; 65; 66; 67; 68; 69; 70]%N.

(** What the integer parser needs to know of a hexadecimal digit. *)
Definition plain_digit (c : char) : Prop :=
  is_int_space c = false /\
  (c =? 43)%N = false /\ (c =? 45)%N = false /\ (c =? 95)%N = false /\
  (c =? 120)%N = false /\ (c =? 88)%N = false /\
  digit_value c = Some (hex_value c) /\ (hex_value c <? 16)%Z = true.

(** The index the fallback selects. *)
Definition fallback_index (h : str) : nat :=
  Z.to_nat (base16 h mod Z.of_nat (length food_combinations)).

(** Where a returned record comes from: a candidate text that was decoded,
    accepted by the shape check, validated and stamped; or the record built
    from the extracted data; or the fallback. *)
Inductive produced (response_text h : str) (record : dict) : Prop :=
| by_parse (candidate : str) (d validated : dict) (how source : string) :
    Json.loads candidate = Ok (PDict d) ->
    shaped d ->
    _validate_llm_result d = Ok validated ->
    record = stamp validated how source h ->
    In source ["direct_json"; "code_block_json"; "pattern_json"]%string ->
    produced response_text h record
| by_extraction (cal : Z) (tips : list str) :
    extracted_record (detected_or_default response_text) cal tips h = Ok record ->
    produced response_text h record
| by_fallback :
    _create_smart_fallback h = Ok record ->
    produced response_text h record.

End Notions.

(** ** What a pattern matches *)

Module Meaning.

Import Py Re NutritionAnalyzer.

(** [sem r s g s1 g1]: the pattern [r] matches a prefix of [s] and leaves
    [s1]; the text of the group goes from [g] to [g1]. *)
Inductive sem : regex -> str -> option str -> str -> option str -> Prop :=
| sem_eps s g : sem Eps s g s g
| sem_chr (p : char -> bool) c s g : p c = true -> sem (Chr p) (c :: s) g s g
| sem_seq r1 r2 s g s1 g1 s2 g2 :
    sem r1 s g s1 g1 -> sem r2 s1 g1 s2 g2 -> sem (Seq r1 r2) s g s2 g2
| sem_alt_l r1 r2 s g s1 g1 : sem r1 s g s1 g1 -> sem (Alt r1 r2) s g s1 g1
| sem_alt_r r1 r2 s g s1 g1 : sem r2 s g s1 g1 -> sem (Alt r1 r2) s g s1 g1
| sem_group r s g s1 g1 :
    sem r s g s1 g1 ->
    sem (Group r) s g s1 (Some (firstn (length s - length s1) s))
| sem_star_stop b r s g : sem (Star b r) s g s g
| sem_star_step b r s g s1 g1 s2 g2 :
    sem r s g s1 g1 -> sem (Star b r) s1 g1 s2 g2 -> sem (Star b r) s g s2 g2.

(** A pattern without a group. *)
Fixpoint group_free (r : regex) : bool :=
  match r with
  | Eps | Chr _ => true
  | Seq r1 r2 | Alt r1 r2 => group_free r1 && group_free r2
  | Star _ r1 => group_free r1
  | Group _ => false
  end.

(** Three or four digits. *)
Definition three_or_four_digits (t : str) : Prop :=
  (length t = 3 \/ length t = 4)%nat /\ forallb is_digit t = true.

(** A pattern whose every match captures three or four digits. *)
Definition captures_digits (pattern : regex) : Prop :=
  forall s rest g,
    match_here pattern s = Some (rest, g) ->
    exists t, g = Some t /\ three_or_four_digits t.

(** What the integer parser needs to know of a decimal digit. *)
Definition plain_decimal (c : char) : bool :=
  negb (is_int_space c) && negb (c =? 43)%N && negb (c =? 45)%N && negb (c =? 95)%N
  && match digit_value c with
     | Some d => (0 <=? d)%Z && (d <? 10)%Z
     | None => false
     end.

(** The ten digits that start at the zero [z]. *)
Definition decade (z : N) : list N :=
  map (fun i => (z + N.of_nat i)%N) (seq 0 10).

End Meaning.

(** ** The portions on the machine's floats *)

Module Shares.

Import Py NutritionAnalyzer Spec Machine.

(** The shares and ratios of the [individual_foods] literals. *)
Definition ratio_60 : PrimFloat.float := Eval vm_compute in of_spec (flt 6 (-1)).
Definition ratio_03 : PrimFloat.float := Eval vm_compute in of_spec (flt 3 (-1)).
Definition ratio_10 : PrimFloat.float := Eval vm_compute in of_spec (flt 1 (-1)).
Definition ratio_15 : PrimFloat.float := Eval vm_compute in of_spec (flt 15 (-2)).
Definition ratio_55 : PrimFloat.float := Eval vm_compute in of_spec (flt 55 (-2)).
Definition ratio_65 : PrimFloat.float := Eval vm_compute in of_spec (flt 65 (-2)).
Definition ratio_35 : PrimFloat.float := Eval vm_compute in of_spec (flt 35 (-2)).
Definition ratio_20 : PrimFloat.float := Eval vm_compute in of_spec (flt 2 (-1)).
Definition ratio_06 : PrimFloat.float := Eval vm_compute in of_spec (flt 6 (-2)).
Definition ratio_19 : PrimFloat.float := Eval vm_compute in of_spec (flt 19 (-2)).

Definition int_3 : PrimInt63.int := Eval vm_compute in int 3.
Definition int_6 : PrimInt63.int := Eval vm_compute in int 6.
Definition int_10 : PrimInt63.int := Eval vm_compute in int 10.

(** The integer part of [y], read off its mantissa and exponent. *)
Definition trunc_of (y : PrimFloat.float) : PrimInt63.int :=
  let '(m, e) := PrimFloat.frshiftexp y in
  PrimInt63.lsr (PrimFloat.normfr_mantissa m) (PrimInt63.sub bias_53 e).

(** [int(y)] does not raise. *)
Definition truncates (y : PrimFloat.float) : bool := trunc_is y (trunc_of y).

(** The share and the ratio of the validator's entry at position [i]. *)
Definition share_at (i : nat) : PrimFloat.float * PrimInt63.int :=
  match i with
  | 0%nat => (ratio_60, int_6)
  | 1%nat => (ratio_03, int_3)
  | _ => (ratio_10, int_1)
  end.

(** The validator's entry at position [i] for the calorie figure [c]: the
    calories are the tenths of the figure, rounded down, and the three gram
    figures are computed without an exception. *)
Definition entry_ok_at (i : nat) (c : PrimInt63.int) : bool :=
  let x := PrimFloat.of_uint63 c in
  let '(share, tenths) := share_at i in
  let portion := PrimFloat.mul x share in
  trunc_is portion (PrimInt63.div (PrimInt63.mul c tenths) int_10)
  && truncates (PrimFloat.div (PrimFloat.mul portion ratio_15) float_4)
  && truncates (PrimFloat.div (PrimFloat.mul portion ratio_55) float_4)
  && truncates (PrimFloat.div (PrimFloat.mul portion ratio_30) float_9).

Definition entries_ok_at (c : PrimInt63.int) : bool :=
  nonneg_finite (PrimFloat.of_uint63 c)
  && entry_ok_at 0 c && entry_ok_at 1 c && entry_ok_at 2 c.

(** The two entries of the heuristic extraction for the calorie figure
    [c]: every figure is computed without an exception and the calories of
    the two entries do not exceed [c]. *)
Definition extraction_ok_at (c : PrimInt63.int) : bool :=
  let x := PrimFloat.of_uint63 c in
  let first := PrimFloat.mul x ratio_65 in
  let second := PrimFloat.mul x ratio_35 in
  nonneg_finite x
  && truncates first && truncates second
  && PrimInt63.leb (trunc_of first) c && PrimInt63.leb (trunc_of second) c
  && PrimInt63.leb (PrimInt63.add (trunc_of first) (trunc_of second)) c
  && truncates (PrimFloat.div (PrimFloat.mul x ratio_10) float_4)
  && truncates (PrimFloat.div (PrimFloat.mul x ratio_35) float_4)
  && truncates (PrimFloat.div (PrimFloat.mul x ratio_20) float_9)
  && truncates (PrimFloat.div (PrimFloat.mul x ratio_06) float_4)
  && truncates (PrimFloat.div (PrimFloat.mul x ratio_19) float_4)
  && truncates (PrimFloat.div (PrimFloat.mul x ratio_10) float_9).

(** A check on every calorie figure below [n], from zero. *)
Definition check_step (check : PrimInt63.int -> bool) (state : PrimInt63.int * bool)
  : PrimInt63.int * bool :=
  let '(c, ok) := state in (PrimInt63.add c int_1, ok && check c).

Definition all_below (check : PrimInt63.int -> bool) (n : N) : bool :=
  snd (N.iter n (check_step check) (int 0, true)).

(** The magnitude up to which the validator's figures are checked. *)
Definition validated_magnitude : Z := 100000.

(** The largest figure the extraction reads: four digits. *)
Definition extracted_magnitude : Z := 9999.

(** The tenths of the calorie figure that the validator's entry at
    position [i] gets: six, three, and one from the third entry on. *)
Definition tenths (i : nat) : Z :=
  match i with
  | 0%nat => 6
  | 1%nat => 3
  | _ => 1
  end.

(** The share of the validator's entry at position [i]. *)
Definition share_of (i : nat) : spec_float :=
  match i with
  | 0%nat => flt 6 (-1)
  | 1%nat => flt 3 (-1)
  | _ => flt 1 (-1)
  end.

(** [entry["calories"]] and [entry["name"]] of an [individual_foods] entry. *)
Definition calories_of (entry : pyval) : option pyval :=
  match entry with
  | PDict d => dict_get (u "calories") d
  | _ => None
  end.

Definition name_of (entry : pyval) : option pyval :=
  match entry with
  | PDict d => dict_get (u "name") d
  | _ => None
  end.

(** The value computed is some value. *)
Definition runs {A} (r : outcome A) : Prop := exists a, r = Ok a.

End Shares.

(** ** Conditions on a candidate *)

Module Conditions.

Import Py NutritionAnalyzer Spec Shares.

(** The calorie figure is absent or not a number, so that the validator
    replaces it, or it is an [int] of magnitude up to a hundred thousand. *)
Definition modest_calories (d : dict) : Prop :=
  missing_or_not is_int_or_float (u "total_calories") d = true \/
  exists c, dict_get (u "total_calories") d = Some (PInt c) /\
            (Z.abs c <= validated_magnitude)%Z.

Definition is_str (v : pyval) : bool :=
  match v with PStr _ => true | _ => false end.

(** When [foods_detected] is a list, its items are strings. *)
Definition named_foods (d : dict) : Prop :=
  forall l, dict_get (u "foods_detected") d = Some (PList l) -> forallb is_str l = true.

(** The record after the first three blocks. *)
Definition defaulted (d : dict) : dict :=
  ensure_confidence_score (ensure_total_calories (ensure_foods_detected d)).

(** The candidate of the macro derivation scenario, validated. *)
Definition validated_candidate : dict :=
  Eval vm_compute in
    match _validate_llm_result (Range.candidate 600) with
    | Ok validated => validated
    | Raise _ => []
    end.

(** [sum(entry["calories"] for entry in entries)] over the entries whose
    calories are an [int]. *)
Definition total_of (entries : list pyval) : Z :=
  fold_right
    (fun entry acc =>
       match calories_of entry with
       | Some (PInt n) => (n + acc)%Z
       | _ => acc
       end)
    0%Z entries.

(** The tips the extraction starts from. *)
Definition default_tips : list str :=
  [u "Konsumsi dengan porsi seimbang"; u "Perbanyak sayuran"; u "Minum air putih cukup"].

(** The tags of the five places that build a record. *)
Definition source_tags : list string :=
  ["direct_json"; "code_block_json"; "pattern_json"; "extracted_llm";
   "smart_fallback"]%string.

(** A reply whose calorie figure is the JSON literal NaN. *)
Definition nan_calories_json : str :=
  u "{" ++ quoted "foods_detected" ++ u ":[" ++ quoted "Nasi" ++ u "],"
    ++ quoted "total_calories" ++ u ":NaN}".

(** The calorie figures of the fallback's table. *)
Definition table_calories : list Z :=
  map (fun entry : string * string * string * Z => snd entry) food_combinations.

(** The breakdown of a calorie figure whose grams all round to zero. *)
Definition least_breakdown (total_calories : pyval) : pyval :=
  PDict [(u "calories", total_calories);
         (u "protein", in_grams 0);
         (u "carbohydrates", in_grams 0);
         (u "fat", in_grams 0);
         (u "fiber", in_grams 4);
         (u "sugar", in_grams 3)].

(** A candidate whose calorie figure is the JSON literal true. *)
Definition true_calories : dict :=
  [(u "foods_detected", PList [PyStr "Nasi"]); (u "total_calories", PBool true)].

(** A text without a digit. *)
Definition digitless (s : str) : Prop := forall c, In c s -> is_digit c = false.

(** A float that [int] refuses, and the exception it raises. *)
Definition refused (f : spec_float) : option exn :=
  match f with
  | S754_nan => Some ValueError
  | S754_infinity _ => Some OverflowError
  | _ => None
  end.

End Conditions.

(** ** The other methods of the analyzer *)

Module Advisor.

Import Py NutritionAnalyzer.

(** [v[key]] for a [str] key: a dict gives the value or raises
    [KeyError]; no other value takes a [str] as index. *)
Definition getitem (v : pyval) (key : str) : outcome pyval :=
  match v with
  | PDict d =>
      match dict_get key d with
      | Some x => Ok x
      | None => Raise KeyError
      end
  | _ => Raise TypeError
  end.

(** An [int] or a [bool] as an [int]. *)
Definition as_int (v : pyval) : option Z :=
  match v with
  | PInt z => Some z
  | PBool b => Some (if b then 1 else 0)%Z
  | _ => None
  end.

(** [a + b]: the sum of two numbers, an [int] when both are [int]s or
    [bool]s and a float otherwise; two strings or two lists are
    concatenated; anything else is a [TypeError]. *)
Definition add (a b : pyval) : outcome pyval :=
  match as_int a, as_int b with
  | Some x, Some y => Ok (PInt (x + y))
  | _, _ =>
      match a, b with
      | PStr s, PStr t => Ok (PStr (s ++ t))
      | PList l, PList m => Ok (PList (l ++ m))
      | _, _ =>
          if is_int_or_float a && is_int_or_float b then
            x <- to_float a ;;
            y <- to_float b ;;
            Ok (PFloat (SFadd prec emax x y))
          else Raise TypeError
      end
  end.

(** The items that iterating over a value yields: the items of a list,
    the characters of a string, the keys of a dict. *)
Definition items_of (v : pyval) : outcome (list pyval) :=
  match v with
  | PList l => Ok l
  | PStr s => Ok (map (fun c => PStr [c]) s)
  | PDict d => Ok (map (fun kv => PStr (fst kv)) d)
  | _ => Raise TypeError
  end.

(** [try: body  except: pass] around an update of [total]. *)
Definition or_keep (body : outcome pyval) (total : pyval) : pyval :=
  match body with
  | Ok updated => updated
  | Raise _ => total
  end.

Section Gateway.

(** The model behind [self.llm.invoke]: from the prompt to the text of the
    reply, or to the exception of the call. *)
Variable invoke : str -> outcome str.

(** [str(v)] for the values whose text is not fixed below: floats, lists
    and dicts. *)
Variable text_of : pyval -> str.

(** The text an f-string puts for a value. *)
Definition formatted (v : pyval) : str :=
  match v with
  | PInt z => str_of_int z
  | PStr s => s
  | PBool true => u "True"
  | PBool false => u "False"
  | PNone => u "None"
  | other => text_of other
  end.

Definition advice_prompt (foods : str) (total_calories : pyval) : str :=
  u "Berikan saran nutrisi singkat untuk konsumsi makanan: " ++ foods
    ++ u " (Total kalori: " ++ formatted total_calories ++ u ")." ++ [nl; nl]
    ++ u "Berikan:" ++ [nl]
    ++ u "1. Evaluasi singkat" ++ [nl]
    ++ u "2. Saran pelengkap" ++ [nl]
    ++ u "3. Tips sehat" ++ [nl; nl]
    ++ u "Maksimal 200 kata, dalam bahasa Indonesia.".

Definition fixed_advice : str :=
  u "Saran: Konsumsi makanan seimbang dengan 4 sehat 5 sempurna. "
    ++ u "Perbanyak sayur dan buah, kurangi gorengan, dan minum air putih yang cukup.".

Definition get_nutrition_advice (nutrition_data : pyval) : outcome str :=
  try_except
    (total_calories <- get nutrition_data (u "total_calories") (PyStr "N/A") ;;
     detected <- get nutrition_data (u "foods_detected") (PList []) ;;
     names <- items_of detected ;;
     foods <- join (u ", ") names ;;
     invoke (advice_prompt foods total_calories))
    (fun _ => Ok fixed_advice).

(** One pass of the loop over [logs]. *)
Definition counted (log total_calories : pyval) : outcome pyval :=
  has_result <- has_field (u "analysis_result") log ;;
  has_calories <-
    (if has_result
     then (analysis_result <- getitem log (u "analysis_result") ;;
           has_field (u "total_calories") analysis_result)
     else Ok false) ;;
  if has_calories then
    Ok (or_keep
          (analysis_result <- getitem log (u "analysis_result") ;;
           calories <- getitem analysis_result (u "total_calories") ;;
           if is_int_or_float calories then add total_calories calories
           else Ok total_calories)
          total_calories)
  else Ok total_calories.

Fixpoint counted_all (logs : list pyval) (total_calories : pyval) : outcome pyval :=
  match logs with
  | [] => Ok total_calories
  | log :: rest =>
      total_calories <- counted log total_calories ;;
      counted_all rest total_calories
  end.

Definition summary_prompt (total_meals : nat) (total_calories : pyval) : str :=
  u "Ringkasan nutrisi harian:" ++ [nl]
    ++ u "- Total makanan: " ++ str_of_int (Z.of_nat total_meals) ++ u " kali" ++ [nl]
    ++ u "- Perkiraan kalori: " ++ formatted total_calories ++ u " kcal" ++ [nl; nl]
    ++ u "Berikan evaluasi singkat dan saran untuk besok (maksimal 150 kata).".

Definition no_data : str := u "Belum ada data konsumsi makanan hari ini.".

Definition fixed_summary (logs : list pyval) : str :=
  u "Ringkasan hari ini: " ++ str_of_int (Z.of_nat (length logs))
    ++ u " kali makan. Pastikan asupan nutrisi seimbang dan minum air yang cukup.".

Definition get_daily_nutrition_summary (logs : list pyval) : outcome str :=
  try_except
    (match logs with
     | [] => Ok no_data
     | _ :: _ =>
         let total_meals := length logs in
         total_calories <- counted_all logs (PInt 0) ;;
         invoke (summary_prompt total_meals total_calories)
     end)
    (fun _ => Ok (fixed_summary logs)).

End Gateway.

(** The size the image is given before it is encoded: [None] when it is
    left as it is, the new width and height when it is resized. *)
Definition float_min (a b : spec_float) : spec_float :=
  if SFltb b a then b else a.

Definition resized_to (width height : Z) : outcome (option (Z * Z)) :=
  let max_width := 800%Z in
  let max_height := 600%Z in
  if ((max_width <? width) || (max_height <? height))%Z then
    by_width <- int_truediv max_width width ;;
    by_height <- int_truediv max_height height ;;
    let scale_factor := float_min by_width by_height in
    w <- mul_float (PInt width) scale_factor ;;
    new_width <- int_of_float w ;;
    h <- mul_float (PInt height) scale_factor ;;
    new_height <- int_of_float h ;;
    Ok (Some (new_width, new_height))
  else Ok None.

(** [sep.join(names)] for strings. *)
Fixpoint joined (sep : str) (names : list str) : str :=
  match names with
  | [] => []
  | [a] => a
  | a :: rest => a ++ sep ++ joined sep rest
  end.

(** A log with an [int] calorie figure. *)
Definition int_log (log : pyval) (c : Z) : Prop :=
  exists l record,
    log = PDict l /\
    dict_get (u "analysis_result") l = Some (PDict record) /\
    dict_get (u "total_calories") record = Some (PInt c).

(** A model that always gives the same reply, and one that always fails. *)
Definition replying (reply : str) : str -> outcome str := fun _ => Ok reply.
Definition failing (e : exn) : str -> outcome str := fun _ => Raise e.

End Advisor.

(** ** The daily totals of the database manager *)

Module DatabaseManager.

Import Py NutritionAnalyzer Advisor.

(** The document [save_daily_meal] stores. *)
Definition meal_data (username today meal_type image_data : pyval)
           (analysis_result : dict) (timestamp : pyval) : pyval :=
  PDict [(u "username", username);
         (u "date", today);
         (u "meal_type", meal_type);
         (u "image_data", image_data);
         (u "analysis_result", PDict analysis_result);
         (u "timestamp", timestamp)].

Record totals := {
  total_calories : pyval;
  total_protein : pyval;
  total_carbs : pyval;
  total_fat : pyval
}.

(** One pass of the loop over [meals]. *)
Definition summed (meal : pyval) (t : totals) : outcome totals :=
  result <- get meal (u "analysis_result") (PDict []) ;;
  calories <- get result (u "total_calories") (PInt 0) ;;
  total_calories <- add (total_calories t) calories ;;
  nutrition <- get result (u "nutritional_breakdown") (PDict []) ;;
  protein <- get nutrition (u "protein") (PInt 0) ;;
  total_protein <- add (total_protein t) protein ;;
  carbohydrates <- get nutrition (u "carbohydrates") (PInt 0) ;;
  total_carbs <- add (total_carbs t) carbohydrates ;;
  fat <- get nutrition (u "fat") (PInt 0) ;;
  total_fat <- add (total_fat t) fat ;;
  Ok {| total_calories := total_calories;
        total_protein := total_protein;
        total_carbs := total_carbs;
        total_fat := total_fat |}.

Fixpoint summed_all (meals : list pyval) (t : totals) : outcome totals :=
  match meals with
  | [] => Ok t
  | meal :: rest => t <- summed meal t ;; summed_all rest t
  end.

(** [get_daily_nutrition_summary], given the meals of the day that
    [get_daily_meals] found. *)
Definition get_daily_nutrition_summary (meals : list pyval) : outcome dict :=
  let start := {| total_calories := PInt 0; total_protein := PInt 0;
                  total_carbs := PInt 0; total_fat := PInt 0 |} in
  let meal_count := length meals in
  t <- summed_all meals start ;;
  Ok [(u "total_calories", total_calories t);
      (u "total_protein", total_protein t);
      (u "total_carbs", total_carbs t);
      (u "total_fat", total_fat t);
      (u "meal_count", PInt (Z.of_nat meal_count));
      (u "meals", PList meals)].

(** A meal whose record holds [int] figures only. *)
Definition int_meal (meal : pyval) (figures : Z * Z * Z * Z) : Prop :=
  let '(calories, protein, carbohydrates, fat) := figures in
  exists m record b,
    meal = PDict m /\
    dict_get (u "analysis_result") m = Some (PDict record) /\
    dict_get (u "total_calories") record = Some (PInt calories) /\
    dict_get (u "nutritional_breakdown") record = Some (PDict b) /\
    dict_get (u "protein") b = Some (PInt protein) /\
    dict_get (u "carbohydrates") b = Some (PInt carbohydrates) /\
    dict_get (u "fat") b = Some (PInt fat).

Definition sum_of (pick : Z * Z * Z * Z -> Z) (figures : list (Z * Z * Z * Z)) : Z :=
  fold_right (fun f acc => (pick f + acc)%Z) 0%Z figures.

Definition calories_in (f : Z * Z * Z * Z) : Z := fst (fst (fst f)).
Definition protein_in (f : Z * Z * Z * Z) : Z := snd (fst (fst f)).
Definition carbohydrates_in (f : Z * Z * Z * Z) : Z := snd (fst f).
Definition fat_in (f : Z * Z * Z * Z) : Z := snd f.

(** A meal with [int] figures. *)
Definition int_figures_meal : pyval :=
  PDict [(u "analysis_result",
          PDict [(u "total_calories", PInt 500);
                 (u "nutritional_breakdown",
                  PDict [(u "protein", PInt 20); (u "carbohydrates", PInt 60);
                         (u "fat", PInt 15)])])].

End DatabaseManager.

(** ** The size of the image on the machine's floats *)

Module Sizes.

Import Py NutritionAnalyzer Machine Shares Advisor.

Definition float_800 : PrimFloat.float :=
  Eval vm_compute in of_spec (binary_normalize prec emax 800 0 false).
Definition float_600 : PrimFloat.float :=
  Eval vm_compute in of_spec (binary_normalize prec emax 600 0 false).

Definition int_800 : PrimInt63.int := Eval vm_compute in int 800.
Definition int_600 : PrimInt63.int := Eval vm_compute in int 600.
Definition int_799 : PrimInt63.int := Eval vm_compute in int 799.
Definition int_599 : PrimInt63.int := Eval vm_compute in int 599.

(** [int(y)] does not raise and its value passes [k]. *)
Definition with_trunc (y : PrimFloat.float) (k : PrimInt63.int -> bool) : bool :=
  nonneg_finite y &&
  let '(m, e) := PrimFloat.frshiftexp y in
  PrimInt63.leb e bias_53 &&
  k (PrimInt63.lsr (PrimFloat.normfr_mantissa m) (PrimInt63.sub bias_53 e)).

Definition min_int (a b : PrimInt63.int) : PrimInt63.int :=
  if PrimInt63.ltb b a then b else a.

(** The size an image of [w] by [h] pixels is given: when it is resized,
    the new size fits 800 by 600, is not larger than the image, and
    reaches the width or the height of the box up to one pixel. *)
Definition size_ok (w h : PrimInt63.int) (fw by_width : PrimFloat.float) : bool :=
  if PrimInt63.ltb int_800 w || PrimInt63.ltb int_600 h then
    let fh := PrimFloat.of_uint63 h in
    let by_height := PrimFloat.div float_600 fh in
    let scale := if PrimFloat.ltb by_height by_width then by_height else by_width in
    nonneg_finite fh
    && with_trunc (PrimFloat.mul fw scale) (fun new_width =>
         with_trunc (PrimFloat.mul fh scale) (fun new_height =>
           PrimInt63.leb new_width (min_int w int_800)
           && PrimInt63.leb new_height (min_int h int_600)
           && (PrimInt63.leb int_799 new_width || PrimInt63.leb int_599 new_height)))
  else true.

(** [size_ok] for the width after [w0] and every height from 1 to [n]. *)
Definition sizes_ok_at (n : N) (w0 : PrimInt63.int) : bool :=
  let w := PrimInt63.add w0 int_1 in
  let fw := PrimFloat.of_uint63 w in
  nonneg_finite fw
  && let by_width := PrimFloat.div float_800 fw in
     all_below (fun h0 => size_ok w (PrimInt63.add h0 int_1) fw by_width) n.

(** What the new size has to satisfy. *)
Definition fits (width height : Z) (r : outcome (option (Z * Z))) : Prop :=
  match r with
  | Ok None => (width <= 800 /\ height <= 600)%Z
  | Ok (Some (new_width, new_height)) =>
      (800 < width \/ 600 < height)%Z /\
      (0 <= new_width <= Z.min width 800)%Z /\
      (0 <= new_height <= Z.min height 600)%Z /\
      (799 <= new_width \/ 599 <= new_height)%Z
  | Raise _ => False
  end.

End Sizes.

(** ** Facts about the runtime *)

Import Py NutritionAnalyzer Spec Range Machine Notions.

Lemma str_eqb_refl (a : str) : str_eqb a a = true.
Proof. unfold str_eqb. destruct (str_eq_dec a a); congruence. Qed.

Lemma str_eqb_eq (a b : str) : str_eqb a b = true <-> a = b.
Proof. unfold str_eqb. destruct (str_eq_dec a b); split; congruence. Qed.

Lemma str_eqb_neq (a b : str) : a <> b -> str_eqb a b = false.
Proof. unfold str_eqb. destruct (str_eq_dec a b); congruence. Qed.

Lemma dict_get_set_same (k : str) (v : pyval) (d : dict) :
  dict_get k (dict_set k v d) = Some v.
Proof.
  induction d as [|[k' v'] d IH]; simpl.
  - now rewrite str_eqb_refl.
  - destruct (str_eqb k k') eqn:E; simpl; rewrite E; auto.
Qed.

Lemma dict_get_set_other (k k' : str) (v : pyval) (d : dict) :
  k <> k' -> dict_get k (dict_set k' v d) = dict_get k d.
Proof.
  intros Hne. induction d as [|[k0 v0] d IH]; simpl.
  - rewrite str_eqb_neq; auto.
  - destruct (str_eqb k' k0) eqn:E; simpl.
    + apply str_eqb_eq in E. subst k0.
      rewrite str_eqb_neq; auto.
    + destruct (str_eqb k k0); auto.
Qed.

Lemma dict_has_set (k k' : str) (v : pyval) (d : dict) :
  dict_has k d = true -> dict_has k (dict_set k' v d) = true.
Proof.
  unfold dict_has. intros H.
  destruct (str_eq_dec k k') as [->|Hne].
  - now rewrite dict_get_set_same.
  - now rewrite dict_get_set_other.
Qed.

Lemma dict_has_set_same (k : str) (v : pyval) (d : dict) :
  dict_has k (dict_set k v d) = true.
Proof. unfold dict_has. now rewrite dict_get_set_same. Qed.

(** ** Facts about the validator *)

Ltac str_neq := let H := fresh in intro H; vm_compute in H; discriminate H.

Ltac bind_inv H :=
  match type of H with
  | bind ?m _ = Ok _ =>
      let E := fresh "E" in
      destruct m eqn:E; simpl in H; [| discriminate H]
  end.

Lemma missing_or_not_false (is_ok : pyval -> bool) (key : str) (d : dict) :
  missing_or_not is_ok key d = false <->
  exists v, dict_get key d = Some v /\ is_ok v = true.
Proof.
  unfold missing_or_not. destruct (dict_get key d) as [v|].
  - split.
    + intros H. exists v. split; auto. now apply negb_false_iff.
    + intros [v' [E H]]. injection E as <-. now rewrite H.
  - split; [discriminate | intros [v [E _]]; discriminate].
Qed.

Lemma block_set (is_ok : pyval -> bool) (key : str) (d : dict) (v : pyval) :
  is_ok v = true ->
  block_spec is_ok key d
    (if missing_or_not is_ok key d then Ok (dict_set key v d) else Ok d).
Proof.
  intros Hv d' H. destruct (missing_or_not is_ok key d) eqn:M;
    injection H as <-.
  - split; [discriminate | split].
    + intros k Hk. now apply dict_get_set_other.
    + exists v. split; auto. apply dict_get_set_same.
  - split; [reflexivity | split; auto].
    now apply missing_or_not_false.
Qed.

Lemma ensure_foods_detected_spec (d : dict) :
  block_spec is_list (u "foods_detected") d (Ok (ensure_foods_detected d)).
Proof.
  unfold ensure_foods_detected.
  generalize (@block_set is_list (u "foods_detected") d
                (PList [PyStr "Makanan dari analisis AI"]) eq_refl).
  now destruct (missing_or_not is_list (u "foods_detected") d).
Qed.

Lemma ensure_total_calories_spec (d : dict) :
  block_spec is_int_or_float (u "total_calories") d (Ok (ensure_total_calories d)).
Proof.
  unfold ensure_total_calories.
  generalize (@block_set is_int_or_float (u "total_calories") d (PInt 450) eq_refl).
  now destruct (missing_or_not is_int_or_float (u "total_calories") d).
Qed.

Lemma ensure_confidence_score_spec (d : dict) :
  block_spec (fun _ => true) (u "confidence_score") d (Ok (ensure_confidence_score d)).
Proof.
  unfold ensure_confidence_score.
  generalize (@block_set (fun _ => true) (u "confidence_score") d
                (PFloat (flt 8 (-1))) eq_refl).
  unfold missing_or_not, dict_has.
  now destruct (dict_get (u "confidence_score") d).
Qed.

Lemma ensure_nutritional_breakdown_spec (d : dict) :
  block_spec is_dict (u "nutritional_breakdown") d (ensure_nutritional_breakdown d).
Proof.
  unfold ensure_nutritional_breakdown. intros d' H.
  destruct (missing_or_not is_dict (u "nutritional_breakdown") d) eqn:M.
  - destruct (dict_get (u "total_calories") d) as [tc|]; [| discriminate H].
    bind_inv H. injection H as <-.
    split; [discriminate | split].
    + intros k Hk. now apply dict_get_set_other.
    + exists a. split; [apply dict_get_set_same |].
      unfold breakdown in E.
      repeat bind_inv E. now injection E as <-.
  - injection H as <-. split; [reflexivity | split; auto].
    now apply missing_or_not_false.
Qed.

Lemma ensure_individual_foods_spec (d : dict) :
  block_spec is_list (u "individual_foods") d (ensure_individual_foods d).
Proof.
  unfold ensure_individual_foods. intros d' H.
  destruct (missing_or_not is_list (u "individual_foods") d) eqn:M.
  - simpl in H.
    destruct (match dict_get (u "foods_detected") d with
              | Some v => v
              | None => PList [PyStr "Makanan utama"]
              end); try discriminate H.
    bind_inv H. injection H as <-.
    split; [discriminate | split].
    + intros k Hk. now apply dict_get_set_other.
    + eexists. split; [apply dict_get_set_same | reflexivity].
  - injection H as <-. split; [reflexivity | split; auto].
    now apply missing_or_not_false.
Qed.

Lemma ensure_health_tips_spec (d : dict) :
  block_spec is_list (u "health_tips") d (ensure_health_tips d).
Proof.
  unfold ensure_health_tips. intros d' H.
  destruct (missing_or_not is_list (u "health_tips") d) eqn:M.
  - simpl in H.
    destruct (match dict_get (u "foods_detected") d with
              | Some v => v
              | None => PList []
              end); try discriminate H.
    bind_inv H. injection H as <-.
    split; [discriminate | split].
    + intros k Hk. now apply dict_get_set_other.
    + eexists. split; [apply dict_get_set_same | reflexivity].
  - injection H as <-. split; [reflexivity | split; auto].
    now apply missing_or_not_false.
Qed.

(** The validator as the chain of its six blocks. *)
Lemma validate_chain (d d' : dict) :
  _validate_llm_result d = Ok d' ->
  exists d4 d5,
    ensure_nutritional_breakdown
      (ensure_confidence_score (ensure_total_calories (ensure_foods_detected d))) = Ok d4 /\
    ensure_individual_foods d4 = Ok d5 /\
    ensure_health_tips d5 = Ok d'.
Proof.
  unfold _validate_llm_result. intros H.
  bind_inv H. bind_inv H. eauto.
Qed.

Lemma validate_blocks (d d' : dict) :
  _validate_llm_result d = Ok d' ->
  exists d1 d2 d3 d4 d5,
    block_spec is_list (u "foods_detected") d (Ok d1) /\
    block_spec is_int_or_float (u "total_calories") d1 (Ok d2) /\
    block_spec (fun _ => true) (u "confidence_score") d2 (Ok d3) /\
    block_spec is_dict (u "nutritional_breakdown") d3 (Ok d4) /\
    block_spec is_list (u "individual_foods") d4 (Ok d5) /\
    block_spec is_list (u "health_tips") d5 (Ok d').
Proof.
  intros H. apply validate_chain in H. destruct H as [d4 [d5 [H4 [H5 H6]]]].
  exists (ensure_foods_detected d),
         (ensure_total_calories (ensure_foods_detected d)),
         (ensure_confidence_score (ensure_total_calories (ensure_foods_detected d))),
         d4, d5.
  split; [apply ensure_foods_detected_spec |].
  split; [apply ensure_total_calories_spec |].
  split; [apply ensure_confidence_score_spec |].
  split; [rewrite <- H4; apply ensure_nutritional_breakdown_spec |].
  split; [rewrite <- H5; apply ensure_individual_foods_spec |].
  rewrite <- H6; apply ensure_health_tips_spec.
Qed.

Ltac use_blocks H :=
  apply validate_blocks in H;
  destruct H as (d1 & d2 & d3 & d4 & d5 & B1 & B2 & B3 & B4 & B5 & B6);
  destruct (B1 _ eq_refl) as (K1 & O1 & T1);
  destruct (B2 _ eq_refl) as (K2 & O2 & T2);
  destruct (B3 _ eq_refl) as (K3 & O3 & T3);
  destruct (B4 _ eq_refl) as (K4 & O4 & T4);
  destruct (B5 _ eq_refl) as (K5 & O5 & T5);
  destruct (B6 _ eq_refl) as (K6 & O6 & T6);
  clear B1 B2 B3 B4 B5 B6.

(** After validation every guarded field is present and well-typed. *)
Lemma validate_typed (d d' : dict) :
  _validate_llm_result d = Ok d' -> Forall (well_typed d') blocks.
Proof.
  intros H. use_blocks H. unfold well_typed.
  repeat constructor; simpl.
  - rewrite O6, O5, O4, O3, O2 by str_neq. exact T1.
  - rewrite O6, O5, O4, O3 by str_neq. exact T2.
  - rewrite O6, O5, O4 by str_neq. exact T3.
  - rewrite O6, O5 by str_neq. exact T4.
  - rewrite O6 by str_neq. exact T5.
  - exact T6.
Qed.

(** Validation keeps every guarded field that was present and well-typed. *)
Lemma validate_keeps (d d' : dict) :
  _validate_llm_result d = Ok d' ->
  Forall (fun b => well_typed d b -> dict_get (fst b) d' = dict_get (fst b) d) blocks.
Proof.
  intros H. use_blocks H. unfold well_typed.
  repeat constructor; simpl; intros W; apply missing_or_not_false in W.
  - rewrite O6, O5, O4, O3, O2 by str_neq. now rewrite (K1 W).
  - rewrite O6, O5, O4, O3 by str_neq.
    assert (W' : missing_or_not is_int_or_float (u "total_calories") d1 = false).
    { apply missing_or_not_false. apply missing_or_not_false in W.
      now rewrite O1 by str_neq. }
    rewrite (K2 W'). now apply O1; str_neq.
  - rewrite O6, O5, O4 by str_neq.
    assert (W' : missing_or_not (fun _ => true) (u "confidence_score") d2 = false).
    { apply missing_or_not_false. apply missing_or_not_false in W.
      now rewrite O2, O1 by str_neq. }
    rewrite (K3 W'). now rewrite O2, O1 by str_neq.
  - rewrite O6, O5 by str_neq.
    assert (W' : missing_or_not is_dict (u "nutritional_breakdown") d3 = false).
    { apply missing_or_not_false. apply missing_or_not_false in W.
      now rewrite O3, O2, O1 by str_neq. }
    rewrite (K4 W'). now rewrite O3, O2, O1 by str_neq.
  - rewrite O6 by str_neq.
    assert (W' : missing_or_not is_list (u "individual_foods") d4 = false).
    { apply missing_or_not_false. apply missing_or_not_false in W.
      now rewrite O4, O3, O2, O1 by str_neq. }
    rewrite (K5 W'). now rewrite O4, O3, O2, O1 by str_neq.
  - assert (W' : missing_or_not is_list (u "health_tips") d5 = false).
    { apply missing_or_not_false. apply missing_or_not_false in W.
      now rewrite O5, O4, O3, O2, O1 by str_neq. }
    rewrite (K6 W'). now rewrite O5, O4, O3, O2, O1 by str_neq.
Qed.

(** On a record whose guarded fields are all present and well-typed the
    validator returns the record itself. *)
Lemma validate_well_typed (d : dict) :
  Forall (well_typed d) blocks -> _validate_llm_result d = Ok d.
Proof.
  intros W. unfold blocks in W.
  repeat match goal with
         | H : Forall _ (_ :: _) |- _ => inversion H; clear H; subst
         | H : well_typed _ _ |- _ => apply missing_or_not_false in H; simpl in H
         end.
  unfold _validate_llm_result.
  assert (E1 : ensure_foods_detected d = d).
  { unfold ensure_foods_detected.
    now match goal with H : missing_or_not is_list (u "foods_detected") d = false |- _ =>
      rewrite H end. }
  rewrite E1.
  assert (E2 : ensure_total_calories d = d).
  { unfold ensure_total_calories.
    now match goal with H : missing_or_not is_int_or_float _ d = false |- _ =>
      rewrite H end. }
  rewrite E2.
  assert (E3 : ensure_confidence_score d = d).
  { unfold ensure_confidence_score.
    match goal with H : missing_or_not (fun _ => true) _ d = false |- _ =>
      unfold missing_or_not in H; unfold dict_has;
      destruct (dict_get (u "confidence_score") d); [reflexivity | discriminate H] end. }
  rewrite E3.
  unfold ensure_nutritional_breakdown, ensure_individual_foods, ensure_health_tips.
  repeat match goal with H : missing_or_not _ _ d = false |- _ =>
    rewrite H; clear H; cbn [bind] end.
  reflexivity.
Qed.

(** Validating twice is validating once, on every record. *)
Lemma validate_twice (d d' : dict) :
  _validate_llm_result d = Ok d' -> _validate_llm_result d' = Ok d'.
Proof. intros H. apply validate_well_typed. now apply validate_typed in H. Qed.

(** ** Facts about the shape check *)

Lemma shape_check_dict (d : dict) :
  _is_valid_nutrition_result (PDict d) =
  Ok match dict_get (u "foods_detected") d with
     | Some (PList (_ :: _)) => dict_has (u "total_calories") d
     | _ => false
     end.
Proof.
  unfold _is_valid_nutrition_result, has_field, get, dict_has. cbn [bind].
  destruct (dict_get (u "foods_detected") d) as [v|]; cbn [bind]; [| reflexivity].
  destruct (dict_get (u "total_calories") d) as [c|]; cbn [bind].
  - destruct v as [| | | | | l |]; cbn; try reflexivity. now destruct l.
  - destruct v as [| | | | | l |]; cbn; try reflexivity. now destruct l.
Qed.

Lemma shape_check_only_dict (result : pyval) :
  _is_valid_nutrition_result result = Ok true -> exists d, result = PDict d.
Proof.
  destruct result as [| | | | s | l | d]; try (intros _; now eexists);
    unfold _is_valid_nutrition_result, has_field, get; cbn [bind];
    try discriminate.
  - destruct (contains (u "foods_detected") s); cbn [bind]; try discriminate.
    destruct (contains (u "total_calories") s); cbn [bind]; discriminate.
  - match goal with |- context [existsb ?f l] => destruct (existsb f l) end;
      cbn [bind]; try discriminate.
    match goal with |- context [existsb ?f l] => destruct (existsb f l) end;
      cbn [bind]; discriminate.
Qed.

Lemma shape_check_shaped (d : dict) :
  _is_valid_nutrition_result (PDict d) = Ok true <-> shaped d.
Proof.
  rewrite shape_check_dict. unfold shaped, dict_has. split.
  - intros H.
    destruct (dict_get (u "foods_detected") d) as [[| | | | | [|x l] |]|];
      try discriminate H.
    destruct (dict_get (u "total_calories") d) as [v|]; try discriminate H.
    split; eauto.
  - intros [[x [l ->]] [v ->]]. reflexivity.
Qed.

(** ** Facts about the fallback *)

Lemma is_hex_cases (c : char) : is_hex c = true -> In c hex_chars.
Proof.
  unfold is_hex, Json.hex_digit, in_range.
  destruct (48 <=? c)%N eqn:A1; destruct (c <=? 57)%N eqn:A2;
    destruct (97 <=? c)%N eqn:B1; destruct (c <=? 102)%N eqn:B2;
    destruct (65 <=? c)%N eqn:C1; destruct (c <=? 70)%N eqn:C2;
    cbn; try discriminate; intros _;
    repeat match goal with
           | H : (_ <=? _)%N = true |- _ => apply N.leb_le in H
           | H : (_ <=? _)%N = false |- _ => apply N.leb_gt in H
           end;
    unfold hex_chars; cbn [In]; lia.
Qed.

Lemma hex_plain_digit (c : char) : is_hex c = true -> plain_digit c.
Proof.
  intros H. apply is_hex_cases in H. unfold hex_chars in H. cbn [In] in H.
  repeat (destruct H as [<-|H]; [vm_compute; repeat split |]).
  contradiction.
Qed.

Lemma int_digits_hex (s : str) (acc : Z) (b : bool) :
  hex_digest s = true ->
  int_digits 16 s acc b =
  match s with
  | [] => if b then Some acc else None
  | _ :: _ => Some (fold_left (fun a c => (a * 16 + hex_value c)%Z) s acc)
  end.
Proof.
  revert acc b. induction s as [|c s IH]; intros acc b H; [reflexivity |].
  cbn [hex_digest forallb] in H. apply andb_prop in H. destruct H as [Hc Hs].
  destruct (hex_plain_digit c Hc) as (_ & _ & _ & U & _ & _ & D & L).
  cbn [int_digits]. rewrite U, D, L, (IH _ _ Hs).
  now destruct s.
Qed.

Lemma drop_while_head (p : char -> bool) (c : char) (s : str) :
  p c = false -> drop_while p (c :: s) = c :: s.
Proof. intros H. cbn. now rewrite H. Qed.

Lemma strip_hex (h : str) :
  hex_digest h = true ->
  rstrip_by is_int_space (lstrip_by is_int_space h) = h.
Proof.
  intros H. unfold rstrip_by, lstrip_by.
  destruct h as [|c r]; [reflexivity |].
  assert (Hc : is_hex c = true).
  { cbn [hex_digest forallb] in H. now apply andb_prop in H. }
  rewrite drop_while_head by apply (hex_plain_digit c Hc).
  assert (Hr : forallb is_hex (rev (c :: r)) = true).
  { apply forallb_forall. intros x Hx. apply in_rev in Hx.
    unfold hex_digest in H. rewrite forallb_forall in H. now apply H. }
  destruct (rev (c :: r)) as [|x t] eqn:E.
  - apply (f_equal (@length _)) in E. rewrite length_rev in E. discriminate E.
  - cbn [forallb] in Hr. apply andb_prop in Hr.
    rewrite drop_while_head by apply (hex_plain_digit x (proj1 Hr)).
    rewrite <- E. apply rev_involutive.
Qed.

(** On a non-empty hex digest [int(h, 16)] is the base-16 value of [h]. *)
Lemma int_of_str_hex (h : str) :
  hex_digest h = true -> h <> [] -> int_of_str h 16 = Ok (base16 h).
Proof.
  intros H Hne. unfold int_of_str. rewrite (strip_hex h H).
  destruct h as [|c r]; [contradiction |].
  assert (Hc : is_hex c = true).
  { cbn [hex_digest forallb] in H. now apply andb_prop in H. }
  destruct (hex_plain_digit c Hc) as (_ & P & M & _ & _ & _ & _ & _).
  rewrite P, M. cbn [Z.eqb Pos.eqb].
  destruct r as [|x r0].
  - now rewrite (int_digits_hex _ _ _ H).
  - assert (Hx : is_hex x = true).
    { cbn [hex_digest forallb] in H. apply andb_prop in H.
      destruct H as [_ H]. now apply andb_prop in H. }
    destruct (hex_plain_digit x Hx) as (_ & _ & _ & _ & X1 & X2 & _ & _).
    rewrite X1, X2, andb_false_r.
    now rewrite (int_digits_hex _ _ _ H).
Qed.

Lemma fallback_record_runs (selected : string * string * string * Z) (h : str) :
  In selected food_combinations -> exists record, fallback_record selected h = Ok record.
Proof.
  unfold food_combinations. cbn [In].
  intros H.
  repeat (destruct H as [<-|H]; [eexists; vm_compute; reflexivity |]).
  contradiction.
Qed.

Lemma fallback_record_fields (selected : string * string * string * Z) (h : str)
      (record : dict) :
  fallback_record selected h = Ok record ->
  has_all (core_fields ++ tag_fields) record = true /\
  dict_get (u "image_id") record = None /\
  source_is "smart_fallback" record /\
  dict_get (u "foods_detected") record =
    Some (PList [PyStr (fst (fst (fst selected))); PyStr (snd (fst (fst selected)));
                 PyStr (snd (fst selected))]) /\
  dict_get (u "total_calories") record = Some (PInt (snd selected)).
Proof.
  destruct selected as [[[f0 f1] f2] cal]. unfold fallback_record. intros H.
  repeat bind_inv H. injection H as <-.
  repeat split.
Qed.

Lemma fallback_index_bound (h : str) :
  (fallback_index h < length food_combinations)%nat.
Proof.
  unfold fallback_index. cbn [length food_combinations].
  assert (0 <= base16 h mod Z.of_nat 7 < Z.of_nat 7)%Z
    by (apply Z.mod_pos_bound; lia).
  lia.
Qed.

Lemma smart_fallback_selects (h : str) :
  hex_digest h = true ->
  exists selected,
    nth_error food_combinations (fallback_index h) = Some selected /\
    _create_smart_fallback h = fallback_record selected h.
Proof.
  intros H.
  destruct (nth_error food_combinations (fallback_index h)) as [sel|] eqn:E.
  - exists sel. split; [reflexivity |].
    unfold _create_smart_fallback.
    destruct h as [|c r].
    + cbn [bind]. unfold fallback_index in E. change (base16 []) with 0%Z in E.
      now rewrite E.
    + rewrite int_of_str_hex by (auto; discriminate). cbn [bind].
      unfold fallback_index in E. now rewrite E.
  - apply nth_error_None in E. pose proof (fallback_index_bound h). lia.
Qed.

Lemma smart_fallback_runs (h : str) :
  hex_digest h = true -> exists record, _create_smart_fallback h = Ok record.
Proof.
  intros H. destruct (smart_fallback_selects h H) as [sel [E ->]].
  apply fallback_record_runs. now apply nth_error_In in E.
Qed.

(** ** Facts about the extraction and the pipeline *)

Lemma detected_or_default_nonempty (response : str) :
  detected_or_default response <> [].
Proof.
  unfold detected_or_default.
  destruct (detect_foods food_patterns response); discriminate.
Qed.

Lemma extracted_record_fields (foods : list str) (cal : Z) (tips : list str)
      (h : str) (record : dict) :
  extracted_record foods cal tips h = Ok record ->
  has_all full_field_set record = true /\
  source_is "extracted_llm" record /\
  dict_get (u "foods_detected") record = Some (PList (map PStr foods)) /\
  dict_get (u "total_calories") record = Some (PInt cal).
Proof.
  unfold extracted_record. intros H.
  repeat bind_inv H. injection H as <-.
  repeat split.
Qed.

Lemma dict_get_stamp (k : str) (v : dict) (how source : string) (h : str) :
  k <> u "note" -> k <> u "analysis_source" -> k <> u "image_id" ->
  dict_get k (stamp v how source h) = dict_get k v.
Proof.
  intros N1 N2 N3. unfold stamp.
  now rewrite !dict_get_set_other by assumption.
Qed.

Lemma stamp_tags (v : dict) (how source : string) (h : str) :
  dict_get (u "image_id") (stamp v how source h) = Some (PStr h) /\
  dict_get (u "analysis_source") (stamp v how source h) = Some (PyStr source) /\
  dict_has (u "note") (stamp v how source h) = true.
Proof.
  unfold stamp. split; [apply dict_get_set_same |]. split.
  - rewrite dict_get_set_other by str_neq. apply dict_get_set_same.
  - do 2 apply dict_has_set. apply dict_has_set_same.
Qed.

Lemma attempt_inv (candidate : str) (how source : string) (h : str) (record : dict) :
  attempt candidate how source h = Ok (Some record) ->
  exists d validated,
    Json.loads candidate = Ok (PDict d) /\ shaped d /\
    _validate_llm_result d = Ok validated /\
    record = stamp validated how source h.
Proof.
  unfold attempt, except_decode_error. intros H.
  destruct (Json.loads candidate) as [parsed|e] eqn:L; cbn [bind] in H.
  - destruct (_is_valid_nutrition_result parsed) as [[|]|e] eqn:V; cbn [bind] in H.
    + destruct (shape_check_only_dict _ V) as [d ->].
      destruct (_validate_llm_result d) as [validated|e] eqn:W; cbn [bind] in H.
      * injection H as <-. exists d, validated.
        repeat split; auto; now apply shape_check_shaped.
      * destruct e; discriminate H.
    + discriminate H.
    + destruct e; discriminate H.
  - destruct e; discriminate H.
Qed.

Lemma attempt_each_inv (candidates : list str) (how source : string) (h : str)
      (record : dict) :
  attempt_each candidates how source h = Ok (Some record) ->
  exists candidate, attempt candidate how source h = Ok (Some record).
Proof.
  induction candidates as [|c cs IH]; cbn [attempt_each]; [discriminate |].
  intros H. destruct (attempt (strip c) how source h) as [[r|]|e] eqn:A;
    cbn [bind] in H.
  - injection H as <-. eauto.
  - auto.
  - discriminate H.
Qed.

Lemma extract_produced (response_text h : str) (record : dict) :
  _extract_from_llm_response response_text h = Ok record ->
  produced response_text h record.
Proof.
  unfold _extract_from_llm_response, try_except.
  match goal with |- context [extracted_record ?f ?c ?t h] =>
    destruct (extracted_record f c t h) eqn:E end.
  - intros H. injection H as <-. eapply by_extraction; eauto.
  - apply by_fallback.
Qed.

Lemma parse_response_produced (response_text h : str) (record : dict) :
  parse_response response_text h = Ok record -> produced response_text h record.
Proof.
  unfold parse_response. intros H.
  destruct (direct_parse response_text h) as [[r1|]|e] eqn:P1; cbn [bind] in H;
    [| | discriminate H].
  { injection H as <-. unfold direct_parse in P1.
    destruct (_ && _) in P1; [| discriminate P1].
    apply attempt_inv in P1. destruct P1 as (d & v & L & S & V & ->).
    eapply by_parse; eauto. cbn; auto. }
  destruct (code_block_parse response_text h) as [[r2|]|e] eqn:P2; cbn [bind] in H;
    [| | discriminate H].
  { injection H as <-. apply attempt_each_inv in P2. destruct P2 as [c P2].
    apply attempt_inv in P2. destruct P2 as (d & v & L & S & V & ->).
    eapply by_parse; eauto. cbn; auto. }
  destruct (pattern_parse response_text h) as [[r3|]|e] eqn:P3; cbn [bind] in H;
    [| | discriminate H].
  { injection H as <-. apply attempt_each_inv in P3. destruct P3 as [c P3].
    apply attempt_inv in P3. destruct P3 as (d & v & L & S & V & ->).
    eapply by_parse; eauto. cbn; auto. }
  destruct (is_explanation response_text).
  - now apply by_fallback.
  - now apply extract_produced.
Qed.

Lemma recover_produced (response_text h : str) (record : dict) :
  recover response_text h = Ok record -> produced response_text h record.
Proof.
  unfold recover, try_except.
  destruct (parse_response response_text h) eqn:P.
  - intros H. injection H as <-. now apply parse_response_produced.
  - apply extract_produced.
Qed.

Lemma extract_runs (response_text h : str) :
  hex_digest h = true ->
  exists record, _extract_from_llm_response response_text h = Ok record.
Proof.
  intros H. unfold _extract_from_llm_response, try_except.
  match goal with |- context [extracted_record ?f ?c ?t h] =>
    destruct (extracted_record f c t h) end.
  - eauto.
  - now apply smart_fallback_runs.
Qed.

Lemma recover_runs (response_text h : str) :
  hex_digest h = true -> exists record, recover response_text h = Ok record.
Proof.
  intros H. unfold recover, try_except.
  destruct (parse_response response_text h).
  - eauto.
  - now apply extract_runs.
Qed.

Lemma smart_fallback_inv (h : str) (record : dict) :
  _create_smart_fallback h = Ok record ->
  exists selected,
    In selected food_combinations /\ fallback_record selected h = Ok record.
Proof.
  unfold _create_smart_fallback. intros H. bind_inv H.
  destruct (nth_error food_combinations _) as [sel|] eqn:N; [| discriminate H].
  exists sel. split; auto. now apply nth_error_In in N.
Qed.

Lemma well_typed_has (d : dict) (b : str * (pyval -> bool)) :
  well_typed d b -> dict_has (fst b) d = true.
Proof. intros [v [E _]]. unfold dict_has. now rewrite E. Qed.

Lemma dict_has_stamp (k : str) (v : dict) (how source : string) (h : str) :
  dict_has k v = true -> dict_has k (stamp v how source h) = true.
Proof. intros H. unfold stamp. now do 3 apply dict_has_set. Qed.

Lemma validated_core_fields (d validated : dict) :
  _validate_llm_result d = Ok validated -> has_all core_fields validated = true.
Proof.
  intros H. apply validate_typed in H. unfold blocks in H.
  repeat match goal with
         | H : Forall _ (_ :: _) |- _ => inversion H; clear H; subst
         | H : well_typed _ _ |- _ => apply well_typed_has in H; cbn [fst] in H
         end.
  unfold has_all, core_fields. cbn [forallb].
  repeat match goal with H : dict_has _ validated = true |- _ =>
    rewrite H; clear H end.
  reflexivity.
Qed.

Lemma has_all_stamp (fields : list str) (v : dict) (how source : string) (h : str) :
  has_all fields v = true -> has_all fields (stamp v how source h) = true.
Proof.
  unfold has_all. rewrite !forallb_forall. intros H k Hk.
  apply dict_has_stamp. now apply H.
Qed.

Lemma has_all_app (a b : list str) (d : dict) :
  has_all (a ++ b) d = has_all a d && has_all b d.
Proof. unfold has_all. apply forallb_app. Qed.

(** Every returned record has the core fields, a tag and a note; it has an
    [image_id] unless it is the fallback's. *)
Lemma produced_fields (response_text h : str) (record : dict) :
  produced response_text h record ->
  has_all (core_fields ++ tag_fields) record = true /\
  (dict_has (u "image_id") record = true \/
   (source_is "smart_fallback" record /\ dict_has (u "image_id") record = false)).
Proof.
  intros [c d v how src L S V -> Hsrc | cal tips E | F].
  - destruct (stamp_tags v how src h) as (I & A & N).
    split.
    + rewrite has_all_app. apply andb_true_intro. split.
      * apply has_all_stamp. now apply validated_core_fields in V.
      * unfold has_all, tag_fields, dict_has. cbn [forallb].
        rewrite A. fold (dict_has (u "note") (stamp v how src h)).
        now rewrite N.
    + left. unfold dict_has. now rewrite I.
  - apply extracted_record_fields in E. destruct E as (F & _).
    unfold full_field_set in F. rewrite app_assoc, has_all_app in F.
    apply andb_prop in F. destruct F as [F1 F2]. split; auto.
    left. unfold has_all in F2. cbn [forallb] in F2. now rewrite andb_true_r in F2.
  - apply smart_fallback_inv in F. destruct F as (sel & _ & F).
    apply fallback_record_fields in F. destruct F as (F1 & F2 & F3 & _).
    split; auto. right. split; auto. unfold dict_has. now rewrite F2.
Qed.

(** Every returned record passes the shape check. *)
Lemma produced_shaped (response_text h : str) (record : dict) :
  produced response_text h record -> shaped record.
Proof.
  intros [c d v how src L S V -> Hsrc | cal tips E | F].
  - destruct S as [[x [l Hf]] [c0 Hc]]. unfold shaped.
    rewrite !dict_get_stamp by str_neq.
    pose proof (validate_keeps d V) as K. pose proof (validate_typed d V) as T.
    unfold blocks in K, T.
    inversion K as [|? ? K1 _]. inversion T as [|? ? _ T']. inversion T' as [|? ? T2 _].
    cbn [fst snd] in K1. split.
    + exists x, l. rewrite K1; auto. exists (PList (x :: l)). cbn. auto.
    + destruct T2 as [v0 [E0 _]]. eauto.
  - apply extracted_record_fields in E. destruct E as (_ & _ & Ef & Ec).
    pose proof (detected_or_default_nonempty response_text) as Hne.
    destruct (detected_or_default response_text) as [|f fs]; [contradiction |].
    split; [exists (PStr f), (map PStr fs) | exists (PInt cal)]; auto.
  - apply smart_fallback_inv in F. destruct F as (sel & _ & F).
    apply fallback_record_fields in F. destruct F as (_ & _ & _ & Ef & Ec).
    split; eauto.
Qed.

(** Every returned record has a numeric calorie figure; the fallback's is
    one of the table's, all of them positive. *)
Lemma produced_numeric (response_text h : str) (record : dict) :
  produced response_text h record ->
  exists v, dict_get (u "total_calories") record = Some v /\ is_int_or_float v = true.
Proof.
  intros [c d v how src L S V -> Hsrc | cal tips E | F].
  - rewrite dict_get_stamp by str_neq.
    pose proof (validate_typed d V) as T. unfold blocks in T.
    inversion T as [|? ? _ T']. inversion T' as [|? ? T2 _]. exact T2.
  - apply extracted_record_fields in E. destruct E as (_ & _ & _ & Ec). eauto.
  - apply smart_fallback_inv in F. destruct F as (sel & _ & F).
    apply fallback_record_fields in F. destruct F as (_ & _ & _ & _ & Ec). eauto.
Qed.

(** ** Facts about the machine floats *)

Lemma iter_xO_pow (m p : positive) :
  Zpos (Pos.iter xO m p) = (Zpos m * 2 ^ Zpos p)%Z.
Proof.
  induction p as [|p IH] using Pos.peano_ind.
  - cbn [Pos.iter]. lia.
  - rewrite Pos.iter_succ, Pos2Z.inj_succ, Z.pow_succ_r by lia.
    rewrite Pos2Z.inj_xO, IH. lia.
Qed.

(** The integer part of a float that is zero or positive, read off its
    normalised mantissa and exponent. *)
Lemma int_of_float_frexp (f : spec_float) :
  match f with
  | S754_zero _ | S754_finite false _ _ => True
  | _ => False
  end ->
  (snd (SFfrexp prec emax f) <= prec)%Z ->
  int_of_float f =
  Ok (Z.of_N (SFnormfr_mantissa prec (fst (SFfrexp prec emax f)))
        / 2 ^ (prec - snd (SFfrexp prec emax f)))%Z.
Proof.
  destruct f as [s| |  |[|] m e]; try contradiction; intros _.
  - reflexivity.
  - unfold SFfrexp, int_of_float.
    destruct (Z.leb prec (Zpos (digits2_pos m))) eqn:D; cbn [fst snd].
    + intros H. cbn [SFnormfr_mantissa]. rewrite Z.eqb_refl. cbn [Z.of_N].
      replace (prec - (e + prec))%Z with (- e)%Z by lia.
      rewrite <- Z.shiftr_div_pow2 by lia.
      now rewrite Z.shiftr_opp_r.
    + apply Z.leb_gt in D. intros H.
      cbn [SFnormfr_mantissa]. rewrite Z.eqb_refl. cbn [Z.of_N].
      set (d := (prec - Zpos (digits2_pos m))%Z) in *.
      assert (Hd : (0 < d)%Z) by (unfold d; lia).
      destruct d as [|pd|pd] eqn:Ed; try lia.
      cbn [Z.to_pos]. rewrite iter_xO_pow.
      replace (prec - (e + prec - Zpos pd))%Z with (Zpos pd - e)%Z by lia.
      destruct (Z.le_gt_cases 0 e) as [Pe|Ne].
      * rewrite Z.shiftl_mul_pow2 by lia.
        replace (2 ^ Zpos pd)%Z with (2 ^ e * 2 ^ (Zpos pd - e))%Z
          by (rewrite <- Z.pow_add_r by lia; f_equal; lia).
        rewrite Z.mul_assoc, Z.div_mul; auto.
        apply Z.pow_nonzero; lia.
      * rewrite <- (Z.opp_involutive e) at 1.
        rewrite Z.shiftl_opp_r, Z.shiftr_div_pow2 by lia.
        replace (2 ^ (Zpos pd - e))%Z with (2 ^ Zpos pd * 2 ^ (- e))%Z
          by (rewrite <- Z.pow_add_r by lia; f_equal; lia).
        rewrite (Z.mul_comm (Zpos m)).
        rewrite Z.div_mul_cancel_l; auto; apply Z.pow_nonzero; lia.
Qed.

Lemma binary_round_aux_opp (s : bool) (m e : Z) (l : location) :
  binary_round_aux prec emax (negb s) m e l = SFopp (binary_round_aux prec emax s m e l).
Proof.
  unfold binary_round_aux.
  destruct (shr_fexp prec emax m e l) as [mrs e'].
  destruct (shr_fexp prec emax _ e' loc_Exact) as [mrs' e''].
  destruct (shr_m mrs'); try reflexivity.
  now destruct (Z.leb e'' (emax - prec)).
Qed.

Lemma fmul_opp (x a : spec_float) : fmul (SFopp x) a = SFopp (fmul x a).
Proof.
  unfold fmul.
  destruct x as [sx|sx| |sx mx ex], a as [sa|sa| |sa ma ea]; cbn [SFopp SFmul];
    try reflexivity;
    try (now destruct sx, sa).
  rewrite <- binary_round_aux_opp. f_equal. now destruct sx, sa.
Qed.

Lemma fdiv_opp (x a : spec_float) : fdiv (SFopp x) a = SFopp (fdiv x a).
Proof.
  unfold fdiv.
  destruct x as [sx|sx| |sx mx ex], a as [sa|sa| |sa ma ea]; cbn [SFopp SFdiv];
    try reflexivity;
    try (now destruct sx, sa).
  destruct (SFdiv_core_binary prec emax (Zpos mx) ex (Zpos ma) ea) as [[mz ez] lz].
  rewrite <- binary_round_aux_opp. f_equal. now destruct sx, sa.
Qed.


Lemma int_of_float_opp (f : spec_float) :
  int_of_float (SFopp f) = negated (int_of_float f).
Proof. destruct f as [s|s| |[|] m e]; cbn; try reflexivity. f_equal. lia. Qed.

Lemma float_of_int_opp (c : Z) :
  (0 < c)%Z ->
  float_of_int (- c) =
  match float_of_int c with
  | Ok x => Ok (SFopp x)
  | Raise e => Raise e
  end.
Proof.
  destruct c as [|p|p]; try lia. intros _.
  unfold float_of_int. cbn [Z.opp binary_normalize].
  unfold binary_round.
  destruct (shl_align p 0 _) as [mz ez].
  change true with (negb false). rewrite binary_round_aux_opp.
  now destruct (binary_round_aux prec emax false (Zpos mz) ez loc_Exact).
Qed.


(** A float that passes [nonneg_finite] is a zero or a positive finite float. *)
Lemma nonneg_finite_shape (y : PrimFloat.float) :
  nonneg_finite y = true ->
  match FloatOps.Prim2SF y with
  | S754_zero _ | S754_finite false _ _ => True
  | _ => False
  end.
Proof.
  unfold nonneg_finite. intros H. apply andb_prop in H. destruct H as [L U].
  rewrite FloatAxioms.leb_spec in L. rewrite FloatAxioms.ltb_spec in U.
  change (FloatOps.Prim2SF PrimFloat.zero) with (S754_zero false) in L.
  change (FloatOps.Prim2SF two_62) with (S754_finite false 4503599627370496 10) in U.
  destruct (FloatOps.Prim2SF y) as [s|[|]| |[|] m e]; auto; discriminate.
Qed.

Lemma to_Z_bias_53 : Uint63Axioms.to_Z bias_53 = (prec + FloatOps.shift)%Z.
Proof. reflexivity. Qed.

Lemma trunc_is_sound (y : PrimFloat.float) (n : PrimInt63.int) :
  trunc_is y n = true -> int_of_float (FloatOps.Prim2SF y) = Ok (Uint63Axioms.to_Z n).
Proof.
  unfold trunc_is. intros H. apply andb_prop in H. destruct H as [S H].
  apply nonneg_finite_shape in S.
  pose proof (FloatAxioms.frshiftexp_spec y) as F.
  destruct (PrimFloat.frshiftexp y) as [m e].
  apply andb_prop in H. destruct H as [B E].
  apply Uint63Axioms.leb_spec in B. rewrite to_Z_bias_53 in B.
  apply Uint63Axioms.eqb_correct in E. subst n.
  pose proof (Uint63.to_Z_bounded e) as Be.
  change FloatOps.prec with prec in F. change FloatOps.emax with emax in F.
  rewrite (int_of_float_frexp _ S); rewrite <- F; cbn [fst snd]; [| lia].
  rewrite Uint63Axioms.lsr_spec, FloatAxioms.normfr_mantissa_spec,
    Uint63Axioms.sub_spec, to_Z_bias_53.
  change FloatOps.prec with prec.
  rewrite Z.mod_small.
  - do 3 f_equal. lia.
  - unfold prec, FloatOps.shift in *. change Uint63Axioms.wB with (2 ^ 63)%Z. lia.
Qed.

Lemma float_of_int_machine (c : PrimInt63.int) :
  nonneg_finite (PrimFloat.of_uint63 c) = true ->
  float_of_int (Uint63Axioms.to_Z c) = Ok (FloatOps.Prim2SF (PrimFloat.of_uint63 c)).
Proof.
  intros H. apply nonneg_finite_shape in H.
  unfold float_of_int.
  change (binary_normalize prec emax (Uint63Axioms.to_Z c) 0 false)
    with (binary_normalize FloatOps.prec FloatOps.emax (Uint63Axioms.to_Z c) 0 false).
  rewrite <- FloatAxioms.of_uint63_spec.
  destruct (FloatOps.Prim2SF (PrimFloat.of_uint63 c)); auto; contradiction.
Qed.

Lemma grams_int_machine (c : PrimInt63.int) (a k : PrimFloat.float) (kz : Z)
      (n : PrimInt63.int) :
  nonneg_finite (PrimFloat.of_uint63 c) = true ->
  float_of_int kz = Ok (FloatOps.Prim2SF k) ->
  trunc_is (PrimFloat.div (PrimFloat.mul (PrimFloat.of_uint63 c) a) k) n = true ->
  grams_int (PInt (Uint63Axioms.to_Z c)) (FloatOps.Prim2SF a) kz = Ok (Uint63Axioms.to_Z n).
Proof.
  intros Hx Hk T. unfold grams_int, mul_float, to_float, fdiv_int.
  rewrite (float_of_int_machine c Hx), Hk. cbn [bind].
  change (fmul ?u ?v) with (FloatAxioms.SF64mul u v).
  rewrite <- FloatAxioms.mul_spec.
  change (fdiv ?u ?v) with (FloatAxioms.SF64div u v).
  rewrite <- FloatAxioms.div_spec.
  now apply trunc_is_sound.
Qed.

Lemma per_int_machine (c : PrimInt63.int) (k : PrimFloat.float) (kz : positive)
      (n : PrimInt63.int) :
  nonneg_finite (PrimFloat.of_uint63 c) = true ->
  (0 < Uint63Axioms.to_Z c < 2 ^ 53)%Z ->
  (Zpos kz < 2 ^ 53)%Z ->
  float_of_int (Zpos kz) = Ok (FloatOps.Prim2SF k) ->
  trunc_is (PrimFloat.div (PrimFloat.of_uint63 c) k) n = true ->
  per_int (PInt (Uint63Axioms.to_Z c)) (Zpos kz) = Ok (Uint63Axioms.to_Z n).
Proof.
  intros Hx Hc Hkz Hk T. unfold per_int, div_int, int_truediv.
  pose proof (float_of_int_machine c Hx) as Fx.
  destruct (Uint63Axioms.to_Z c) as [|p|p] eqn:E; try lia.
  assert (A : ((Z.abs (Zpos p) <? 2 ^ 53) && (Z.abs (Zpos kz) <? 2 ^ 53))%Z = true).
  { apply andb_true_intro. split; apply Z.ltb_lt; cbn [Z.abs]; lia. }
  rewrite A, Fx, Hk. cbn [bind].
  change (fdiv ?u ?v) with (FloatAxioms.SF64div u v).
  rewrite <- FloatAxioms.div_spec.
  now apply trunc_is_sound.
Qed.

Lemma scaled_quotient (c m d : PrimInt63.int) (mz dz : Z) :
  Uint63Axioms.to_Z m = mz -> Uint63Axioms.to_Z d = dz ->
  (0 < mz <= 64)%Z -> (0 < dz)%Z ->
  (Uint63Axioms.to_Z c < 2 ^ 53)%Z ->
  Uint63Axioms.to_Z (PrimInt63.div (PrimInt63.mul c m) d)
  = ((Uint63Axioms.to_Z c * mz) ÷ dz)%Z.
Proof.
  intros <- <- Hm Hd Hc.
  pose proof (Uint63.to_Z_bounded c) as Bc.
  rewrite Uint63Axioms.div_spec, Uint63Axioms.mul_spec.
  change Uint63Axioms.wB with (2 ^ 63)%Z.
  rewrite Z.mod_small by nia.
  symmetry. apply Z.quot_div_nonneg; nia.
Qed.

Lemma plain_quotient (c d : PrimInt63.int) (dz : Z) :
  Uint63Axioms.to_Z d = dz -> (0 < dz)%Z ->
  Uint63Axioms.to_Z (PrimInt63.div c d) = (Uint63Axioms.to_Z c ÷ dz)%Z.
Proof.
  intros <- Hd. pose proof (Uint63.to_Z_bounded c) as Bc.
  rewrite Uint63Axioms.div_spec. symmetry. apply Z.quot_div_nonneg; lia.
Qed.

(** A calorie figure that passes the machine check agrees with the
    specification on the model's floats. *)
Lemma ok_at_agrees (c : PrimInt63.int) :
  ok_at c = true -> (Uint63Axioms.to_Z c < 2 ^ 53)%Z ->
  agrees (Uint63Axioms.to_Z c) = true.
Proof.
  unfold ok_at. intros H Hc.
  apply andb_prop in H; destruct H as [H T5].
  apply andb_prop in H; destruct H as [H T4].
  apply andb_prop in H; destruct H as [H T3].
  apply andb_prop in H; destruct H as [H T2].
  apply andb_prop in H; destruct H as [H T1].
  pose proof (Uint63.to_Z_bounded c) as Bc.
  destruct (Z.eq_dec (Uint63Axioms.to_Z c) 0) as [->|Nz]; [reflexivity |].
  unfold agrees.
  change (flt 16 (-2)) with (FloatOps.Prim2SF ratio_16).
  change (flt 54 (-2)) with (FloatOps.Prim2SF ratio_54).
  change (flt 30 (-2)) with (FloatOps.Prim2SF ratio_30).
  rewrite (@grams_int_machine c ratio_16 float_4 4 _ H eq_refl T1).
  rewrite (@grams_int_machine c ratio_54 float_4 4 _ H eq_refl T2).
  rewrite (@grams_int_machine c ratio_30 float_9 9 _ H eq_refl T3).
  rewrite (@per_int_machine c float_120 120 _ H ltac:(lia) ltac:(lia) eq_refl T4).
  rewrite (@per_int_machine c float_150 150 _ H ltac:(lia) ltac:(lia) eq_refl T5).
  rewrite (@scaled_quotient c int_16 int_400 16 400) by (auto; lia).
  rewrite (@scaled_quotient c int_54 int_400 54 400) by (auto; lia).
  rewrite (@scaled_quotient c int_30 int_900 30 900) by (auto; lia).
  rewrite (@plain_quotient c int_120 120) by (auto; lia).
  rewrite (@plain_quotient c int_150 150) by (auto; lia).
  change (100 * 4)%Z with 400%Z. change (100 * 9)%Z with 900%Z.
  now rewrite !Z.eqb_refl.
Qed.

(** The figures of a negative calorie figure are those of its magnitude,
    negated. *)
Lemma grams_int_opp (c : Z) (a : spec_float) (k : Z) :
  (0 < c)%Z ->
  grams_int (PInt (- c)) a k = negated (grams_int (PInt c) a k).
Proof.
  intros Hc. unfold grams_int, mul_float, to_float.
  rewrite (float_of_int_opp Hc).
  destruct (float_of_int c) as [x|e]; cbn [bind]; [| reflexivity].
  rewrite fmul_opp. unfold fdiv_int.
  destruct (float_of_int k) as [d|e]; cbn [bind]; [| reflexivity].
  now rewrite fdiv_opp, int_of_float_opp.
Qed.

Lemma per_int_opp (c : Z) (k : positive) :
  (0 < c)%Z ->
  per_int (PInt (- c)) (Zpos k) = negated (per_int (PInt c) (Zpos k)).
Proof.
  intros Hc. unfold per_int, div_int, int_truediv.
  destruct c as [|p|p]; try lia. cbn [Z.opp Z.abs].
  destruct ((Zpos p <? 2 ^ 53)%Z && (Zpos k <? 2 ^ 53)%Z).
  - change (Zneg p) with (- Zpos p)%Z. rewrite (float_of_int_opp Hc).
    destruct (float_of_int (Zpos p)) as [x|e]; cbn [bind]; [| reflexivity].
    destruct (float_of_int (Zpos k)) as [d|e]; cbn [bind]; [| reflexivity].
    now rewrite fdiv_opp, int_of_float_opp.
  - destruct (SFdiv_core_binary prec emax (Zpos p) 0 (Zpos k) 0) as [[q e'] l].
    change (xorb (Zneg p <? 0)%Z (Zpos k <? 0)%Z) with (negb false).
    change (xorb (Zpos p <? 0)%Z (Zpos k <? 0)%Z) with false.
    rewrite binary_round_aux_opp.
    destruct (binary_round_aux prec emax false q e' l) as [s|s| |s m e];
      cbn [SFopp bind negated]; try reflexivity.
    apply int_of_float_opp with (f := S754_finite s m e).
Qed.

Lemma agrees_opp (c : Z) : (0 < c)%Z -> agrees c = true -> agrees (- c) = true.
Proof.
  intros Hc. unfold agrees.
  rewrite !(grams_int_opp _ _ Hc), !(per_int_opp _ Hc).
  destruct (grams_int (PInt c) (flt 16 (-2)) 4) as [p|]; [| discriminate].
  destruct (grams_int (PInt c) (flt 54 (-2)) 4) as [cb|]; [| discriminate].
  destruct (grams_int (PInt c) (flt 30 (-2)) 9) as [f|]; [| discriminate].
  destruct (per_int (PInt c) 120) as [fi|]; [| discriminate].
  destruct (per_int (PInt c) 150) as [s|]; [| discriminate].
  cbn [negated]. intros H.
  repeat (apply andb_prop in H; destruct H as [H ?]).
  repeat match goal with E : (_ =? _)%Z = true |- _ => apply Z.eqb_eq in E end.
  subst.
  rewrite !Z.mul_opp_l, !Z.quot_opp_l by lia.
  now rewrite !Z.eqb_refl.
Qed.

(** The loop of [all_ok]: after [n] steps the counter is [n] and the flag
    tells whether every figure below [n] passed. *)
Lemma all_ok_sound (n : N) :
  (Z.of_N n < 2 ^ 53)%Z ->
  Uint63Axioms.to_Z (fst (N.iter n step (int 0, true))) = Z.of_N n /\
  (snd (N.iter n step (int 0, true)) = true ->
   forall c, (0 <= c < Z.of_N n)%Z -> ok_at (int c) = true).
Proof.
  induction n as [|n IH] using N.peano_ind; intros Hn.
  - split; [reflexivity | intros _ c Hc; lia].
  - rewrite N.iter_succ. rewrite N2Z.inj_succ in *.
    destruct IH as [I1 I2]; [lia |].
    destruct (N.iter n step (int 0, true)) as [k ok]. cbn [fst snd] in *.
    unfold step. cbn [fst snd]. split.
    + rewrite Uint63Axioms.add_spec, I1.
      change (Uint63Axioms.to_Z int_1) with 1%Z.
      change Uint63Axioms.wB with (2 ^ 63)%Z.
      apply Z.mod_small. lia.
    + intros H c Hc. apply andb_prop in H. destruct H as [H1 H2].
      destruct (Z.eq_dec c (Z.of_N n)) as [->|Ne].
      * rewrite <- I1. unfold int. now rewrite Uint63Axioms.of_to_Z.
      * apply I2; auto. lia.
Qed.

Lemma all_ok_agrees (n : N) :
  (Z.of_N n < 2 ^ 53)%Z -> all_ok n = true ->
  forall c, (Z.abs c < Z.of_N n)%Z -> agrees c = true.
Proof.
  intros Hn H.
  assert (P : forall c, (0 <= c < Z.of_N n)%Z -> agrees c = true).
  { intros c Hc.
    pose proof (proj2 (all_ok_sound n Hn) H c Hc) as O.
    assert (E : Uint63Axioms.to_Z (int c) = c).
    { unfold int. rewrite Uint63.of_Z_spec.
      change Uint63.wB with (2 ^ 63)%Z. apply Z.mod_small. lia. }
    rewrite <- E. apply ok_at_agrees; auto. rewrite E. lia. }
  intros c Hc. destruct (Z.lt_ge_cases c 0) as [Neg|Pos].
  - replace c with (- - c)%Z by lia. apply agrees_opp; [lia |]. apply P. lia.
  - apply P. lia.
Qed.

Lemma agrees_upto_complete (n : nat) :
  (forall c, (Z.abs c <= Z.of_nat n)%Z -> agrees c = true) ->
  agrees_upto n = true.
Proof.
  induction n as [|k IH]; intros H; cbn [agrees_upto].
  - rewrite !H by (cbn; lia). reflexivity.
  - rewrite !H by lia. rewrite IH; auto. intros c Hc. apply H. lia.
Qed.

Lemma machine_check : all_ok 10001 = true.
Proof. vm_cast_no_check (eq_refl true). Qed.

(** ** The claims *)

(** C1.  Totality: for every hex-digest fingerprint and every raw reply
    text the recovery pipeline returns a record, never an exception, and
    the record passes the shape check; the same holds for [analyze_food]
    whether the model call answered or raised. *)
Theorem recover_total (h : str) (Hh : hex_digest h = true) :
  (forall response_text,
      exists record,
        recover response_text h = Ok record /\
        _is_valid_nutrition_result (PDict record) = Ok true) /\
  (forall reply,
      exists record,
        analyze_food reply h = Ok record /\
        _is_valid_nutrition_result (PDict record) = Ok true).
Proof.
  assert (R : forall response_text,
             exists record,
               recover response_text h = Ok record /\
               _is_valid_nutrition_result (PDict record) = Ok true).
  { intros text. destruct (recover_runs text h Hh) as [record E].
    exists record. split; auto.
    apply shape_check_shaped. eapply produced_shaped, recover_produced, E. }
  split; [exact R |].
  intros [text|e]; unfold analyze_food, try_except; cbn [bind].
  - destruct (R text) as [record [E V]]. rewrite E. eauto.
  - destruct (smart_fallback_runs h Hh) as [record E]. rewrite E.
    exists record. split; auto.
    apply shape_check_shaped. apply (@produced_shaped [] h record).
    now apply by_fallback.
Qed.

Lemma recover_total_witness :
  exists record,
    recover [] (u "9f3a0c1e") = Ok record /\
    _is_valid_nutrition_result (PDict record) = Ok true.
Proof. exact (proj1 (recover_total (u "9f3a0c1e") eq_refl) []). Defined.

(** C2, counterexample.  The reply of the explanation scenario is answered
    by the fallback's record, which has no [image_id]: the full field set
    is not carried on every path. *)
Lemma fallback_record_lacks_image_id :
  exists record,
    recover refusal_text (u "abcd1234") = Ok record /\
    has_all full_field_set record = false /\
    dict_get (u "image_id") record = None.
Proof.
  eexists. split; [vm_compute; reflexivity |].
  split; [vm_compute; reflexivity | vm_compute; reflexivity].
Qed.

(** C2, amended.  Every returned record carries foods_detected,
    total_calories, nutritional_breakdown, individual_foods, health_tips,
    confidence_score, analysis_source and note.  A record of stages 1 to 3
    is the Validator's output, stamped afterwards with note, tag and
    [image_id]; a record of stage 5 is built complete with its [image_id],
    and a record of stage 6 is the fallback's record as built, both without
    the Validator. *)
Theorem returned_record_fields (response_text h : str) (record : dict) :
  recover response_text h = Ok record ->
  has_all (core_fields ++ tag_fields) record = true /\
  ((exists d validated how source,
       _validate_llm_result d = Ok validated /\
       record = stamp validated how source h /\
       In source ["direct_json"; "code_block_json"; "pattern_json"]%string /\
       source_is source record /\
       dict_has (u "image_id") record = true) \/
   (source_is "extracted_llm" record /\ dict_has (u "image_id") record = true) \/
   (source_is "smart_fallback" record /\ _create_smart_fallback h = Ok record)).
Proof.
  intros H. apply recover_produced in H.
  split; [now apply (produced_fields H) |].
  destruct H as [c d v how src L S V -> Hsrc | cal tips E | F].
  - left. exists d, v, how, src.
    destruct (stamp_tags v how src h) as (I & A & _).
    repeat split; auto. unfold dict_has. now rewrite I.
  - right; left. apply extracted_record_fields in E.
    destruct E as (F & A & _). split; auto.
    unfold full_field_set in F. rewrite app_assoc, has_all_app in F.
    apply andb_prop in F. destruct F as [_ F].
    unfold has_all in F. cbn [forallb] in F. now rewrite andb_true_r in F.
  - right; right. split; auto.
    apply smart_fallback_inv in F. destruct F as (sel & _ & F).
    now apply fallback_record_fields in F.
Qed.

Lemma returned_record_fields_witness :
  exists record,
    recover minimal_json (u "abcd1234") = Ok record /\
    has_all (core_fields ++ tag_fields) record = true.
Proof.
  eexists. split; [vm_compute; reflexivity |].
  refine (proj1 (@returned_record_fields minimal_json (u "abcd1234") _ _)).
  vm_compute; reflexivity.
Defined.

(** C3, counterexample.  The shape check accepts a structure whose
    total_calories is a text that is neither a number nor coercible to one. *)
Lemma shape_check_accepts_text_calories :
  _is_valid_nutrition_result text_calories = Ok true /\
  exists v,
    get text_calories (u "total_calories") PNone = Ok v /\
    numeric_or_coercible v = false.
Proof.
  split; [vm_compute; reflexivity |].
  eexists. split; [vm_compute; reflexivity | vm_compute; reflexivity].
Qed.

(** C3, amended.  The shape check accepts a parsed structure exactly when
    it is a dict whose foods_detected is a non-empty list and which has a
    total_calories key, whatever the value under that key. *)
Theorem shape_check_accepts_iff (result : pyval) :
  _is_valid_nutrition_result result = Ok true <->
  exists d x l v,
    result = PDict d /\
    dict_get (u "foods_detected") d = Some (PList (x :: l)) /\
    dict_get (u "total_calories") d = Some v.
Proof.
  split.
  - intros H. destruct (shape_check_only_dict _ H) as [d ->].
    apply shape_check_shaped in H. destruct H as [[x [l Hf]] [v Hc]].
    now exists d, x, l, v.
  - intros (d & x & l & v & -> & Hf & Hc).
    apply shape_check_shaped. split; eauto.
Qed.

Lemma shape_check_accepts_iff_witness :
  _is_valid_nutrition_result text_calories = Ok true.
Proof.
  apply (proj2 (shape_check_accepts_iff text_calories)).
  do 4 eexists. split; [reflexivity |].
  split; [vm_compute; reflexivity | vm_compute; reflexivity].
Defined.

Lemma table_calories_positive (selected : string * string * string * Z) :
  In selected food_combinations -> (0 < snd selected)%Z.
Proof.
  unfold food_combinations. cbn [In]. intros H.
  repeat (destruct H as [<-|H]; [reflexivity |]). contradiction.
Qed.

(** C4, counterexample.  A reply whose total_calories is the number zero
    is returned with that zero. *)
Lemma zero_calories_returned :
  exists record,
    recover zero_calories_json (u "abcd1234") = Ok record /\
    dict_get (u "total_calories") record = Some (PInt 0).
Proof. eexists. split; [vm_compute; reflexivity | vm_compute; reflexivity]. Qed.

(** C4, amended.  On every returned record total_calories is a number (an
    int or a float): the Validator replaces an absent or non-numeric value
    by 450 and keeps every numeric one, whatever its sign; the fallback's
    figure is strictly positive. *)
Theorem returned_calories_numeric (response_text h : str) (record : dict) :
  recover response_text h = Ok record ->
  (exists v,
      dict_get (u "total_calories") record = Some v /\ is_int_or_float v = true) /\
  (_create_smart_fallback h = Ok record ->
   exists n, dict_get (u "total_calories") record = Some (PInt n) /\ (0 < n)%Z) /\
  (forall d validated v,
      _validate_llm_result d = Ok validated ->
      dict_get (u "total_calories") d = Some v ->
      is_int_or_float v = true ->
      dict_get (u "total_calories") validated = Some v).
Proof.
  intros H. apply recover_produced in H.
  split; [now apply (produced_numeric H) |]. split.
  - intros F. apply smart_fallback_inv in F. destruct F as (sel & I & F).
    apply fallback_record_fields in F. destruct F as (_ & _ & _ & _ & Ec).
    exists (snd sel). split; auto. now apply table_calories_positive.
  - intros d validated v V E N.
    pose proof (validate_keeps d V) as K. unfold blocks in K.
    inversion K as [|? ? _ K']. inversion K' as [|? ? K2 _].
    cbn [fst snd] in K2. rewrite K2; auto.
    exists v. split; auto.
Qed.

Lemma returned_calories_numeric_witness :
  exists record v,
    recover zero_calories_json (u "abcd1234") = Ok record /\
    dict_get (u "total_calories") record = Some v /\ is_int_or_float v = true.
Proof.
  assert (E : exists record, recover zero_calories_json (u "abcd1234") = Ok record)
    by (eexists; vm_compute; reflexivity).
  destruct E as [record E]. exists record.
  destruct (proj1 (@returned_calories_numeric _ _ _ E)) as [v [G N]].
  exists v. auto.
Defined.

(** C5.  The fallback is a function of the fingerprint alone: on a
    non-empty hex digest it returns the record built from the table entry
    at index (fingerprint read in base 16) modulo the table length, so equal
    fingerprints give equal records; two distinct fingerprints can select
    the same entry. *)
Theorem fallback_deterministic :
  (forall h,
      hex_digest h = true -> h <> [] ->
      exists selected record,
        nth_error food_combinations
          (Z.to_nat (base16 h mod Z.of_nat (length food_combinations))) = Some selected /\
        fallback_record selected h = Ok record /\
        _create_smart_fallback h = Ok record /\
        forall h', h' = h -> _create_smart_fallback h' = Ok record) /\
  (exists h1 h2 selected,
      h1 <> h2 /\
      _create_smart_fallback h1 = fallback_record selected h1 /\
      _create_smart_fallback h2 = fallback_record selected h2).
Proof.
  split.
  - intros h Hh Hne.
    destruct (smart_fallback_selects h Hh) as (sel & N & E).
    destruct (@fallback_record_runs sel h (nth_error_In _ _ N)) as [record R].
    exists sel, record. repeat split; auto.
    + now rewrite E.
    + intros h' ->. now rewrite E.
  - exists (u "00000000"), (u "00000007"),
           ("Nasi putih", "Ayam goreng", "Sayur bayam", 580%Z)%string.
    split; [str_neq |]. split; vm_compute; reflexivity.
Qed.

Lemma fallback_deterministic_witness :
  exists selected record,
    nth_error food_combinations
      (Z.to_nat (base16 (u "abcd1234") mod Z.of_nat (length food_combinations)))
      = Some selected /\
    fallback_record selected (u "abcd1234") = Ok record /\
    _create_smart_fallback (u "abcd1234") = Ok record /\
    forall h', h' = u "abcd1234" -> _create_smart_fallback h' = Ok record.
Proof.
  apply (proj1 fallback_deterministic (u "abcd1234")).
  - reflexivity.
  - discriminate.
Defined.

(** The pipeline as a cascade: each stage is consulted only when the
    stages before it returned nothing; an exception of a stage hands the
    reply to the heuristic extraction. *)
Lemma recover_cascade (response_text h : str) :
  recover response_text h =
  match direct_parse response_text h with
  | Ok (Some record) => Ok record
  | Raise _ => _extract_from_llm_response response_text h
  | Ok None =>
      match code_block_parse response_text h with
      | Ok (Some record) => Ok record
      | Raise _ => _extract_from_llm_response response_text h
      | Ok None =>
          match pattern_parse response_text h with
          | Ok (Some record) => Ok record
          | Raise _ => _extract_from_llm_response response_text h
          | Ok None =>
              if is_explanation response_text
              then try_except (_create_smart_fallback h)
                     (fun _ => _extract_from_llm_response response_text h)
              else _extract_from_llm_response response_text h
          end
      end
  end.
Proof.
  unfold recover, parse_response, try_except.
  destruct (direct_parse response_text h) as [[r|]|e]; cbn [bind]; auto.
  destruct (code_block_parse response_text h) as [[r|]|e]; cbn [bind]; auto.
  destruct (pattern_parse response_text h) as [[r|]|e]; cbn [bind]; auto.
  destruct (is_explanation response_text); auto.
  now destruct (_extract_from_llm_response response_text h).
Qed.

(** C6.  The strategies run in the order direct parse, fenced block, brace
    scan, explanation shortcut, heuristic extraction, fallback, and the
    first success wins: the minimal JSON reply is tagged direct_json,
    although the brace scan would accept it too, and the same JSON in a
    fenced block after prose is tagged code_block_json. *)
Theorem stage_order (h : str) :
  (forall response_text,
      recover response_text h =
      match direct_parse response_text h with
      | Ok (Some record) => Ok record
      | Raise _ => _extract_from_llm_response response_text h
      | Ok None =>
          match code_block_parse response_text h with
          | Ok (Some record) => Ok record
          | Raise _ => _extract_from_llm_response response_text h
          | Ok None =>
              match pattern_parse response_text h with
              | Ok (Some record) => Ok record
              | Raise _ => _extract_from_llm_response response_text h
              | Ok None =>
                  if is_explanation response_text
                  then try_except (_create_smart_fallback h)
                         (fun _ => _extract_from_llm_response response_text h)
                  else _extract_from_llm_response response_text h
              end
          end
      end) /\
  (exists record,
      recover minimal_json h = Ok record /\ source_is "direct_json" record) /\
  (exists later,
      pattern_parse minimal_json h = Ok (Some later) /\ source_is "pattern_json" later) /\
  (exists record,
      recover fenced_json h = Ok record /\ source_is "code_block_json" record).
Proof.
  split; [intros; apply recover_cascade |].
  split; [eexists; split; [vm_compute; reflexivity | vm_compute; reflexivity] |].
  split; eexists; (split; [vm_compute; reflexivity | vm_compute; reflexivity]).
Qed.

(** C7.  When the first three stages return nothing and the reply holds an
    explanation phrase, the pipeline returns the fallback's record, tagged
    smart_fallback, and the heuristic extraction is not consulted; the
    refusal sentence of the scenario is such a reply. *)
Theorem explanation_skips_extraction :
  (forall response_text h,
      hex_digest h = true ->
      direct_parse response_text h = Ok None ->
      code_block_parse response_text h = Ok None ->
      pattern_parse response_text h = Ok None ->
      is_explanation response_text = true ->
      exists record,
        recover response_text h = Ok record /\
        _create_smart_fallback h = Ok record /\
        source_is "smart_fallback" record) /\
  (forall h,
      hex_digest h = true ->
      exists record,
        recover refusal_text h = Ok record /\
        _create_smart_fallback h = Ok record /\
        source_is "smart_fallback" record).
Proof.
  assert (G : forall response_text h,
             hex_digest h = true ->
             direct_parse response_text h = Ok None ->
             code_block_parse response_text h = Ok None ->
             pattern_parse response_text h = Ok None ->
             is_explanation response_text = true ->
             exists record,
               recover response_text h = Ok record /\
               _create_smart_fallback h = Ok record /\
               source_is "smart_fallback" record).
  { intros text h Hh P1 P2 P3 X.
    destruct (smart_fallback_runs h Hh) as [record F].
    exists record. rewrite recover_cascade, P1, P2, P3, X, F.
    repeat split.
    apply smart_fallback_inv in F. destruct F as (sel & _ & F).
    now apply fallback_record_fields in F. }
  split; [exact G |].
  intros h Hh. apply G; auto; vm_compute; reflexivity.
Qed.

Lemma explanation_skips_extraction_witness :
  exists record,
    recover refusal_text (u "abcd1234") = Ok record /\
    _create_smart_fallback (u "abcd1234") = Ok record /\
    source_is "smart_fallback" record.
Proof.
  apply (proj1 explanation_skips_extraction refusal_text (u "abcd1234"));
    vm_compute; reflexivity.
Defined.

(** C8.  On a record in which foods_detected is a list, total_calories is
    numeric, and confidence_score, nutritional_breakdown (a dict),
    individual_foods (a list) and health_tips (a list) are present, the
    Validator returns the record itself, every field unchanged; applying it
    twice is applying it once. *)
Theorem validator_idempotent (d : dict)
  (Hfoods : exists l, dict_get (u "foods_detected") d = Some (PList l))
  (Hcal : exists v, dict_get (u "total_calories") d = Some v /\ is_int_or_float v = true)
  (Hconf : dict_has (u "confidence_score") d = true)
  (Hbreak : exists b, dict_get (u "nutritional_breakdown") d = Some (PDict b))
  (Hind : exists l, dict_get (u "individual_foods") d = Some (PList l))
  (Htips : exists l, dict_get (u "health_tips") d = Some (PList l)) :
  _validate_llm_result d = Ok d /\
  (validated <- _validate_llm_result d ;; _validate_llm_result validated)
  = _validate_llm_result d.
Proof.
  assert (V : _validate_llm_result d = Ok d).
  { apply validate_well_typed. unfold blocks, well_typed.
    destruct Hfoods as [l Hf]. destruct Hcal as [v [Hc Hn]].
    destruct Hbreak as [b Hb]. destruct Hind as [li Hi]. destruct Htips as [lt Ht].
    unfold dict_has in Hconf.
    destruct (dict_get (u "confidence_score") d) as [c|] eqn:Hcs; [| discriminate].
    repeat constructor; cbn [fst snd]; eauto. }
  split; [exact V |]. rewrite V. cbn [bind]. exact V.
Qed.

Lemma validator_idempotent_witness :
  _validate_llm_result complete_record = Ok complete_record /\
  (validated <- _validate_llm_result complete_record ;; _validate_llm_result validated)
  = _validate_llm_result complete_record.
Proof.
  apply validator_idempotent.
  - eexists; reflexivity.
  - eexists; split; reflexivity.
  - reflexivity.
  - eexists; reflexivity.
  - eexists; reflexivity.
  - eexists; reflexivity.
Defined.

(** The derived breakdown. *)

Lemma agrees_upto_sound (n : nat) :
  agrees_upto n = true ->
  forall c, (Z.abs c <= Z.of_nat n)%Z -> agrees c = true.
Proof.
  induction n as [|k IH]; cbn [agrees_upto]; intros H c Hc;
    apply andb_prop in H; destruct H as [H H3];
    apply andb_prop in H; destruct H as [H1 H2].
  - assert (c = Z.of_nat 0) as -> by lia. exact H1.
  - destruct (Z.eq_dec c (Z.of_nat (S k))) as [->|N1]; [exact H1 |].
    destruct (Z.eq_dec c (- Z.of_nat (S k))) as [->|N2]; [exact H2 |].
    apply IH; auto. lia.
Qed.

Lemma agrees_breakdown (c : Z) :
  agrees c = true -> breakdown (PInt c) = Ok (derived_breakdown Z.quot c).
Proof.
  unfold agrees, breakdown, grams, grams_at_least.
  destruct (grams_int (PInt c) (flt 16 (-2)) 4) as [p|]; [| discriminate].
  destruct (grams_int (PInt c) (flt 54 (-2)) 4) as [cb|]; [| discriminate].
  destruct (grams_int (PInt c) (flt 30 (-2)) 9) as [f|]; [| discriminate].
  destruct (per_int (PInt c) 120) as [fi|]; [| discriminate].
  destruct (per_int (PInt c) 150) as [s|]; [| discriminate].
  intros H. repeat (apply andb_prop in H; destruct H as [H ?]).
  repeat match goal with E : (_ =? _)%Z = true |- _ => apply Z.eqb_eq in E end.
  subst. reflexivity.
Qed.

Lemma checked_range : agrees_upto checked_magnitude = true.
Proof.
  apply agrees_upto_complete. intros c Hc.
  apply (all_ok_agrees 10001); [reflexivity | exact machine_check |].
  change (Z.of_nat checked_magnitude) with 10000%Z in Hc.
  change (Z.of_N 10001) with 10001%Z. lia.
Qed.

Lemma breakdown_in_range (c : Z) :
  (Z.abs c <= Z.of_nat checked_magnitude)%Z ->
  breakdown (PInt c) = Ok (derived_breakdown Z.quot c).
Proof.
  intros H. apply agrees_breakdown.
  now apply (agrees_upto_sound checked_magnitude checked_range).
Qed.

Lemma derived_breakdown_nonneg (c : Z) :
  (0 <= c)%Z -> derived_breakdown Z.quot c = derived_breakdown Z.div c.
Proof.
  intros H. unfold derived_breakdown, protein_g, carbohydrates_g, fat_g, fiber_g, sugar_g.
  now rewrite !Z.quot_div_nonneg by lia.
Qed.

(** The first three blocks keep a numeric total_calories and do not touch
    the breakdown. *)
Lemma pure_blocks_keep (d : dict) (v : pyval) :
  dict_get (u "total_calories") d = Some v -> is_int_or_float v = true ->
  let d3 := ensure_confidence_score (ensure_total_calories (ensure_foods_detected d)) in
  dict_get (u "total_calories") d3 = Some v /\
  dict_get (u "nutritional_breakdown") d3 = dict_get (u "nutritional_breakdown") d.
Proof.
  intros E N d3. subst d3.
  destruct (ensure_foods_detected_spec d eq_refl) as (_ & O1 & _).
  destruct (ensure_total_calories_spec (ensure_foods_detected d) eq_refl) as (K2 & O2 & _).
  destruct (ensure_confidence_score_spec
              (ensure_total_calories (ensure_foods_detected d)) eq_refl) as (_ & O3 & _).
  assert (E1 : dict_get (u "total_calories") (ensure_foods_detected d) = Some v)
    by (rewrite O1 by str_neq; exact E).
  assert (M : missing_or_not is_int_or_float (u "total_calories")
                (ensure_foods_detected d) = false)
    by (apply missing_or_not_false; eauto).
  split.
  - rewrite O3 by str_neq. now rewrite (K2 M).
  - rewrite O3, O2, O1 by str_neq. reflexivity.
Qed.

(** C9, counterexample.  For the calorie figure -10 the derived protein
    is 0 grams, while rounding -10 * 0.16 / 4 down gives -1. *)
Lemma negative_calories_round_toward_zero :
  exists validated b,
    _validate_llm_result (candidate (-10)) = Ok validated /\
    dict_get (u "nutritional_breakdown") validated = Some (PDict b) /\
    dict_get (u "protein") b = Some (PyStr "0g") /\
    in_grams (protein_g Z.div (-10)) = PyStr "-1g".
Proof.
  do 2 eexists. split; [vm_compute; reflexivity |].
  split; [vm_compute; reflexivity |].
  split; [vm_compute; reflexivity | vm_compute; reflexivity].
Qed.

(** C9, amended.  For an int calorie figure [c] of magnitude up to 10000
    and a candidate without a breakdown dict, the Validator sets protein to
    c * 0.16 / 4, carbohydrates to c * 0.54 / 4 and fat to c * 0.30 / 9,
    fiber to the larger of 4 and c / 120 and sugar to the larger of 3 and
    c / 150, each quotient rounded toward zero and written with a g; for
    c >= 0 that is rounding down, and for c = 600 protein is 24g and fat
    is 20g. *)
Theorem derived_breakdown_rounds_toward_zero (d : dict) (c : Z) :
  (Z.abs c <= 10000)%Z ->
  dict_get (u "total_calories") d = Some (PInt c) ->
  missing_or_not is_dict (u "nutritional_breakdown") d = true ->
  ensure_nutritional_breakdown d
    = Ok (dict_set (u "nutritional_breakdown") (derived_breakdown Z.quot c) d) /\
  (forall validated,
      _validate_llm_result d = Ok validated ->
      dict_get (u "nutritional_breakdown") validated = Some (derived_breakdown Z.quot c)) /\
  ((0 <= c)%Z -> derived_breakdown Z.quot c = derived_breakdown Z.div c) /\
  in_grams (protein_g Z.div 600) = PyStr "24g" /\
  in_grams (fat_g Z.div 600) = PyStr "20g".
Proof.
  intros Hc E M.
  assert (B : breakdown (PInt c) = Ok (derived_breakdown Z.quot c)).
  { apply breakdown_in_range. exact Hc. }
  split; [| split; [| split; [apply derived_breakdown_nonneg | split; reflexivity]]].
  - unfold ensure_nutritional_breakdown. rewrite M, E, B. reflexivity.
  - intros validated V. apply validate_chain in V.
    destruct V as (d4 & d5 & V4 & V5 & V6).
    destruct (pure_blocks_keep d E eq_refl) as [E3 N3].
    unfold ensure_nutritional_breakdown in V4.
    assert (M3 : missing_or_not is_dict (u "nutritional_breakdown")
                   (ensure_confidence_score
                      (ensure_total_calories (ensure_foods_detected d))) = true).
    { unfold missing_or_not in *. now rewrite N3. }
    rewrite M3, E3, B in V4. cbn [bind] in V4. injection V4 as <-.
    destruct (ensure_individual_foods_spec _ V5) as (_ & O5 & _).
    destruct (ensure_health_tips_spec _ V6) as (_ & O6 & _).
    rewrite O6, O5 by str_neq. apply dict_get_set_same.
Qed.

Lemma derived_breakdown_rounds_toward_zero_witness :
  ensure_nutritional_breakdown (candidate 600)
    = Ok (dict_set (u "nutritional_breakdown") (derived_breakdown Z.quot 600)
            (candidate 600)) /\
  exists validated,
    _validate_llm_result (candidate 600) = Ok validated /\
    dict_get (u "nutritional_breakdown") validated
      = Some (derived_breakdown Z.div 600).
Proof.
  destruct (@derived_breakdown_rounds_toward_zero (candidate 600) 600)
    as (B & V & Q & _).
  - vm_compute. discriminate.
  - reflexivity.
  - reflexivity.
  - split; [exact B |].
    assert (E : exists validated, _validate_llm_result (candidate 600) = Ok validated)
      by (eexists; vm_compute; reflexivity).
    destruct E as [validated E]. exists validated. split; [exact E |].
    rewrite <- Q by lia. now apply V.
Defined.

(** C10.  On the empty fingerprint the fallback does not decode (the
    decode would raise): it takes index 0 and returns the record of the
    first table entry, Nasi putih, Ayam goreng, Sayur bayam, 580 kcal. *)
Theorem fallback_on_empty_fingerprint :
  int_of_str [] 16 = Raise ValueError /\
  nth_error food_combinations 0 =
    Some ("Nasi putih", "Ayam goreng", "Sayur bayam", 580%Z)%string /\
  exists record,
    _create_smart_fallback [] = Ok record /\
    _create_smart_fallback [] =
      fallback_record ("Nasi putih", "Ayam goreng", "Sayur bayam", 580%Z)%string [] /\
    dict_get (u "foods_detected") record =
      Some (PList [PyStr "Nasi putih"; PyStr "Ayam goreng"; PyStr "Sayur bayam"]) /\
    dict_get (u "total_calories") record = Some (PInt 580).
Proof.
  split; [reflexivity |]. split; [reflexivity |].
  eexists. split; [vm_compute; reflexivity |].
  split; [vm_compute; reflexivity |].
  split; vm_compute; reflexivity.
Qed.

(** * Further properties of the code *)

Import Re Meaning Shares Conditions Advisor Sizes.

(** ** Facts about the matcher *)

(** A match found by the matcher is a match of the pattern. *)
Lemma run_sound (A : Type) (r : regex) :
  forall (s : str) (g : option str) (k : str -> option str -> option A) (x : A),
    run r s g k = Some x ->
    exists s1 g1, sem r s g s1 g1 /\ k s1 g1 = Some x.
Proof.
  induction r as [|p|r1 IH1 r2 IH2|r1 IH1 r2 IH2|greedy r1 IH1|r1 IH1];
    intros s g k x H.
  - exists s, g. split; [constructor | exact H].
  - cbn [run] in H. destruct s as [|c s']; [discriminate H |].
    destruct (p c) eqn:P; [| discriminate H].
    exists s', g. split; [now constructor | exact H].
  - cbn [run] in H. apply IH1 in H. destruct H as (s1 & g1 & S1 & H).
    apply IH2 in H. destruct H as (s2 & g2 & S2 & H).
    exists s2, g2. split; [econstructor; eauto | exact H].
  - cbn [run] in H. destruct (run r1 s g k) as [y|] eqn:E.
    + injection H as ->. apply IH1 in E. destruct E as (s1 & g1 & S1 & E).
      exists s1, g1. split; [now apply sem_alt_l | exact E].
    + apply IH2 in H. destruct H as (s1 & g1 & S1 & H).
      exists s1, g1. split; [now apply sem_alt_r | exact H].
  - cbn [run] in H. remember (length s) as fuel eqn:F in H. clear F.
    revert s g x H. induction fuel as [|fuel IHf]; intros s g x H.
    + exists s, g. split; [constructor | exact H].
    + assert (again : forall y,
                run r1 s g (fun s1 g1 =>
                  if (length s1 <? length s)%nat
                  then (fix loop (fuel : nat) (s : str) (g : option str) {struct fuel}
                          : option A :=
                          match fuel with
                          | O => k s g
                          | S fuel' =>
                              let again (_ : unit) :=
                                run r1 s g (fun s1 g1 =>
                                  if (length s1 <? length s)%nat
                                  then loop fuel' s1 g1 else None) in
                              if greedy then
                                match again tt with
                                | Some x => Some x
                                | None => k s g
                                end
                              else
                                match k s g with
                                | Some x => Some x
                                | None => again tt
                                end
                          end) fuel s1 g1
                  else None) = Some y ->
                exists s2 g2, sem (Star greedy r1) s g s2 g2 /\ k s2 g2 = Some y).
      { intros y E. apply IH1 in E. destruct E as (s1 & g1 & S1 & E).
        destruct (length s1 <? length s)%nat; [| discriminate E].
        apply IHf in E. destruct E as (s2 & g2 & S2 & E).
        exists s2, g2. split; [econstructor; eauto | exact E]. }
      cbn beta iota zeta in H. destruct greedy.
      * match type of H with
        | match ?m with Some _ => _ | None => _ end = _ => destruct m as [y|] eqn:E
        end.
        -- injection H as ->. now apply again.
        -- exists s, g. split; [constructor | exact H].
      * destruct (k s g) as [y|] eqn:E.
        -- injection H as ->. exists s, g. split; [constructor | exact E].
        -- now apply again.
  - cbn [run] in H. apply IH1 in H. destruct H as (s1 & g1 & S1 & H).
    exists s1, (Some (firstn (length s - length s1) s)).
    split; [eapply sem_group; eassumption | exact H].
Qed.

Lemma match_here_sem (r : regex) (s rest : str) (g : option str) :
  match_here r s = Some (rest, g) -> sem r s None rest g.
Proof.
  unfold match_here. intros H. apply run_sound in H.
  destruct H as (s1 & g1 & S & H). now injection H as <- <-.
Qed.

(** A pattern without a group leaves the group as it was. *)
Lemma group_free_sem (r : regex) (s s1 : str) (g g1 : option str) :
  sem r s g s1 g1 -> group_free r = true -> g1 = g.
Proof.
  induction 1 as [| | r1 r2 s g s1 g1 s2 g2 _ IH1 _ IH2 | | | | |
                  b r s g s1 g1 s2 g2 _ IH1 _ IH2];
    cbn [group_free]; intros F; auto; try discriminate F.
  - apply andb_prop in F. destruct F as [F1 F2].
    rewrite (IH2 F2). now apply IH1.
  - apply andb_prop in F. tauto.
  - apply andb_prop in F. tauto.
  - rewrite (IH2 F). now apply IH1.
Qed.

(** A match consumes a prefix of the text. *)
Lemma sem_suffix (r : regex) (s s1 : str) (g g1 : option str) :
  sem r s g s1 g1 -> exists t, s = t ++ s1.
Proof.
  induction 1 as [s g | p c s g P | r1 r2 s g s1 g1 s2 g2 _ [t1 ->] _ [t2 ->]
                  | r1 r2 s g s1 g1 _ IH | r1 r2 s g s1 g1 _ IH
                  | r s g s1 g1 _ IH | b r s g
                  | b r s g s1 g1 s2 g2 _ [t1 ->] _ [t2 ->]].
  - now exists [].
  - now exists [c].
  - exists (t1 ++ t2). now rewrite app_assoc.
  - exact IH.
  - exact IH.
  - exact IH.
  - now exists [].
  - exists (t1 ++ t2). now rewrite app_assoc.
Qed.

Lemma firstn_consumed (t s1 : str) :
  firstn (length (t ++ s1) - length s1) (t ++ s1) = t.
Proof.
  rewrite length_app, Nat.add_sub.
  rewrite firstn_app, Nat.sub_diag, firstn_all. cbn. apply app_nil_r.
Qed.

(** The group of three or four digits captures three or four digits. *)
Lemma digits_3_4_sem (s s1 : str) (g g1 : option str) :
  sem digits_3_4 s g s1 g1 -> exists t, s = t ++ s1 /\ three_or_four_digits t.
Proof.
  unfold digits_3_4, digit, Opt. intros H.
  inversion H as [| |? ? ? ? sa ga ? ? Ha H1| | | | |]; subst; clear H.
  inversion Ha as [|? c1 ? ? P1| | | | | |]; subst; clear Ha.
  inversion H1 as [| |? ? ? ? sb gb ? ? Hb H2| | | | |]; subst; clear H1.
  inversion Hb as [|? c2 ? ? P2| | | | | |]; subst; clear Hb.
  inversion H2 as [| |? ? ? ? sc gc ? ? Hc H3| | | | |]; subst; clear H2.
  inversion Hc as [|? c3 ? ? P3| | | | | |]; subst; clear Hc.
  inversion H3 as [| | |? ? ? ? ? ? H4|? ? ? ? ? ? H4| | |]; subst; clear H3.
  - inversion H4 as [|? c4 ? ? P4| | | | | |]; subst; clear H4.
    exists [c1; c2; c3; c4]. split; [reflexivity |]. split; [now right |].
    cbn [forallb]. now rewrite P1, P2, P3, P4.
  - inversion H4; subst; clear H4.
    exists [c1; c2; c3]. split; [reflexivity |]. split; [now left |].
    cbn [forallb]. now rewrite P1, P2, P3.
Qed.

Lemma group_digits_sem (s s1 : str) (g g1 : option str) :
  sem (Group digits_3_4) s g s1 g1 ->
  exists t, g1 = Some t /\ three_or_four_digits t.
Proof.
  intros H. inversion H as [| | | | |? ? ? ? g' H1| |]; subst; clear H.
  apply digits_3_4_sem in H1. destruct H1 as (t & -> & D).
  exists t. split; [| exact D]. now rewrite firstn_consumed.
Qed.

(** A keyword, separators, and then the group of digits. *)
Lemma keyed_captures_digits (keyword : string) (sep : regex) :
  captures_digits (keyed keyword sep digits_3_4).
Proof.
  intros s rest g H. apply match_here_sem in H. unfold keyed in H.
  inversion H as [| |? ? ? ? sa ga ? ? _ H1| | | | |]; subst; clear H.
  inversion H1 as [| |? ? ? ? sb gb ? ? _ H2| | | | |]; subst; clear H1.
  now apply group_digits_sem in H2.
Qed.

(** The group of digits, and then a pattern without a group. *)
Lemma leading_captures_digits (r : regex) :
  group_free r = true -> captures_digits (Seq (Group digits_3_4) r).
Proof.
  intros F s rest g H. apply match_here_sem in H.
  inversion H as [| |? ? ? ? sa ga ? ? H1 H2| | | | |]; subst; clear H.
  apply group_digits_sem in H1. destruct H1 as (t & -> & D).
  apply group_free_sem in H2; auto. subst g. eauto.
Qed.

Lemma calorie_patterns_capture_digits :
  Forall captures_digits calorie_patterns.
Proof.
  unfold calorie_patterns. repeat constructor.
  - apply keyed_captures_digits.
  - now apply leading_captures_digits.
  - apply keyed_captures_digits.
  - apply keyed_captures_digits.
Qed.

(** The first item of [findall] is the group of a match. *)
Lemma findall_from_head (r : regex) (s : str) (skip : nat) (m : str) (ms : list str) :
  findall_from r s skip = m :: ms ->
  exists s' rest g,
    match_here r s' = Some (rest, g) /\
    m = match g with Some t => t | None => firstn (length s' - length rest) s' end.
Proof.
  revert skip. induction s as [|c s IH]; intros skip H; [discriminate H |].
  cbn [findall_from] in H. destruct skip as [|k]; [| now apply IH in H].
  destruct (match_here r (c :: s)) as [[rest g]|] eqn:E.
  - injection H as <- _. exists (c :: s), rest, g. split; auto.
  - now apply IH in H.
Qed.

Lemma findall_digits (pattern : regex) (s m : str) (ms : list str) :
  captures_digits pattern -> findall pattern s = m :: ms -> three_or_four_digits m.
Proof.
  intros C H. apply findall_from_head in H.
  destruct H as (s' & rest & g & M & ->).
  apply C in M. destruct M as (t & -> & D). exact D.
Qed.

(** ** Facts about decimal digits *)

Lemma decades_plain :
  forallb (fun z => forallb plain_decimal (decade z)) nd_zeros = true.
Proof. vm_compute. reflexivity. Qed.

Lemma in_decade (z c : N) : in_range z (z + 9) c = true -> In c (decade z).
Proof.
  unfold in_range. intros H. apply andb_prop in H. destruct H as [L U].
  apply N.leb_le in L. apply N.leb_le in U.
  unfold decade. apply in_map_iff. exists (N.to_nat (c - z)). split.
  - rewrite N2Nat.id. lia.
  - apply in_seq. lia.
Qed.

Lemma is_digit_plain (c : char) : is_digit c = true -> plain_decimal c = true.
Proof.
  unfold is_digit, decimal_digit. intros H.
  destruct (find (fun z => in_range z (z + 9) c) nd_zeros) as [z|] eqn:F;
    [| discriminate H].
  apply find_some in F. destruct F as [Hz Hc].
  pose proof decades_plain as P. rewrite forallb_forall in P.
  specialize (P z Hz). rewrite forallb_forall in P.
  apply P. now apply in_decade.
Qed.

Lemma plain_decimal_inv (c : char) :
  plain_decimal c = true ->
  is_int_space c = false /\ (c =? 43)%N = false /\ (c =? 45)%N = false /\
  (c =? 95)%N = false /\
  exists d, digit_value c = Some d /\ (0 <= d < 10)%Z.
Proof.
  unfold plain_decimal. intros H.
  apply andb_prop in H. destruct H as [H D].
  apply andb_prop in H. destruct H as [H U].
  apply andb_prop in H. destruct H as [H M].
  apply andb_prop in H. destruct H as [S P].
  apply negb_true_iff in S, P, M, U. repeat (split; [assumption |]).
  destruct (digit_value c) as [d|]; [| discriminate D].
  apply andb_prop in D. destruct D as [D1 D2].
  apply Z.leb_le in D1. apply Z.ltb_lt in D2. eauto.
Qed.

(** Digits read in base ten: the value has as many digits as the text. *)
Lemma int_digits_decimal (t : str) :
  forallb is_digit t = true ->
  forall (acc : Z) (b : bool),
    (0 <= acc)%Z -> (t <> [] \/ b = true) ->
    exists n, int_digits 10 t acc b = Some n /\
              (acc * 10 ^ Z.of_nat (length t) <= n
               < (acc + 1) * 10 ^ Z.of_nat (length t))%Z.
Proof.
  induction t as [|c t IH]; intros H acc b Ha Hb.
  - destruct Hb as [Hb| ->]; [contradiction |].
    exists acc. split; [reflexivity |]. cbn [length Z.of_nat]. lia.
  - cbn [forallb] in H. apply andb_prop in H. destruct H as [Hc Ht].
    apply is_digit_plain, plain_decimal_inv in Hc.
    destruct Hc as (_ & _ & _ & U & d & D & Hd).
    cbn [int_digits]. rewrite U, D.
    replace (d <? 10)%Z with true by (symmetry; apply Z.ltb_lt; lia).
    destruct (IH Ht (acc * 10 + d)%Z true) as (n & E & B); [lia | now right |].
    exists n. split; [exact E |].
    cbn [length]. rewrite Nat2Z.inj_succ, Z.pow_succ_r by lia.
    assert (0 < 10 ^ Z.of_nat (length t))%Z by (apply Z.pow_pos_nonneg; lia).
    nia.
Qed.

(** Stripping a text that neither starts nor ends with a character of the
    class leaves it as it is. *)
Lemma strip_by_none (p : char -> bool) (t : str) :
  forallb (fun c => negb (p c)) t = true ->
  rstrip_by p (lstrip_by p t) = t.
Proof.
  intros H. unfold rstrip_by, lstrip_by.
  destruct t as [|c r]; [reflexivity |].
  assert (Hc : p c = false).
  { cbn [forallb] in H. apply andb_prop in H. now apply negb_true_iff. }
  rewrite drop_while_head by exact Hc.
  assert (Hr : forallb (fun c => negb (p c)) (rev (c :: r)) = true).
  { apply forallb_forall. intros x Hx. apply in_rev in Hx.
    rewrite forallb_forall in H. now apply H. }
  destruct (rev (c :: r)) as [|x t] eqn:E.
  - apply (f_equal (@length _)) in E. rewrite length_rev in E. discriminate E.
  - cbn [forallb] in Hr. apply andb_prop in Hr.
    rewrite drop_while_head by (now apply negb_true_iff).
    rewrite <- E. apply rev_involutive.
Qed.

(** [int] of three or four digits is a figure of at most four digits. *)
Lemma int_of_str_digits (t : str) :
  three_or_four_digits t ->
  exists n, int_of_str t 10 = Ok n /\ (0 <= n <= 9999)%Z.
Proof.
  intros [L D]. unfold int_of_str.
  rewrite strip_by_none.
  2:{ apply forallb_forall. intros c Hc. rewrite forallb_forall in D.
      apply D, is_digit_plain, plain_decimal_inv in Hc.
      apply negb_true_iff. tauto. }
  destruct t as [|c r]; [destruct L; discriminate |].
  assert (Hc : is_digit c = true).
  { cbn [forallb] in D. now apply andb_prop in D. }
  apply is_digit_plain, plain_decimal_inv in Hc.
  destruct Hc as (_ & P & M & _).
  rewrite P, M. change (10 =? 16)%Z with false. cbn iota.
  destruct (@int_digits_decimal (c :: r) D 0%Z false) as (n & E & B);
    [lia | left; discriminate |].
  rewrite E. exists n. split; [reflexivity |].
  destruct L as [L|L]; rewrite L in B; cbn in B; lia.
Qed.

(** The figure the extraction reads off the reply has at most four digits. *)
Lemma detect_calories_range (patterns : list regex) (response : str) (default : Z) :
  Forall captures_digits patterns -> (0 <= default <= 9999)%Z ->
  (0 <= detect_calories patterns response default <= 9999)%Z.
Proof.
  intros C Hd. induction C as [|pattern rest C1 _ IH]; [exact Hd |].
  cbn [detect_calories].
  destruct (findall pattern response) as [|m ms] eqn:F; [exact IH |].
  apply (@findall_digits _ _ _ _ C1) in F. apply int_of_str_digits in F.
  destruct F as (n & -> & B). exact B.
Qed.

(** ** Facts about the portions *)

Lemma to_Z_int (c : Z) : (0 <= c < 2 ^ 53)%Z -> Uint63Axioms.to_Z (int c) = c.
Proof.
  intros H. unfold int. rewrite Uint63.of_Z_spec.
  change Uint63Axioms.wB with (2 ^ 63)%Z. apply Z.mod_small. lia.
Qed.

(** The loop of [all_below]: after [n] steps the counter is [n] and the
    flag tells whether every figure below [n] passed. *)
Lemma all_below_steps (check : PrimInt63.int -> bool) (n : N) :
  (Z.of_N n < 2 ^ 53)%Z ->
  Uint63Axioms.to_Z (fst (N.iter n (check_step check) (int 0, true))) = Z.of_N n /\
  (snd (N.iter n (check_step check) (int 0, true)) = true ->
   forall c, (0 <= c < Z.of_N n)%Z -> check (int c) = true).
Proof.
  induction n as [|n IH] using N.peano_ind; intros Hn.
  - split; [reflexivity | intros _ c Hc; lia].
  - rewrite N.iter_succ. rewrite N2Z.inj_succ in *.
    destruct IH as [I1 I2]; [lia |].
    destruct (N.iter n (check_step check) (int 0, true)) as [k ok].
    cbn [fst snd] in *. unfold check_step. cbn [fst snd]. split.
    + rewrite Uint63Axioms.add_spec, I1.
      change (Uint63Axioms.to_Z int_1) with 1%Z.
      change Uint63Axioms.wB with (2 ^ 63)%Z.
      apply Z.mod_small. lia.
    + intros H c Hc. apply andb_prop in H. destruct H as [H1 H2].
      destruct (Z.eq_dec c (Z.of_N n)) as [->|Ne].
      * rewrite <- I1. unfold int. now rewrite Uint63Axioms.of_to_Z.
      * apply I2; auto. lia.
Qed.

Lemma all_below_sound (check : PrimInt63.int -> bool) (n : N) :
  (Z.of_N n < 2 ^ 53)%Z -> all_below check n = true ->
  forall c, (0 <= c < Z.of_N n)%Z -> check (int c) = true.
Proof. intros Hn H. now apply all_below_steps. Qed.

Lemma truncates_sound (y : PrimFloat.float) :
  truncates y = true ->
  int_of_float (FloatOps.Prim2SF y) = Ok (Uint63Axioms.to_Z (trunc_of y)).
Proof. apply trunc_is_sound. Qed.

Lemma share_calories_machine (c : PrimInt63.int) (a : PrimFloat.float)
      (n : PrimInt63.int) :
  nonneg_finite (PrimFloat.of_uint63 c) = true ->
  trunc_is (PrimFloat.mul (PrimFloat.of_uint63 c) a) n = true ->
  share_calories (PInt (Uint63Axioms.to_Z c)) (FloatOps.Prim2SF a)
  = Ok (PInt (Uint63Axioms.to_Z n)).
Proof.
  intros Hx T. unfold share_calories, mul_float, to_float.
  rewrite (float_of_int_machine c Hx). cbn [bind].
  change (fmul ?u ?v) with (FloatAxioms.SF64mul u v).
  rewrite <- FloatAxioms.mul_spec.
  now rewrite (trunc_is_sound _ _ T).
Qed.

Lemma portion_grams_machine (c : PrimInt63.int) (share ratio k : PrimFloat.float)
      (kz : Z) :
  nonneg_finite (PrimFloat.of_uint63 c) = true ->
  float_of_int kz = Ok (FloatOps.Prim2SF k) ->
  truncates (PrimFloat.div
               (PrimFloat.mul (PrimFloat.mul (PrimFloat.of_uint63 c) share) ratio) k)
  = true ->
  runs (portion_grams (PInt (Uint63Axioms.to_Z c)) (FloatOps.Prim2SF share)
          (FloatOps.Prim2SF ratio) kz).
Proof.
  intros Hx Hk T. unfold portion_grams, mul_float, to_float, fdiv_int.
  rewrite (float_of_int_machine c Hx), Hk. cbn [bind].
  change (fmul ?u ?v) with (FloatAxioms.SF64mul u v).
  rewrite <- !FloatAxioms.mul_spec.
  change (fdiv ?u ?v) with (FloatAxioms.SF64div u v).
  rewrite <- FloatAxioms.div_spec.
  rewrite (truncates_sound _ T). cbn [bind]. now eexists.
Qed.

Lemma grams_machine (c : PrimInt63.int) (ratio k : PrimFloat.float) (kz : Z) :
  nonneg_finite (PrimFloat.of_uint63 c) = true ->
  float_of_int kz = Ok (FloatOps.Prim2SF k) ->
  truncates (PrimFloat.div (PrimFloat.mul (PrimFloat.of_uint63 c) ratio) k) = true ->
  runs (grams (PInt (Uint63Axioms.to_Z c)) (FloatOps.Prim2SF ratio) kz).
Proof.
  intros Hx Hk T. unfold grams.
  rewrite (@grams_int_machine c ratio k kz _ Hx Hk T). cbn [bind]. now eexists.
Qed.

Lemma share_at_spec (i : nat) :
  share_of i = FloatOps.Prim2SF (fst (share_at i)) /\
  Uint63Axioms.to_Z (snd (share_at i)) = tenths i.
Proof. destruct i as [|[|k]]; split; reflexivity. Qed.

(** An entry of the validator from its four figures. *)
Lemma food_entry_built (i : nat) (name total_cal calories : pyval) :
  share_calories total_cal (share_of i) = Ok calories ->
  runs (portion_grams total_cal (share_of i) (flt 15 (-2)) 4) ->
  runs (portion_grams total_cal (share_of i) (flt 55 (-2)) 4) ->
  runs (portion_grams total_cal (share_of i) (flt 30 (-2)) 9) ->
  exists entry,
    food_entry i name total_cal = Ok entry /\
    calories_of entry = Some calories /\ name_of entry = Some name.
Proof.
  intros C [p P] [cb CB] [f F]. unfold food_entry. fold (share_of i).
  rewrite C, P, CB, F. cbn [bind]. eexists. split; [reflexivity |]. split; reflexivity.
Qed.

Lemma entry_ok_at_sound (i : nat) (c : PrimInt63.int) (name : pyval) :
  nonneg_finite (PrimFloat.of_uint63 c) = true ->
  (Uint63Axioms.to_Z c < 2 ^ 53)%Z ->
  entry_ok_at i c = true ->
  exists entry,
    food_entry i name (PInt (Uint63Axioms.to_Z c)) = Ok entry /\
    calories_of entry = Some (PInt ((Uint63Axioms.to_Z c * tenths i) ÷ 10)) /\
    name_of entry = Some name.
Proof.
  intros Hx Hc H. unfold entry_ok_at in H.
  destruct (share_at_spec i) as [S T].
  destruct (share_at i) as [share t]. cbn [fst snd] in S, T.
  apply andb_prop in H; destruct H as [H T3].
  apply andb_prop in H; destruct H as [H T2].
  apply andb_prop in H; destruct H as [T0 T1].
  apply food_entry_built; rewrite S.
  - rewrite (share_calories_machine c share _ Hx T0).
    rewrite (@scaled_quotient c t int_10 (tenths i) 10); auto; try lia.
    destruct i as [|[|k]]; cbn; lia.
  - change (flt 15 (-2)) with (FloatOps.Prim2SF ratio_15).
    now apply (@portion_grams_machine c share ratio_15 float_4 4).
  - change (flt 55 (-2)) with (FloatOps.Prim2SF ratio_55).
    now apply (@portion_grams_machine c share ratio_55 float_4 4).
  - change (flt 30 (-2)) with (FloatOps.Prim2SF ratio_30).
    now apply (@portion_grams_machine c share ratio_30 float_9 9).
Qed.

Lemma entries_ok_at_sound (c : PrimInt63.int) (i : nat) (name : pyval) :
  (Uint63Axioms.to_Z c < 2 ^ 53)%Z ->
  entries_ok_at c = true ->
  exists entry,
    food_entry i name (PInt (Uint63Axioms.to_Z c)) = Ok entry /\
    calories_of entry = Some (PInt ((Uint63Axioms.to_Z c * tenths i) ÷ 10)) /\
    name_of entry = Some name.
Proof.
  intros Hc H. unfold entries_ok_at in H.
  apply andb_prop in H; destruct H as [H E2].
  apply andb_prop in H; destruct H as [H E1].
  apply andb_prop in H; destruct H as [Hx E0].
  destruct i as [|[|k]].
  - now apply entry_ok_at_sound.
  - now apply entry_ok_at_sound.
  - change (food_entry (S (S k)) name (PInt (Uint63Axioms.to_Z c)))
      with (food_entry 2 name (PInt (Uint63Axioms.to_Z c))).
    change (tenths (S (S k))) with (tenths 2).
    now apply entry_ok_at_sound.
Qed.

(** The figures of a negative calorie figure are those of its magnitude,
    negated. *)
Lemma share_calories_opp (c n : Z) (a : spec_float) :
  (0 < c)%Z ->
  share_calories (PInt c) a = Ok (PInt n) ->
  share_calories (PInt (- c)) a = Ok (PInt (- n)).
Proof.
  intros Hc. unfold share_calories, mul_float, to_float.
  rewrite (float_of_int_opp Hc).
  destruct (float_of_int c) as [x|e]; cbn [bind]; [| discriminate].
  rewrite fmul_opp, int_of_float_opp.
  destruct (int_of_float (fmul x a)) as [m|e]; cbn [bind negated]; [| discriminate].
  intros H. now injection H as <-.
Qed.

Lemma portion_grams_opp (c : Z) (share ratio : spec_float) (k : Z) :
  (0 < c)%Z ->
  runs (portion_grams (PInt c) share ratio k) ->
  runs (portion_grams (PInt (- c)) share ratio k).
Proof.
  intros Hc [v H]. revert H. unfold portion_grams, mul_float, to_float, fdiv_int.
  rewrite (float_of_int_opp Hc).
  destruct (float_of_int c) as [x|e]; cbn [bind]; [| discriminate].
  destruct (float_of_int k) as [d|e]; cbn [bind]; [| discriminate].
  rewrite !fmul_opp, fdiv_opp, int_of_float_opp.
  destruct (int_of_float (fdiv (fmul (fmul x share) ratio) d)) as [m|e];
    cbn [bind negated]; [| discriminate].
  intros _. now eexists.
Qed.

Lemma food_entry_opp (i : nat) (name : pyval) (c n : Z) :
  (0 < c)%Z ->
  (exists entry,
     food_entry i name (PInt c) = Ok entry /\
     calories_of entry = Some (PInt n) /\ name_of entry = Some name) ->
  exists entry,
    food_entry i name (PInt (- c)) = Ok entry /\
    calories_of entry = Some (PInt (- n)) /\ name_of entry = Some name.
Proof.
  intros Hc (entry & E & C & _). unfold food_entry in E. fold (share_of i) in E.
  destruct (share_calories (PInt c) (share_of i)) as [cal|] eqn:S;
    cbn [bind] in E; [| discriminate E].
  destruct (portion_grams (PInt c) (share_of i) (flt 15 (-2)) 4) as [p|] eqn:P;
    cbn [bind] in E; [| discriminate E].
  destruct (portion_grams (PInt c) (share_of i) (flt 55 (-2)) 4) as [cb|] eqn:CB;
    cbn [bind] in E; [| discriminate E].
  destruct (portion_grams (PInt c) (share_of i) (flt 30 (-2)) 9) as [f|] eqn:F;
    cbn [bind] in E; [| discriminate E].
  injection E as <-. cbn in C. injection C as ->.
  apply food_entry_built.
  - now apply share_calories_opp.
  - apply portion_grams_opp; auto. now exists p.
  - apply portion_grams_opp; auto. now exists cb.
  - apply portion_grams_opp; auto. now exists f.
Qed.

Lemma entries_checked : all_below entries_ok_at 100001 = true.
Proof. vm_cast_no_check (eq_refl true). Qed.

Lemma breakdown_checked : all_ok 100001 = true.
Proof. vm_cast_no_check (eq_refl true). Qed.

Lemma extraction_checked : all_below extraction_ok_at 10000 = true.
Proof. vm_cast_no_check (eq_refl true). Qed.

(** Every entry the validator derives for an int of magnitude up to a
    hundred thousand: the calories are the tenths of the figure, rounded
    toward zero. *)
Lemma food_entry_in_range (i : nat) (name : pyval) (c : Z) :
  (Z.abs c <= validated_magnitude)%Z ->
  exists entry,
    food_entry i name (PInt c) = Ok entry /\
    calories_of entry = Some (PInt ((c * tenths i) ÷ 10)) /\
    name_of entry = Some name.
Proof.
  unfold validated_magnitude. intros Hc.
  assert (P : forall k, (0 <= k <= 100000)%Z ->
            exists entry,
              food_entry i name (PInt k) = Ok entry /\
              calories_of entry = Some (PInt ((k * tenths i) ÷ 10)) /\
              name_of entry = Some name).
  { intros k Hk.
    assert (O : entries_ok_at (int k) = true).
    { apply (@all_below_sound entries_ok_at 100001);
        [reflexivity | exact entries_checked |].
      change (Z.of_N 100001) with 100001%Z. lia. }
    assert (E : Uint63Axioms.to_Z (int k) = k) by (apply to_Z_int; lia).
    destruct (@entries_ok_at_sound (int k) i name) as (entry & F & G);
      [rewrite E; lia | exact O |].
    rewrite E in F, G. now exists entry. }
  destruct (Z_lt_le_dec c 0) as [N|N].
  - replace c with (- (- c))%Z by lia.
    replace ((- - c * tenths i) ÷ 10)%Z with (- ((- c * tenths i) ÷ 10))%Z.
    + apply food_entry_opp; [lia |]. apply P. lia.
    + rewrite <- Z.quot_opp_l by lia. f_equal. lia.
  - apply P. lia.
Qed.

Lemma breakdown_in_validated_range (c : Z) :
  (Z.abs c <= validated_magnitude)%Z ->
  breakdown (PInt c) = Ok (derived_breakdown Z.quot c).
Proof.
  unfold validated_magnitude. intros Hc. apply agrees_breakdown.
  apply (@all_ok_agrees 100001); [reflexivity | exact breakdown_checked |].
  change (Z.of_N 100001) with 100001%Z. lia.
Qed.

(** ** More facts about the validator *)

Lemma ensure_foods_detected_get (d : dict) (k : str) :
  dict_get k (ensure_foods_detected d) =
  if str_eqb k (u "foods_detected") && missing_or_not is_list (u "foods_detected") d
  then Some (PList [PyStr "Makanan dari analisis AI"])
  else dict_get k d.
Proof.
  unfold ensure_foods_detected.
  destruct (missing_or_not is_list (u "foods_detected") d);
    [| now rewrite andb_false_r].
  rewrite andb_true_r. destruct (str_eqb k (u "foods_detected")) eqn:E.
  - apply str_eqb_eq in E. subst k. apply dict_get_set_same.
  - apply dict_get_set_other. intros ->. now rewrite str_eqb_refl in E.
Qed.

Lemma ensure_total_calories_get (d : dict) (k : str) :
  dict_get k (ensure_total_calories d) =
  if str_eqb k (u "total_calories")
     && missing_or_not is_int_or_float (u "total_calories") d
  then Some (PInt 450)
  else dict_get k d.
Proof.
  unfold ensure_total_calories.
  destruct (missing_or_not is_int_or_float (u "total_calories") d);
    [| now rewrite andb_false_r].
  rewrite andb_true_r. destruct (str_eqb k (u "total_calories")) eqn:E.
  - apply str_eqb_eq in E. subst k. apply dict_get_set_same.
  - apply dict_get_set_other. intros ->. now rewrite str_eqb_refl in E.
Qed.

Lemma ensure_confidence_score_get (d : dict) (k : str) :
  dict_get k (ensure_confidence_score d) =
  if str_eqb k (u "confidence_score") && negb (dict_has (u "confidence_score") d)
  then Some (PFloat (flt 8 (-1)))
  else dict_get k d.
Proof.
  unfold ensure_confidence_score.
  destruct (negb (dict_has (u "confidence_score") d));
    [| now rewrite andb_false_r].
  rewrite andb_true_r. destruct (str_eqb k (u "confidence_score")) eqn:E.
  - apply str_eqb_eq in E. subst k. apply dict_get_set_same.
  - apply dict_get_set_other. intros ->. now rewrite str_eqb_refl in E.
Qed.

Lemma defaulted_foods (d : dict) :
  dict_get (u "foods_detected") (defaulted d) =
  if missing_or_not is_list (u "foods_detected") d
  then Some (PList [PyStr "Makanan dari analisis AI"])
  else dict_get (u "foods_detected") d.
Proof.
  unfold defaulted.
  rewrite ensure_confidence_score_get, ensure_total_calories_get,
    ensure_foods_detected_get.
  now rewrite (str_eqb_neq (a := u "foods_detected") (b := u "confidence_score")),
    (str_eqb_neq (a := u "foods_detected") (b := u "total_calories")),
    str_eqb_refl by str_neq.
Qed.

Lemma defaulted_calories (d : dict) :
  dict_get (u "total_calories") (defaulted d) =
  if missing_or_not is_int_or_float (u "total_calories") d
  then Some (PInt 450)
  else dict_get (u "total_calories") d.
Proof.
  unfold defaulted.
  rewrite ensure_confidence_score_get, ensure_total_calories_get.
  rewrite (str_eqb_neq (a := u "total_calories") (b := u "confidence_score"))
    by str_neq.
  rewrite str_eqb_refl. cbn [andb].
  unfold missing_or_not at 1. rewrite !ensure_foods_detected_get.
  rewrite (str_eqb_neq (a := u "total_calories") (b := u "foods_detected"))
    by str_neq.
  reflexivity.
Qed.

Lemma defaulted_other (d : dict) (k : str) :
  ~ In k [u "foods_detected"; u "total_calories"; u "confidence_score"] ->
  dict_get k (defaulted d) = dict_get k d.
Proof.
  intros H. cbn [In] in H. unfold defaulted.
  rewrite ensure_confidence_score_get, ensure_total_calories_get,
    ensure_foods_detected_get.
  now rewrite !str_eqb_neq by (intros ->; tauto).
Qed.

Lemma validate_defaulted (d : dict) :
  _validate_llm_result d =
  (d4 <- ensure_nutritional_breakdown (defaulted d) ;;
   d5 <- ensure_individual_foods d4 ;;
   ensure_health_tips d5).
Proof. reflexivity. Qed.

(** [join] of strings does not raise; an item that is not a string raises
    [TypeError]. *)
Lemma join_strings (sep : str) (l : list pyval) :
  forallb is_str l = true -> runs (join sep l).
Proof.
  induction l as [|v l IH]; intros H; [now eexists |].
  cbn [forallb] in H. apply andb_prop in H. destruct H as [Hv Hl].
  destruct v; try discriminate Hv. cbn [join].
  destruct l as [|w l]; [now eexists |].
  destruct (IH Hl) as [r ->]. cbn [bind]. now eexists.
Qed.

Lemma join_not_strings (sep : str) (l : list pyval) :
  forallb is_str l = false -> join sep l = Raise TypeError.
Proof.
  induction l as [|v l IH]; intros H; [discriminate H |].
  cbn [forallb] in H.
  destruct v; try reflexivity. cbn [is_str andb] in H. cbn [join].
  destruct l as [|w l]; [discriminate H |].
  now rewrite (IH H).
Qed.

(** The entries the validator derives for an int of magnitude up to a
    hundred thousand. *)
Lemma food_entries_in_range (foods : list pyval) (c : Z) :
  (Z.abs c <= validated_magnitude)%Z ->
  forall i,
  exists entries,
    food_entries i foods (PInt c) = Ok entries /\
    map name_of entries = map Some foods /\
    map calories_of entries =
      map (fun j => Some (PInt ((c * tenths j) ÷ 10))) (seq i (length foods)).
Proof.
  intros Hc. induction foods as [|name foods IH]; intros i.
  - exists []. repeat split.
  - destruct (@food_entry_in_range i name c Hc) as (e & E & C & N).
    destruct (IH (S i)) as (es & Es & Ns & Cs).
    exists (e :: es). cbn [food_entries]. rewrite E, Es. cbn [bind].
    split; [reflexivity |]. cbn [map length seq]. now rewrite C, N, Ns, Cs.
Qed.

Lemma missing_or_not_get (is_ok : pyval -> bool) (key : str) (d d' : dict) :
  dict_get key d' = dict_get key d ->
  missing_or_not is_ok key d' = missing_or_not is_ok key d.
Proof. unfold missing_or_not. now intros ->. Qed.

(** The fourth block on a record with a modest calorie figure. *)
Lemma breakdown_block_runs (d3 : dict) (c : Z) :
  dict_get (u "total_calories") d3 = Some (PInt c) ->
  (Z.abs c <= validated_magnitude)%Z ->
  exists d4,
    ensure_nutritional_breakdown d3 = Ok d4 /\
    (forall k, k <> u "nutritional_breakdown" -> dict_get k d4 = dict_get k d3) /\
    (missing_or_not is_dict (u "nutritional_breakdown") d3 = true ->
     dict_get (u "nutritional_breakdown") d4 = Some (derived_breakdown Z.quot c)).
Proof.
  intros Hc Hr. unfold ensure_nutritional_breakdown.
  destruct (missing_or_not is_dict (u "nutritional_breakdown") d3).
  - rewrite Hc, (breakdown_in_validated_range c Hr). cbn [bind].
    eexists. split; [reflexivity |]. split.
    + intros k Hk. now apply dict_get_set_other.
    + intros _. apply dict_get_set_same.
  - exists d3. split; [reflexivity |]. split; [reflexivity | discriminate].
Qed.

(** The fifth block on a record with a modest calorie figure. *)
Lemma entries_block_runs (d4 : dict) (c : Z) (foods : list pyval) :
  dict_get (u "total_calories") d4 = Some (PInt c) ->
  (Z.abs c <= validated_magnitude)%Z ->
  dict_get (u "foods_detected") d4 = Some (PList foods) ->
  exists d5,
    ensure_individual_foods d4 = Ok d5 /\
    (forall k, k <> u "individual_foods" -> dict_get k d5 = dict_get k d4) /\
    (missing_or_not is_list (u "individual_foods") d4 = true ->
     exists entries,
       dict_get (u "individual_foods") d5 = Some (PList entries) /\
       map name_of entries = map Some (slice_to 3 foods) /\
       map calories_of entries =
         map (fun j => Some (PInt ((c * tenths j) ÷ 10)))
             (seq 0 (length (slice_to 3 foods)))).
Proof.
  intros Hc Hr Hf. unfold ensure_individual_foods.
  destruct (missing_or_not is_list (u "individual_foods") d4).
  - unfold get. rewrite Hc, Hf. cbn [bind].
    destruct (@food_entries_in_range (slice_to 3 foods) c Hr 0%nat)
      as (es & E & N & C).
    rewrite E. cbn [bind]. eexists. split; [reflexivity |]. split.
    + intros k Hk. now apply dict_get_set_other.
    + intros _. exists es. split; [apply dict_get_set_same | auto].
  - exists d4. split; [reflexivity |]. split; [reflexivity | discriminate].
Qed.

(** The sixth block on a record whose foods are strings. *)
Lemma tips_block_runs (d5 : dict) (foods : list pyval) :
  dict_get (u "foods_detected") d5 = Some (PList foods) ->
  forallb is_str foods = true ->
  runs (ensure_health_tips d5).
Proof.
  intros Hf Hs. unfold ensure_health_tips.
  destruct (missing_or_not is_list (u "health_tips") d5); [| now eexists].
  unfold get. rewrite Hf. cbn [bind].
  destruct (join_strings (u ", ") _ Hs) as [r ->]. cbn [bind]. now eexists.
Qed.

Lemma defaulted_modest (d : dict) :
  modest_calories d ->
  exists c, dict_get (u "total_calories") (defaulted d) = Some (PInt c) /\
            (Z.abs c <= validated_magnitude)%Z.
Proof.
  intros [M|(c & E & R)]; rewrite defaulted_calories.
  - rewrite M. exists 450%Z. split; [reflexivity |]. unfold validated_magnitude. lia.
  - unfold missing_or_not. rewrite E. cbn. eauto.
Qed.

Lemma defaulted_foods_list (d : dict) :
  exists foods,
    dict_get (u "foods_detected") (defaulted d) = Some (PList foods) /\
    (named_foods d -> forallb is_str foods = true).
Proof.
  rewrite defaulted_foods.
  destruct (missing_or_not is_list (u "foods_detected") d) eqn:M.
  - eexists. split; [reflexivity |]. reflexivity.
  - apply missing_or_not_false in M. destruct M as (v & E & L).
    destruct v; try discriminate L. exists l. split; [exact E |].
    intros N. now apply N.
Qed.

Lemma validation_frame (d d' : dict) (k : str) :
  _validate_llm_result d = Ok d' -> ~ In k core_fields ->
  dict_get k d' = dict_get k d.
Proof.
  intros H N. unfold core_fields in N. cbn [In] in N.
  use_blocks H.
  rewrite O6, O5, O4, O3, O2, O1 by (intros ->; tauto). reflexivity.
Qed.

Lemma total_of_tenths (entries : list pyval) (c : Z) (n : nat) :
  map calories_of entries =
    map (fun j => Some (PInt ((c * tenths j) ÷ 10))) (seq 0 n) ->
  (n <= 3)%nat -> (0 <= c)%Z ->
  (0 <= total_of entries <= c)%Z.
Proof.
  intros H Hn Hc.
  assert (Q : forall t, (0 <= t)%Z -> ((c * t) ÷ 10 = (c * t) / 10)%Z).
  { intros t Ht. apply Z.quot_div_nonneg; lia. }
  destruct n as [|[|[|[|n]]]]; try lia; cbn [seq map tenths] in H;
    rewrite ?Q in H by lia;
    repeat (destruct entries as [|? entries]; try discriminate H);
    cbn [map] in H; inversion H; clear H;
    unfold total_of; cbn [fold_right];
    repeat match goal with
           | E : calories_of _ = _ |- _ => rewrite E; clear E
           end;
    clear Q; Z.to_euclidean_division_equations; lia.
Qed.

Lemma defaulted_missing (is_ok : pyval -> bool) (k : str) (d : dict) :
  ~ In k [u "foods_detected"; u "total_calories"; u "confidence_score"] ->
  missing_or_not is_ok k (defaulted d) = missing_or_not is_ok k d.
Proof. intros H. apply missing_or_not_get. now apply defaulted_other. Qed.

Ltac not_defaulted :=
  let G := fresh in
  cbn [In]; intros [G|[G|[G|[]]]]; vm_compute in G; discriminate G.

(** ** More facts about the extraction *)

(** An entry of the extraction or of the fallback from its four figures. *)
Lemma portion_built (name : pyval) (size : string) (c : Z)
      (share protein carbs fat : spec_float) (calories : pyval) :
  share_calories (PInt c) share = Ok calories ->
  runs (grams (PInt c) protein 4) ->
  runs (grams (PInt c) carbs 4) ->
  runs (grams (PInt c) fat 9) ->
  exists entry,
    portion name size c share protein carbs fat = Ok entry /\
    calories_of entry = Some calories /\ name_of entry = Some name.
Proof.
  intros C [p P] [cb CB] [f F]. unfold portion.
  rewrite C, P, CB, F. cbn [bind]. eexists. split; [reflexivity |]. split; reflexivity.
Qed.

Lemma extraction_ok_at_sound (c : PrimInt63.int) (first second : pyval) :
  (Uint63Axioms.to_Z c < 2 ^ 62)%Z ->
  extraction_ok_at c = true ->
  exists e1 e2 a b,
    portion first "1 porsi utama" (Uint63Axioms.to_Z c)
      (flt 65 (-2)) (flt 1 (-1)) (flt 35 (-2)) (flt 2 (-1)) = Ok e1 /\
    portion second "1 porsi kecil" (Uint63Axioms.to_Z c)
      (flt 35 (-2)) (flt 6 (-2)) (flt 19 (-2)) (flt 1 (-1)) = Ok e2 /\
    name_of e1 = Some first /\ name_of e2 = Some second /\
    calories_of e1 = Some (PInt a) /\ calories_of e2 = Some (PInt b) /\
    (0 <= a)%Z /\ (0 <= b)%Z /\ (a + b <= Uint63Axioms.to_Z c)%Z.
Proof.
  unfold extraction_ok_at. intros Hc H.
  apply andb_prop in H; destruct H as [H G6].
  apply andb_prop in H; destruct H as [H G5].
  apply andb_prop in H; destruct H as [H G4].
  apply andb_prop in H; destruct H as [H G3].
  apply andb_prop in H; destruct H as [H G2].
  apply andb_prop in H; destruct H as [H G1].
  apply andb_prop in H; destruct H as [H L].
  apply andb_prop in H; destruct H as [H Lb].
  apply andb_prop in H; destruct H as [H La].
  apply andb_prop in H; destruct H as [H Tb].
  apply andb_prop in H; destruct H as [Hx Ta].
  set (x := PrimFloat.of_uint63 c) in *.
  set (na := trunc_of (PrimFloat.mul x ratio_65)) in *.
  set (nb := trunc_of (PrimFloat.mul x ratio_35)) in *.
  apply Uint63Axioms.leb_spec in L, La, Lb.
  pose proof (Uint63.to_Z_bounded c) as Bc.
  pose proof (Uint63.to_Z_bounded na) as Ba.
  pose proof (Uint63.to_Z_bounded nb) as Bb.
  rewrite Uint63Axioms.add_spec in L.
  change Uint63Axioms.wB with (2 ^ 63)%Z in *.
  rewrite Z.mod_small in L by lia.
  destruct (@portion_built first "1 porsi utama" (Uint63Axioms.to_Z c)
              (flt 65 (-2)) (flt 1 (-1)) (flt 35 (-2)) (flt 2 (-1))
              (PInt (Uint63Axioms.to_Z na))) as (e1 & E1 & C1 & N1).
  { change (flt 65 (-2)) with (FloatOps.Prim2SF ratio_65).
    now apply share_calories_machine. }
  { change (flt 1 (-1)) with (FloatOps.Prim2SF ratio_10).
    now apply (@grams_machine c ratio_10 float_4 4). }
  { change (flt 35 (-2)) with (FloatOps.Prim2SF ratio_35).
    now apply (@grams_machine c ratio_35 float_4 4). }
  { change (flt 2 (-1)) with (FloatOps.Prim2SF ratio_20).
    now apply (@grams_machine c ratio_20 float_9 9). }
  destruct (@portion_built second "1 porsi kecil" (Uint63Axioms.to_Z c)
              (flt 35 (-2)) (flt 6 (-2)) (flt 19 (-2)) (flt 1 (-1))
              (PInt (Uint63Axioms.to_Z nb))) as (e2 & E2 & C2 & N2).
  { change (flt 35 (-2)) with (FloatOps.Prim2SF ratio_35).
    now apply share_calories_machine. }
  { change (flt 6 (-2)) with (FloatOps.Prim2SF ratio_06).
    now apply (@grams_machine c ratio_06 float_4 4). }
  { change (flt 19 (-2)) with (FloatOps.Prim2SF ratio_19).
    now apply (@grams_machine c ratio_19 float_4 4). }
  { change (flt 1 (-1)) with (FloatOps.Prim2SF ratio_10).
    now apply (@grams_machine c ratio_10 float_9 9). }
  exists e1, e2, (Uint63Axioms.to_Z na), (Uint63Axioms.to_Z nb).
  repeat split; auto; lia.
Qed.

(** The two entries of the extraction for a figure of at most four digits. *)
Lemma extraction_portions (c : Z) (first second : pyval) :
  (0 <= c <= extracted_magnitude)%Z ->
  exists e1 e2 a b,
    portion first "1 porsi utama" c
      (flt 65 (-2)) (flt 1 (-1)) (flt 35 (-2)) (flt 2 (-1)) = Ok e1 /\
    portion second "1 porsi kecil" c
      (flt 35 (-2)) (flt 6 (-2)) (flt 19 (-2)) (flt 1 (-1)) = Ok e2 /\
    name_of e1 = Some first /\ name_of e2 = Some second /\
    calories_of e1 = Some (PInt a) /\ calories_of e2 = Some (PInt b) /\
    (0 <= a)%Z /\ (0 <= b)%Z /\ (a + b <= c)%Z.
Proof.
  unfold extracted_magnitude. intros Hc.
  assert (O : extraction_ok_at (int c) = true).
  { apply (@all_below_sound extraction_ok_at 10000);
      [reflexivity | exact extraction_checked |].
    change (Z.of_N 10000) with 10000%Z. lia. }
  assert (E : Uint63Axioms.to_Z (int c) = c) by (apply to_Z_int; lia).
  destruct (@extraction_ok_at_sound (int c) first second) as (e1 & e2 & a & b & H);
    [rewrite E; lia | exact O |].
  rewrite E in H. now exists e1, e2, a, b.
Qed.

Lemma in_slice_to (A : Type) (n : nat) (x : A) (l : list A) :
  In x (slice_to n l) -> In x l.
Proof.
  unfold slice_to. revert l. induction n as [|n IH]; intros l H; [contradiction |].
  destruct l as [|y l]; [contradiction |].
  destruct H as [->|H]; [now left | right; auto].
Qed.

(** The names the extraction reports: one to three, each of more than two
    characters. *)
Lemma detect_foods_names (patterns : list regex) (response : str) :
  (length (detect_foods patterns response) <= 3)%nat /\
  Forall (fun f => (2 < length f)%nat) (detect_foods patterns response).
Proof.
  induction patterns as [|pattern rest IH]; [split; [cbn; lia | constructor] |].
  cbn [detect_foods].
  destruct (findall pattern response) as [|m ms]; [exact IH |].
  match goal with |- context [map strip (filter ?p ?l)] =>
    set (names := map strip (filter p l));
    assert (F : Forall (fun f => (2 < length f)%nat) names)
  end.
  { apply Forall_forall. intros f Hf. subst names.
    apply in_map_iff in Hf. destruct Hf as (x & <- & Hx).
    apply filter_In in Hx. destruct Hx as [_ Hx].
    apply andb_prop in Hx. destruct Hx as [_ Hx]. now apply Nat.ltb_lt in Hx. }
  destruct names as [|n ns]; [exact IH |].
  split.
  - unfold slice_to. rewrite length_firstn. lia.
  - apply Forall_forall. intros f Hf.
    rewrite Forall_forall in F. apply F.
    now apply (@in_slice_to _ 3).
Qed.

Lemma detected_or_default_names (response : str) :
  (1 <= length (detected_or_default response) <= 3)%nat /\
  Forall (fun f => (2 < length f)%nat) (detected_or_default response).
Proof.
  unfold detected_or_default.
  destruct (detect_foods_names food_patterns response) as [L F].
  destruct (detect_foods food_patterns response) as [|f fs].
  - split; [cbn; lia | repeat constructor; cbn; lia].
  - split; [cbn [length] in *; lia | exact F].
Qed.

(** The tips the extraction reports: one to three, none of them empty. *)
Lemma detect_tips_items (patterns : list regex) (response : str) (default : list str) :
  (1 <= length default <= 3)%nat -> Forall (fun t => t <> []) default ->
  (1 <= length (detect_tips patterns response default) <= 3)%nat /\
  Forall (fun t => t <> []) (detect_tips patterns response default).
Proof.
  intros L D. induction patterns as [|pattern rest IH]; [now split |].
  cbn [detect_tips].
  destruct (findall pattern response) as [|m ms]; [exact IH |].
  match goal with |- context [map strip (filter ?p ?l)] =>
    set (tips := map strip (filter p l));
    assert (F : Forall (fun t => t <> []) tips)
  end.
  { apply Forall_forall. intros t Ht. subst tips.
    apply in_map_iff in Ht. destruct Ht as (x & <- & Hx).
    apply filter_In in Hx. destruct Hx as [_ Hx].
    apply negb_true_iff in Hx. intros E. rewrite E in Hx.
    now rewrite str_eqb_refl in Hx. }
  destruct tips as [|t ts]; [exact IH |].
  split.
  - unfold slice_to. rewrite length_firstn. cbn [length]. lia.
  - apply Forall_forall. intros f Hf.
    rewrite Forall_forall in F. apply F.
    now apply (@in_slice_to _ 3).
Qed.

(** The record of the extraction, for every reply and every fingerprint. *)
Lemma extraction_builds (response h : str) :
  exists c e1 e2 a b nb,
    let foods := detected_or_default response in
    let tips := detect_tips tip_patterns response default_tips in
    (0 <= c <= extracted_magnitude)%Z /\
    c = detect_calories calorie_patterns response 450 /\
    nb = derived_breakdown Z.quot c /\
    name_of e1 = Some (PStr (nth 0 foods (u "Makanan utama"))) /\
    name_of e2 = Some (PStr (nth 1 foods (u "Makanan pendamping"))) /\
    calories_of e1 = Some (PInt a) /\ calories_of e2 = Some (PInt b) /\
    (0 <= a)%Z /\ (0 <= b)%Z /\ (a + b <= c)%Z /\
    _extract_from_llm_response response h =
    Ok [(u "foods_detected", PList (map PStr foods));
        (u "total_calories", PInt c);
        (u "nutritional_breakdown", nb);
        (u "individual_foods", PList [e1; e2]);
        (u "health_tips", PList (map PStr tips));
        (u "confidence_score", PFloat (flt 75 (-2)));
        (u "note",
          PStr ([240; 376; 167; 160]%N ++ u " Ekstraksi manual dari respons AI (ID: "
                  ++ h ++ u ")"));
        (u "analysis_source", PyStr "extracted_llm");
        (u "image_id", PStr h)].
Proof.
  set (c := detect_calories calorie_patterns response 450).
  assert (R : (0 <= c <= extracted_magnitude)%Z).
  { apply detect_calories_range; [apply calorie_patterns_capture_digits |].
    unfold extracted_magnitude. lia. }
  destruct (@extraction_portions c
              (PStr (nth 0 (detected_or_default response) (u "Makanan utama")))
              (PStr (nth 1 (detected_or_default response) (u "Makanan pendamping"))) R)
    as (e1 & e2 & a & b & E1 & E2 & N1 & N2 & C1 & C2 & A & B & S).
  exists c, e1, e2, a, b, (derived_breakdown Z.quot c).
  cbn zeta. repeat (split; [assumption || reflexivity |]).
  unfold _extract_from_llm_response. fold default_tips. fold c.
  unfold extracted_record.
  rewrite breakdown_in_validated_range
    by (unfold extracted_magnitude, validated_magnitude in *; lia).
  cbn [bind]. rewrite E1, E2. reflexivity.
Qed.

(** ** Facts about the size of the image *)

Lemma with_trunc_sound (y : PrimFloat.float) (k : PrimInt63.int -> bool) :
  with_trunc y k = true ->
  exists n, int_of_float (FloatOps.Prim2SF y) = Ok (Uint63Axioms.to_Z n) /\ k n = true.
Proof.
  unfold with_trunc. intros H.
  exists (trunc_of y). split.
  - apply trunc_is_sound. unfold trunc_is, trunc_of.
    apply andb_prop in H. destruct H as [-> H]. cbn [andb].
    destruct (PrimFloat.frshiftexp y) as [m e].
    apply andb_prop in H. destruct H as [-> _]. cbn [andb].
    apply Uint63Axioms.eqb_refl.
  - unfold trunc_of. apply andb_prop in H. destruct H as [_ H].
    destruct (PrimFloat.frshiftexp y) as [m e].
    apply andb_prop in H. tauto.
Qed.

Lemma to_Z_min_int (a b : PrimInt63.int) :
  Uint63Axioms.to_Z (min_int a b) = Z.min (Uint63Axioms.to_Z a) (Uint63Axioms.to_Z b).
Proof.
  unfold min_int. destruct (PrimInt63.ltb b a) eqn:L.
  - apply Uint63Axioms.ltb_spec in L. lia.
  - assert (~ (Uint63Axioms.to_Z b < Uint63Axioms.to_Z a)%Z).
    { intros C. apply Uint63Axioms.ltb_spec in C. congruence. }
    lia.
Qed.

Lemma ltb_to_Z (a b : PrimInt63.int) :
  PrimInt63.ltb a b = (Uint63Axioms.to_Z a <? Uint63Axioms.to_Z b)%Z.
Proof.
  destruct (PrimInt63.ltb a b) eqn:L.
  - apply Uint63Axioms.ltb_spec in L. symmetry. now apply Z.ltb_lt.
  - symmetry. apply Z.ltb_ge. apply Z.le_ngt. intros C.
    apply Uint63Axioms.ltb_spec in C. congruence.
Qed.

(** The quotient of two positive [int]s below [2 ^ 53]. *)
Lemma int_truediv_machine (a b : PrimInt63.int) :
  (0 < Uint63Axioms.to_Z a < 2 ^ 53)%Z -> (0 < Uint63Axioms.to_Z b < 2 ^ 53)%Z ->
  nonneg_finite (PrimFloat.of_uint63 a) = true ->
  nonneg_finite (PrimFloat.of_uint63 b) = true ->
  int_truediv (Uint63Axioms.to_Z a) (Uint63Axioms.to_Z b)
  = Ok (FloatOps.Prim2SF (PrimFloat.div (PrimFloat.of_uint63 a) (PrimFloat.of_uint63 b))).
Proof.
  intros Ha Hb Fa Fb. unfold int_truediv.
  pose proof (float_of_int_machine a Fa) as Ea.
  pose proof (float_of_int_machine b Fb) as Eb.
  destruct (Uint63Axioms.to_Z a) as [|p|p] eqn:A; try lia.
  destruct (Uint63Axioms.to_Z b) as [|q|q] eqn:B; try lia.
  assert (C : ((Z.abs (Zpos p) <? 2 ^ 53) && (Z.abs (Zpos q) <? 2 ^ 53))%Z = true).
  { apply andb_true_intro. split; apply Z.ltb_lt; cbn [Z.abs]; lia. }
  rewrite C, Ea, Eb. cbn [bind].
  change (fdiv ?u ?v) with (FloatAxioms.SF64div u v).
  now rewrite <- FloatAxioms.div_spec.
Qed.

Lemma float_min_machine (a b : PrimFloat.float) :
  float_min (FloatOps.Prim2SF a) (FloatOps.Prim2SF b)
  = FloatOps.Prim2SF (if PrimFloat.ltb b a then b else a).
Proof.
  unfold float_min. rewrite <- FloatAxioms.ltb_spec.
  now destruct (PrimFloat.ltb b a).
Qed.

Lemma mul_float_machine (c : PrimInt63.int) (s : PrimFloat.float) :
  nonneg_finite (PrimFloat.of_uint63 c) = true ->
  mul_float (PInt (Uint63Axioms.to_Z c)) (FloatOps.Prim2SF s)
  = Ok (FloatOps.Prim2SF (PrimFloat.mul (PrimFloat.of_uint63 c) s)).
Proof.
  intros H. unfold mul_float, to_float.
  rewrite (float_of_int_machine c H). cbn [bind].
  change (fmul ?u ?v) with (FloatAxioms.SF64mul u v).
  now rewrite <- FloatAxioms.mul_spec.
Qed.

(** A size that passes the machine check has the properties looked for. *)
Lemma size_ok_fits (w h : PrimInt63.int) :
  (0 < Uint63Axioms.to_Z w < 2 ^ 53)%Z -> (0 < Uint63Axioms.to_Z h < 2 ^ 53)%Z ->
  nonneg_finite (PrimFloat.of_uint63 w) = true ->
  size_ok w h (PrimFloat.of_uint63 w)
    (PrimFloat.div float_800 (PrimFloat.of_uint63 w)) = true ->
  fits (Uint63Axioms.to_Z w) (Uint63Axioms.to_Z h)
    (resized_to (Uint63Axioms.to_Z w) (Uint63Axioms.to_Z h)).
Proof.
  intros Hw Hh Fw. unfold size_ok, resized_to.
  rewrite !ltb_to_Z.
  change (Uint63Axioms.to_Z int_800) with 800%Z.
  change (Uint63Axioms.to_Z int_600) with 600%Z.
  destruct ((800 <? Uint63Axioms.to_Z w) || (600 <? Uint63Axioms.to_Z h))%Z eqn:C.
  - intros H.
    apply andb_prop in H. destruct H as [Fh H].
    change 800%Z with (Uint63Axioms.to_Z int_800) at 1.
    change 600%Z with (Uint63Axioms.to_Z int_600) at 1.
    rewrite (@int_truediv_machine int_800 w), (@int_truediv_machine int_600 h);
      auto; try (cbn; lia).
    cbn [bind].
    change (PrimFloat.of_uint63 int_800) with float_800.
    change (PrimFloat.of_uint63 int_600) with float_600.
    rewrite float_min_machine.
    set (scale := if PrimFloat.ltb _ _ then _ else _) in *.
    rewrite (mul_float_machine _ scale Fw). cbn [bind].
    apply with_trunc_sound in H. destruct H as (nw & -> & H). cbn [bind].
    rewrite (mul_float_machine _ scale Fh). cbn [bind].
    apply with_trunc_sound in H. destruct H as (nh & -> & H). cbn [bind fits].
    apply andb_prop in H. destruct H as [H T].
    apply andb_prop in H. destruct H as [Bw Bh].
    apply Uint63Axioms.leb_spec in Bw, Bh.
    rewrite to_Z_min_int in Bw, Bh.
    change (Uint63Axioms.to_Z int_800) with 800%Z in Bw.
    change (Uint63Axioms.to_Z int_600) with 600%Z in Bh.
    pose proof (Uint63.to_Z_bounded nw). pose proof (Uint63.to_Z_bounded nh).
    apply orb_prop in C. apply orb_prop in T.
    assert (C' : (800 < Uint63Axioms.to_Z w \/ 600 < Uint63Axioms.to_Z h)%Z).
    { destruct C as [C|C]; apply Z.ltb_lt in C; auto. }
    assert (T' : (799 <= Uint63Axioms.to_Z nw \/ 599 <= Uint63Axioms.to_Z nh)%Z).
    { destruct T as [T|T]; apply Uint63Axioms.leb_spec in T; auto. }
    split; [exact C' |]. split; [lia |]. split; [lia | exact T'].
  - intros _. cbn [fits]. apply orb_false_elim in C. destruct C as [C1 C2].
    apply Z.ltb_ge in C1, C2. auto.
Qed.

Lemma sizes_checked : all_below (sizes_ok_at 2048) 2048 = true.
Proof. vm_cast_no_check (eq_refl true). Qed.

Lemma to_Z_succ_int (c : Z) :
  (0 <= c < 2 ^ 53)%Z -> Uint63Axioms.to_Z (PrimInt63.add (int c) int_1) = (c + 1)%Z.
Proof.
  intros H. rewrite Uint63Axioms.add_spec, to_Z_int by lia.
  change (Uint63Axioms.to_Z int_1) with 1%Z.
  change Uint63Axioms.wB with (2 ^ 63)%Z. apply Z.mod_small. lia.
Qed.

(** X25: the size the image is given before it is sent.  For every image
    of up to 2048 by 2048 pixels: an image within 800 by 600 is left as it
    is; a larger one gets a new size, computed without an exception, that
    fits 800 by 600, exceeds neither the width nor the height of the
    image, and reaches the width or the height of the box up to one
    pixel. *)
Theorem resized_within_the_box (width height : Z) :
  (1 <= width <= 2048)%Z -> (1 <= height <= 2048)%Z ->
  fits width height (resized_to width height).
Proof.
  intros Hw Hh.
  assert (W : sizes_ok_at 2048 (int (width - 1)) = true).
  { apply (@all_below_sound (sizes_ok_at 2048) 2048);
      [reflexivity | exact sizes_checked |].
    change (Z.of_N 2048) with 2048%Z. lia. }
  unfold sizes_ok_at in W. apply andb_prop in W. destruct W as [Fw W].
  assert (S : size_ok (PrimInt63.add (int (width - 1)) int_1)
                (PrimInt63.add (int (height - 1)) int_1)
                (PrimFloat.of_uint63 (PrimInt63.add (int (width - 1)) int_1))
                (PrimFloat.div float_800
                   (PrimFloat.of_uint63 (PrimInt63.add (int (width - 1)) int_1)))
              = true).
  { apply (@all_below_sound
             (fun h0 => size_ok (PrimInt63.add (int (width - 1)) int_1)
                          (PrimInt63.add h0 int_1)
                          (PrimFloat.of_uint63 (PrimInt63.add (int (width - 1)) int_1))
                          (PrimFloat.div float_800
                             (PrimFloat.of_uint63
                                (PrimInt63.add (int (width - 1)) int_1))))
             2048); [reflexivity | exact W |].
    change (Z.of_N 2048) with 2048%Z. lia. }
  assert (Ew : Uint63Axioms.to_Z (PrimInt63.add (int (width - 1)) int_1) = width).
  { rewrite to_Z_succ_int by lia. lia. }
  assert (Eh : Uint63Axioms.to_Z (PrimInt63.add (int (height - 1)) int_1) = height).
  { rewrite to_Z_succ_int by lia. lia. }
  pose proof (@size_ok_fits (PrimInt63.add (int (width - 1)) int_1)
                (PrimInt63.add (int (height - 1)) int_1)) as F.
  rewrite Ew, Eh in F. apply F; [lia | lia | exact Fw | exact S].
Qed.

Lemma resized_within_the_box_witness :
  fits 1600 1200 (resized_to 1600 1200).
Proof. apply resized_within_the_box; lia. Defined.

(** ** Further properties of the validator *)

(** The three steps of the validator after the first three blocks. *)
Lemma validate_steps (d d' : dict) :
  _validate_llm_result d = Ok d' ->
  exists d4 d5,
    ensure_nutritional_breakdown (defaulted d) = Ok d4 /\
    ensure_individual_foods d4 = Ok d5 /\
    ensure_health_tips d5 = Ok d'.
Proof. apply validate_chain. Qed.

(** X1: whatever the candidate holds, the record the validator returns has
    its six guarded fields with their types: [foods_detected] is a list,
    [total_calories] a number, [confidence_score] is present,
    [nutritional_breakdown] is a dict, [individual_foods] and [health_tips]
    are lists. *)
Theorem validator_output_well_typed (d d' : dict) :
  _validate_llm_result d = Ok d' ->
  (exists l, dict_get (u "foods_detected") d' = Some (PList l)) /\
  (exists v, dict_get (u "total_calories") d' = Some v /\ is_int_or_float v = true) /\
  dict_has (u "confidence_score") d' = true /\
  (exists b, dict_get (u "nutritional_breakdown") d' = Some (PDict b)) /\
  (exists l, dict_get (u "individual_foods") d' = Some (PList l)) /\
  (exists l, dict_get (u "health_tips") d' = Some (PList l)).
Proof.
  intros H. apply validate_typed in H. unfold blocks in H.
  repeat match goal with
         | H : Forall _ (_ :: _) |- _ => inversion H; clear H; subst
         end.
  repeat match goal with
         | H : well_typed _ _ |- _ =>
             let v := fresh "v" in let E := fresh "E" in let T := fresh "T" in
             destruct H as (v & E & T); cbn [fst snd] in E, T
         end.
  repeat split;
    try match goal with
        | E : dict_get ?k d' = Some ?v, T : is_list ?v = true
          |- exists l, dict_get ?k d' = Some (PList l) =>
            destruct v; try discriminate T; eauto
        | E : dict_get ?k d' = Some ?v, T : is_dict ?v = true
          |- exists l, dict_get ?k d' = Some (PDict l) =>
            destruct v; try discriminate T; eauto
        end.
  - eauto.
  - unfold dict_has.
    now match goal with E : dict_get (u "confidence_score") d' = _ |- _ =>
      rewrite E end.
Qed.

Lemma validator_output_well_typed_witness :
  (exists l, dict_get (u "foods_detected") validated_candidate = Some (PList l)) /\
  (exists v, dict_get (u "total_calories") validated_candidate = Some v
             /\ is_int_or_float v = true) /\
  dict_has (u "confidence_score") validated_candidate = true /\
  (exists b, dict_get (u "nutritional_breakdown") validated_candidate = Some (PDict b)) /\
  (exists l, dict_get (u "individual_foods") validated_candidate = Some (PList l)) /\
  (exists l, dict_get (u "health_tips") validated_candidate = Some (PList l)).
Proof.
  apply (@validator_output_well_typed (candidate 600) validated_candidate).
  vm_compute. reflexivity.
Defined.

(** X2: the validator only fills in: a field of the candidate that is not
    one of the six guarded fields, or that is guarded and holds a value of
    the expected type, is found unchanged in the returned record. *)
Theorem validator_keeps_fields (d d' : dict) (k : str) (v : pyval) :
  _validate_llm_result d = Ok d' ->
  dict_get k d = Some v ->
  (~ In k core_fields \/ exists check, In (k, check) blocks /\ check v = true) ->
  dict_get k d' = Some v.
Proof.
  intros H G [N|(check & B & T)].
  - now rewrite (@validation_frame _ _ k H N).
  - pose proof (validate_keeps d H) as K. rewrite Forall_forall in K.
    specialize (K (k, check) B). cbn [fst] in K. rewrite K; auto.
    exists v. auto.
Qed.

Lemma validator_keeps_fields_witness :
  dict_get (u "total_calories") validated_candidate = Some (PInt 600).
Proof.
  apply (@validator_keeps_fields (candidate 600) validated_candidate).
  - vm_compute. reflexivity.
  - reflexivity.
  - right. exists is_int_or_float. split; [| reflexivity].
    unfold blocks. cbn [In]. auto.
Defined.

(** X3: validating the validator's own output changes nothing, whatever the
    candidate was and whichever fields were filled in. *)
Theorem validator_idempotent_on_output (d d' : dict) :
  _validate_llm_result d = Ok d' -> _validate_llm_result d' = Ok d'.
Proof. apply validate_twice. Qed.

Lemma validator_idempotent_on_output_witness :
  _validate_llm_result validated_candidate = Ok validated_candidate.
Proof.
  apply (@validator_idempotent_on_output (candidate 600)).
  vm_compute. reflexivity.
Defined.

(** X4: the defaults of the validator.  A [foods_detected] that is absent
    or not a list becomes the one-name list, a [total_calories] that is
    absent or not a number becomes 450, an absent [confidence_score] becomes
    0.8, and with the calories defaulted a missing breakdown is the one
    derived from 450. *)
Theorem validator_defaults (d d' : dict) :
  _validate_llm_result d = Ok d' ->
  (missing_or_not is_list (u "foods_detected") d = true ->
   dict_get (u "foods_detected") d' = Some (PList [PyStr "Makanan dari analisis AI"])) /\
  (missing_or_not is_int_or_float (u "total_calories") d = true ->
   dict_get (u "total_calories") d' = Some (PInt 450)) /\
  (dict_has (u "confidence_score") d = false ->
   dict_get (u "confidence_score") d' = Some (PFloat (flt 8 (-1)))) /\
  (missing_or_not is_int_or_float (u "total_calories") d = true ->
   missing_or_not is_dict (u "nutritional_breakdown") d = true ->
   dict_get (u "nutritional_breakdown") d' = Some (derived_breakdown Z.quot 450)).
Proof.
  intros H. apply validate_steps in H. destruct H as (d4 & d5 & E4 & E5 & E6).
  destruct (ensure_nutritional_breakdown_spec (defaulted d) E4) as (_ & O4 & _).
  destruct (ensure_individual_foods_spec d4 E5) as (_ & O5 & _).
  destruct (ensure_health_tips_spec d5 E6) as (_ & O6 & _).
  repeat split.
  - intros M. rewrite O6, O5, O4 by str_neq. now rewrite defaulted_foods, M.
  - intros M. rewrite O6, O5, O4 by str_neq. now rewrite defaulted_calories, M.
  - intros M. rewrite O6, O5, O4 by str_neq. unfold defaulted.
    rewrite ensure_confidence_score_get, str_eqb_refl. cbn [andb].
    unfold dict_has in *. rewrite ensure_total_calories_get, ensure_foods_detected_get.
    rewrite (str_eqb_neq (a := u "confidence_score") (b := u "total_calories")),
      (str_eqb_neq (a := u "confidence_score") (b := u "foods_detected")) by str_neq.
    cbn [andb].
    now destruct (dict_get (u "confidence_score") d).
  - intros M B. rewrite O6, O5 by str_neq.
    assert (C : dict_get (u "total_calories") (defaulted d) = Some (PInt 450))
      by (now rewrite defaulted_calories, M).
    destruct (@breakdown_block_runs (defaulted d) 450 C) as (d4' & E4' & _ & D).
    { unfold validated_magnitude. lia. }
    rewrite E4 in E4'. injection E4' as <-. apply D.
    rewrite defaulted_missing by not_defaulted. exact B.
Qed.

Lemma validator_defaults_witness :
  exists d',
    _validate_llm_result [] = Ok d' /\
    dict_get (u "foods_detected") d' = Some (PList [PyStr "Makanan dari analisis AI"]) /\
    dict_get (u "total_calories") d' = Some (PInt 450) /\
    dict_get (u "confidence_score") d' = Some (PFloat (flt 8 (-1))) /\
    dict_get (u "nutritional_breakdown") d' = Some (derived_breakdown Z.quot 450).
Proof.
  assert (E : exists d', _validate_llm_result [] = Ok d')
    by (eexists; vm_compute; reflexivity).
  destruct E as [d' E]. exists d'.
  destruct (@validator_defaults [] d' E) as (F & C & S & B).
  split; [exact E |]. split; [now apply F |]. split; [now apply C |].
  split; [now apply S | now apply B].
Defined.

(** X5: the validator returns, without an exception, on every candidate
    whose calorie figure is absent, not a number, or an [int] of magnitude
    up to a hundred thousand, and whose [foods_detected], when it is a list, holds
    strings. *)
Theorem validator_returns (d : dict) :
  modest_calories d -> named_foods d ->
  exists d', _validate_llm_result d = Ok d'.
Proof.
  intros M N. rewrite validate_defaulted.
  destruct (defaulted_modest M) as (c & C & R).
  destruct (defaulted_foods_list d) as (foods & F & S). specialize (S N).
  destruct (breakdown_block_runs _ C R) as (d4 & -> & O4 & _). cbn [bind].
  assert (C4 : dict_get (u "total_calories") d4 = Some (PInt c))
    by (now rewrite O4 by str_neq).
  assert (F4 : dict_get (u "foods_detected") d4 = Some (PList foods))
    by (now rewrite O4 by str_neq).
  destruct (entries_block_runs _ C4 R F4) as (d5 & -> & O5 & _). cbn [bind].
  assert (F5 : dict_get (u "foods_detected") d5 = Some (PList foods))
    by (now rewrite O5 by str_neq).
  exact (tips_block_runs _ F5 S).
Qed.

Lemma validator_returns_witness :
  exists d', _validate_llm_result (candidate (-100000)) = Ok d'.
Proof.
  apply validator_returns.
  - right. exists (-100000)%Z. split; [reflexivity |].
    unfold validated_magnitude. cbn. lia.
  - intros l E. vm_compute in E. injection E as <-. reflexivity.
Defined.

(** X6: the entries the validator derives.  When the candidate has no
    [individual_foods] list and its calorie figure is an [int] [c] of
    magnitude up to a hundred thousand, the returned record has one entry for each
    of the first three foods, in their order, named after the food, and the
    calories of the entries are six, three and one tenths of [c], rounded
    toward zero; for a figure that is not negative they add up to at most
    [c]. *)
Theorem validator_derived_entries (d d' : dict) (c : Z) (foods : list pyval) :
  dict_get (u "total_calories") d = Some (PInt c) ->
  (Z.abs c <= validated_magnitude)%Z ->
  dict_get (u "foods_detected") d = Some (PList foods) ->
  missing_or_not is_list (u "individual_foods") d = true ->
  _validate_llm_result d = Ok d' ->
  exists entries,
    dict_get (u "individual_foods") d' = Some (PList entries) /\
    map name_of entries = map Some (slice_to 3 foods) /\
    map calories_of entries =
      map (fun j => Some (PInt ((c * tenths j) ÷ 10)))
          (seq 0 (length (slice_to 3 foods))) /\
    ((0 <= c)%Z -> (0 <= total_of entries <= c)%Z).
Proof.
  intros C R F M H.
  apply validate_steps in H. destruct H as (d4 & d5 & E4 & E5 & E6).
  assert (C3 : dict_get (u "total_calories") (defaulted d) = Some (PInt c)).
  { rewrite defaulted_calories. unfold missing_or_not. now rewrite C. }
  assert (F3 : dict_get (u "foods_detected") (defaulted d) = Some (PList foods)).
  { rewrite defaulted_foods. unfold missing_or_not. now rewrite F. }
  destruct (ensure_nutritional_breakdown_spec (defaulted d) E4) as (_ & O4 & _).
  assert (C4 : dict_get (u "total_calories") d4 = Some (PInt c))
    by (now rewrite O4 by str_neq).
  assert (F4 : dict_get (u "foods_detected") d4 = Some (PList foods))
    by (now rewrite O4 by str_neq).
  destruct (entries_block_runs _ C4 R F4) as (d5' & E5' & _ & D).
  rewrite E5 in E5'. injection E5' as <-.
  destruct D as (entries & I & Ns & Cs).
  { rewrite (@missing_or_not_get is_list (u "individual_foods") (defaulted d) d4)
      by (apply O4; str_neq).
    rewrite defaulted_missing by not_defaulted. exact M. }
  destruct (ensure_health_tips_spec d5 E6) as (_ & O6 & _).
  exists entries. rewrite O6 by str_neq.
  repeat split; auto.
  - apply (@total_of_tenths entries c (length (slice_to 3 foods))); auto.
    unfold slice_to. rewrite length_firstn. lia.
  - apply (@total_of_tenths entries c (length (slice_to 3 foods))); auto.
    unfold slice_to. rewrite length_firstn. lia.
Qed.

Lemma validator_derived_entries_witness :
  exists entries,
    dict_get (u "individual_foods") validated_candidate = Some (PList entries) /\
    map name_of entries = [Some (PyStr "Nasi")] /\
    map calories_of entries = [Some (PInt 360)] /\
    (0 <= total_of entries <= 600)%Z.
Proof.
  destruct (@validator_derived_entries (candidate 600) validated_candidate 600
              [PyStr "Nasi"]) as (entries & I & N & C & T).
  - reflexivity.
  - unfold validated_magnitude. cbn. lia.
  - reflexivity.
  - reflexivity.
  - vm_compute. reflexivity.
  - exists entries. split; [exact I |]. split; [exact N |]. split; [exact C |].
    apply T. lia.
Defined.

(** X7: a calorie figure that is not a number in the arithmetic sense
    stops the validator.  When the candidate has no breakdown dict and its
    [total_calories] is the float nan, the validator raises [ValueError];
    when it is an infinity, [OverflowError]: [int] refuses both. *)
Theorem validator_refuses_calories (d : dict) (f : spec_float) (e : exn) :
  dict_get (u "total_calories") d = Some (PFloat f) ->
  refused f = Some e ->
  missing_or_not is_dict (u "nutritional_breakdown") d = true ->
  _validate_llm_result d = Raise e.
Proof.
  intros C R M. rewrite validate_defaulted.
  assert (C3 : dict_get (u "total_calories") (defaulted d) = Some (PFloat f)).
  { rewrite defaulted_calories. unfold missing_or_not. now rewrite C. }
  assert (M3 : missing_or_not is_dict (u "nutritional_breakdown") (defaulted d) = true).
  { rewrite defaulted_missing by not_defaulted. exact M. }
  unfold ensure_nutritional_breakdown. rewrite M3, C3.
  destruct f as [s|s| |s m x]; try discriminate R; injection R as <-.
  - destruct s; reflexivity.
  - reflexivity.
Qed.

Lemma validator_refuses_calories_witness :
  _validate_llm_result
    [(u "foods_detected", PList [PyStr "Nasi"]); (u "total_calories", PFloat S754_nan)]
  = Raise ValueError.
Proof.
  apply (@validator_refuses_calories _ S754_nan ValueError); reflexivity.
Defined.

(** X8: a food that is not a string stops the validator when it has to
    write the tips.  When [foods_detected] is a list with an item that is
    not a string, the candidate has no [health_tips] list and its calorie
    figure is modest, the validator raises [TypeError], at the [join] of
    the names. *)
Theorem validator_rejects_unnamed_food (d : dict) (foods : list pyval) :
  dict_get (u "foods_detected") d = Some (PList foods) ->
  forallb is_str foods = false ->
  modest_calories d ->
  missing_or_not is_list (u "health_tips") d = true ->
  _validate_llm_result d = Raise TypeError.
Proof.
  intros F S M T. rewrite validate_defaulted.
  destruct (defaulted_modest M) as (c & C & R).
  assert (F3 : dict_get (u "foods_detected") (defaulted d) = Some (PList foods)).
  { rewrite defaulted_foods. unfold missing_or_not. now rewrite F. }
  assert (T3 : missing_or_not is_list (u "health_tips") (defaulted d) = true).
  { rewrite defaulted_missing by not_defaulted. exact T. }
  destruct (breakdown_block_runs _ C R) as (d4 & -> & O4 & _). cbn [bind].
  assert (C4 : dict_get (u "total_calories") d4 = Some (PInt c))
    by (now rewrite O4 by str_neq).
  assert (F4 : dict_get (u "foods_detected") d4 = Some (PList foods))
    by (now rewrite O4 by str_neq).
  destruct (entries_block_runs _ C4 R F4) as (d5 & -> & O5 & _). cbn [bind].
  unfold ensure_health_tips.
  assert (T5 : missing_or_not is_list (u "health_tips") d5 = true).
  { rewrite (@missing_or_not_get is_list (u "health_tips") (defaulted d) d5)
      by (now rewrite O5, O4 by str_neq).
    exact T3. }
  rewrite T5. unfold get. rewrite O5, F4 by str_neq. cbn [bind].
  now rewrite (join_not_strings _ _ S).
Qed.

Lemma validator_rejects_unnamed_food_witness :
  _validate_llm_result
    [(u "foods_detected", PList [PInt 1]); (u "total_calories", PInt 500)]
  = Raise TypeError.
Proof.
  apply (@validator_rejects_unnamed_food _ [PInt 1]).
  - reflexivity.
  - reflexivity.
  - right. exists 500%Z. split; [reflexivity |].
    unfold validated_magnitude. cbn. lia.
  - reflexivity.
Defined.

(** ** Further properties of the extraction and of the pipeline *)

(** X9: the heuristic extraction never takes its exception handler.  For
    every reply and every fingerprint, a hex digest or not, it returns the
    record it builds, tagged [extracted_llm], with the fingerprint as
    [image_id], with every field of the data model, with a calorie figure
    that is an [int] between 0 and 9999, and with the breakdown derived
    from that figure, each quotient rounded toward zero. *)
Theorem extraction_always_builds (response h : str) :
  exists record c,
    _extract_from_llm_response response h = Ok record /\
    source_is "extracted_llm" record /\
    dict_get (u "image_id") record = Some (PStr h) /\
    has_all full_field_set record = true /\
    dict_get (u "total_calories") record = Some (PInt c) /\
    (0 <= c <= 9999)%Z /\
    dict_get (u "nutritional_breakdown") record = Some (derived_breakdown Z.quot c).
Proof.
  destruct (extraction_builds response h)
    as (c & e1 & e2 & a & b & nb & R & _ & -> & _ & _ & _ & _ & _ & _ & _ & E).
  eexists. exists c. split; [exact E |].
  repeat split; try reflexivity; unfold extracted_magnitude in R; lia.
Qed.

(** X10: the names and the tips of an extracted record.  For every reply
    the record lists one to three foods, each name of more than two
    characters, and one to three tips, none of them empty. *)
Theorem extraction_names_and_tips (response h : str) :
  exists record foods tips,
    _extract_from_llm_response response h = Ok record /\
    dict_get (u "foods_detected") record = Some (PList (map PStr foods)) /\
    (1 <= length foods <= 3)%nat /\
    Forall (fun f => (2 < length f)%nat) foods /\
    dict_get (u "health_tips") record = Some (PList (map PStr tips)) /\
    (1 <= length tips <= 3)%nat /\
    Forall (fun t => t <> []) tips.
Proof.
  destruct (extraction_builds response h)
    as (c & e1 & e2 & a & b & nb & _ & _ & _ & _ & _ & _ & _ & _ & _ & _ & E).
  cbn zeta in E.
  destruct (detected_or_default_names response) as [L F].
  destruct (@detect_tips_items tip_patterns response default_tips) as [LT FT].
  { cbn. lia. }
  { repeat constructor; discriminate. }
  eexists. exists (detected_or_default response),
    (detect_tips tip_patterns response default_tips).
  split; [exact E |]. repeat split; auto; lia.
Qed.

(** X11: the two entries of an extracted record.  For every reply the
    record has exactly two [individual_foods] entries, the first named
    after the first food and the second after the second food or, when
    there is none, [Makanan pendamping]; their calories are two [int]s
    that are not negative and add up to at most [total_calories]. *)
Theorem extraction_two_portions (response h : str) :
  exists record foods c e1 e2 a b,
    _extract_from_llm_response response h = Ok record /\
    dict_get (u "foods_detected") record = Some (PList (map PStr foods)) /\
    dict_get (u "total_calories") record = Some (PInt c) /\
    dict_get (u "individual_foods") record = Some (PList [e1; e2]) /\
    name_of e1 = Some (PStr (nth 0 foods (u "Makanan utama"))) /\
    name_of e2 = Some (PStr (nth 1 foods (u "Makanan pendamping"))) /\
    calories_of e1 = Some (PInt a) /\ calories_of e2 = Some (PInt b) /\
    (0 <= a)%Z /\ (0 <= b)%Z /\ (a + b <= c)%Z.
Proof.
  destruct (extraction_builds response h)
    as (c & e1 & e2 & a & b & nb & _ & _ & _ & N1 & N2 & C1 & C2 & A & B & S & E).
  cbn zeta in *.
  eexists. exists (detected_or_default response), c, e1, e2, a, b.
  split; [exact E |]. repeat split; auto.
Qed.

Lemma extract_returns (response h : str) :
  exists record, _extract_from_llm_response response h = Ok record.
Proof.
  destruct (extraction_builds response h)
    as (c & e1 & e2 & a & b & nb & H).
  cbn zeta in H. eexists. apply H.
Qed.

(** X12: the parsing section returns a record for every reply and every
    fingerprint, a hex digest or not: an exception of the stages before,
    the fallback's own [ValueError] on a fingerprint that is not a
    hexadecimal literal included, is caught and answered by the
    extraction, which cannot fail.  The record passes the shape check, and
    [analyze_food] returns it when the model call returned the reply. *)
Theorem recover_returns (response_text h : str) :
  exists record,
    recover response_text h = Ok record /\
    analyze_food (Ok response_text) h = Ok record /\
    _is_valid_nutrition_result (PDict record) = Ok true.
Proof.
  assert (R : exists record, recover response_text h = Ok record).
  { unfold recover, try_except.
    destruct (parse_response response_text h); [eauto | apply extract_returns]. }
  destruct R as [record R]. exists record. split; [exact R |]. split.
  - unfold analyze_food. cbn [bind]. now rewrite R.
  - apply shape_check_shaped.
    apply (@produced_shaped response_text h). now apply recover_produced.
Qed.




Lemma attempt_validator_raises (candidate : str) (how source : string) (h : str)
      (d : dict) (e : exn) :
  Json.loads candidate = Ok (PDict d) -> shaped d ->
  _validate_llm_result d = Raise e -> e <> JSONDecodeError ->
  attempt candidate how source h = Raise e.
Proof.
  intros L S V N. unfold attempt. rewrite L. cbn [bind].
  apply shape_check_shaped in S. rewrite S. cbn [bind]. rewrite V. cbn [bind].
  unfold except_decode_error. destruct e; auto. contradiction.
Qed.

(** X14: an exception of the validator sends the reply to the extraction.
    When the cleaned reply is one JSON object that passes the shape check
    and the validator raises on it (anything but a decode error, which it
    never raises itself), the stages that follow are not tried, the
    explanation test is skipped, and the record returned is the one the
    heuristic extraction builds from the raw reply. *)
Theorem validator_exception_goes_to_extraction
        (response_text h : str) (d : dict) (e : exn) :
  startswith (u "{") (response_cleaned response_text)
    && endswith (u "}") (response_cleaned response_text) = true ->
  Json.loads (response_cleaned response_text) = Ok (PDict d) ->
  shaped d ->
  _validate_llm_result d = Raise e -> e <> JSONDecodeError ->
  recover response_text h = _extract_from_llm_response response_text h /\
  exists record,
    recover response_text h = Ok record /\ source_is "extracted_llm" record.
Proof.
  intros B L S V N.
  assert (R : recover response_text h = _extract_from_llm_response response_text h).
  { unfold recover, parse_response, direct_parse. rewrite B.
    now rewrite (@attempt_validator_raises _ _ _ _ _ _ L S V N). }
  split; [exact R |]. rewrite R.
  destruct (extraction_builds response_text h)
    as (c & e1 & e2 & a & b & nb & _ & _ & _ & _ & _ & _ & _ & _ & _ & _ & E).
  cbn zeta in E. eexists. split; [exact E | reflexivity].
Qed.

Lemma validator_exception_goes_to_extraction_witness :
  recover nan_calories_json (u "abcd1234")
    = _extract_from_llm_response nan_calories_json (u "abcd1234") /\
  exists record,
    recover nan_calories_json (u "abcd1234") = Ok record /\
    source_is "extracted_llm" record.
Proof.
  apply (@validator_exception_goes_to_extraction nan_calories_json (u "abcd1234")
           [(u "foods_detected", PList [PyStr "Nasi"]);
            (u "total_calories", PFloat S754_nan)] ValueError).
  - vm_compute. reflexivity.
  - vm_compute. reflexivity.
  - split; [exists (PyStr "Nasi"), [] | exists (PFloat S754_nan)]; reflexivity.
  - vm_compute. reflexivity.
  - discriminate.
Defined.

(** X15: every record names the image it belongs to.  The note of a
    returned record ends with the fingerprint in the form [(ID: h)]; its
    [image_id] is the fingerprint, except in the fallback's record, which
    has none; and its tag is one of the five tags. *)
Theorem record_names_fingerprint (response_text h : str) (record : dict) :
  recover response_text h = Ok record ->
  (exists prefix,
     dict_get (u "note") record = Some (PStr (prefix ++ u "(ID: " ++ h ++ u ")"))) /\
  (dict_get (u "image_id") record = Some (PStr h) \/
   (source_is "smart_fallback" record /\ dict_get (u "image_id") record = None)) /\
  (exists tag, In tag source_tags /\ source_is tag record).
Proof.
  intros H. apply recover_produced in H.
  destruct H as [c d v how src L S V -> Hsrc | cal tips E | F].
  - destruct (stamp_tags v how src h) as (I & A & _). split; [| split].
    + exists (robot ++ u " " ++ u how ++ u " ").
      unfold stamp. rewrite !dict_get_set_other by str_neq.
      rewrite dict_get_set_same. do 2 f_equal.
      rewrite <- !app_assoc. reflexivity.
    + now left.
    + exists src. split; [| exact A].
      unfold source_tags. cbn [In] in *. tauto.
  - unfold extracted_record in E. repeat bind_inv E. injection E as <-.
    split; [| split].
    + exists ([240; 376; 167; 160]%N ++ u " Ekstraksi manual dari respons AI ").
      cbn [dict_get]. rewrite <- !app_assoc. reflexivity.
    + now left.
    + exists "extracted_llm"%string. split; [| reflexivity].
      unfold source_tags. cbn [In]. tauto.
  - apply smart_fallback_inv in F. destruct F as (sel & _ & F).
    destruct sel as [[[f0 f1] f2] cal]. unfold fallback_record in F.
    repeat bind_inv F. injection F as <-.
    split; [| split].
    + exists ([240; 376; 381; 175]%N ++ u " Analisis konsisten berdasarkan foto ").
      cbn [dict_get]. rewrite <- !app_assoc. reflexivity.
    + right. split; reflexivity.
    + exists "smart_fallback"%string. split; [| reflexivity].
      unfold source_tags. cbn [In]. tauto.
Qed.

Lemma record_names_fingerprint_witness :
  exists record,
    recover fenced_json (u "abcd1234") = Ok record /\
    (exists prefix,
       dict_get (u "note") record
       = Some (PStr (prefix ++ u "(ID: " ++ u "abcd1234" ++ u ")"))) /\
    (dict_get (u "image_id") record = Some (PStr (u "abcd1234")) \/
     (source_is "smart_fallback" record /\ dict_get (u "image_id") record = None)) /\
    (exists tag, In tag source_tags /\ source_is tag record).
Proof.
  assert (E : exists record, recover fenced_json (u "abcd1234") = Ok record)
    by (eexists; vm_compute; reflexivity).
  destruct E as [record E]. exists record. split; [exact E |].
  exact (@record_names_fingerprint fenced_json (u "abcd1234") record E).
Defined.

(** ** Further properties of the figures *)

(** X22: the breakdown literal on every [int] of magnitude up to a
    hundred thousand.  The validator, the heuristic extraction and the
    fallback spell out the same dict; on the binary64 arithmetic of the
    code it never raises there and its five gram figures are the exact
    quotients, rounded toward zero. *)
Theorem breakdown_exact_on_the_range (c : Z) :
  (Z.abs c <= 100000)%Z ->
  breakdown (PInt c) = Ok (derived_breakdown Z.quot c).
Proof. apply breakdown_in_validated_range. Qed.

Lemma breakdown_exact_on_the_range_witness :
  breakdown (PInt (-99999)) = Ok (derived_breakdown Z.quot (-99999)).
Proof. apply breakdown_exact_on_the_range. cbn. lia. Defined.

(** X23: the figures of a negative calorie figure mirror those of its
    magnitude, for every [int], every ratio and every divisor: the gram
    figure [int(-c * ratio / kcal)] is the negated [int(c * ratio / kcal)],
    [int(-c / per)] is the negated [int(c / per)], and an exception of the
    one is the exception of the other. *)
Theorem negative_figures_mirror (c : Z) (ratio : spec_float) (kcal : Z) (per : positive) :
  (0 < c)%Z ->
  grams_int (PInt (- c)) ratio kcal = negated (grams_int (PInt c) ratio kcal) /\
  per_int (PInt (- c)) (Zpos per) = negated (per_int (PInt c) (Zpos per)).
Proof. intros H. split; [now apply grams_int_opp | now apply per_int_opp]. Qed.

Lemma negative_figures_mirror_witness :
  grams_int (PInt (- 10)) (flt 16 (-2)) 4 = negated (grams_int (PInt 10) (flt 16 (-2)) 4) /\
  per_int (PInt (- 10)) 120 = negated (per_int (PInt 10) 120).
Proof. apply (@negative_figures_mirror 10 (flt 16 (-2)) 4 120). lia. Defined.

(** X24: the record of the fallback.  Whenever the fallback returns, its
    calorie figure is one of the table, between 480 and 720, its breakdown
    is the one derived from that figure, and it has three
    [individual_foods] entries, named after the three foods in their order,
    whose calories are not negative and add up to at most the figure. *)
Theorem fallback_three_portions (h : str) (record : dict) :
  _create_smart_fallback h = Ok record ->
  exists c f1 f2 f3 e1 e2 e3,
    dict_get (u "total_calories") record = Some (PInt c) /\
    In c table_calories /\ (480 <= c <= 720)%Z /\
    dict_get (u "nutritional_breakdown") record = Some (derived_breakdown Z.quot c) /\
    dict_get (u "foods_detected") record = Some (PList [f1; f2; f3]) /\
    dict_get (u "individual_foods") record = Some (PList [e1; e2; e3]) /\
    map name_of [e1; e2; e3] = [Some f1; Some f2; Some f3] /\
    (0 <= total_of [e1] /\ 0 <= total_of [e2] /\ 0 <= total_of [e3])%Z /\
    (total_of [e1; e2; e3] <= c)%Z.
Proof.
  intros H. apply smart_fallback_inv in H. destruct H as (sel & I & F).
  unfold food_combinations in I. cbn [In] in I.
  repeat (destruct I as [<-|I];
          [vm_compute in F; injection F as <-;
           do 7 eexists;
           (split; [reflexivity |]);
           (split; [vm_compute; tauto |]);
           (split; [lia |]);
           (split; [vm_compute; reflexivity |]);
           (split; [reflexivity |]);
           (split; [reflexivity |]);
           (split; [reflexivity |]);
           vm_compute; repeat split; discriminate |]).
  contradiction.
Qed.

Lemma fallback_three_portions_witness :
  exists record c f1 f2 f3 e1 e2 e3,
    _create_smart_fallback (u "abcd1234") = Ok record /\
    dict_get (u "total_calories") record = Some (PInt c) /\
    In c table_calories /\ (480 <= c <= 720)%Z /\
    dict_get (u "nutritional_breakdown") record = Some (derived_breakdown Z.quot c) /\
    dict_get (u "foods_detected") record = Some (PList [f1; f2; f3]) /\
    dict_get (u "individual_foods") record = Some (PList [e1; e2; e3]) /\
    map name_of [e1; e2; e3] = [Some f1; Some f2; Some f3] /\
    (0 <= total_of [e1] /\ 0 <= total_of [e2] /\ 0 <= total_of [e3])%Z /\
    (total_of [e1; e2; e3] <= c)%Z.
Proof.
  assert (E : exists record, _create_smart_fallback (u "abcd1234") = Ok record)
    by (eexists; vm_compute; reflexivity).
  destruct E as [record E]. exists record.
  destruct (@fallback_three_portions (u "abcd1234") record E)
    as (c & f1 & f2 & f3 & e1 & e2 & e3 & H).
  exists c, f1, f2, f3, e1, e2, e3. split; [exact E | exact H].
Defined.

(** ** Further properties of the defaults *)

(** The group of a match is a piece of the text. *)
Lemma sem_group_within (r : regex) (s s1 : str) (g g1 : option str) :
  sem r s g s1 g1 ->
  g1 = g \/ exists a t b, g1 = Some t /\ s = a ++ t ++ b.
Proof.
  induction 1 as [s g | p c s g P
                  | r1 r2 s g s1 g1 s2 g2 H1 IH1 H2 IH2
                  | r1 r2 s g s1 g1 _ IH | r1 r2 s g s1 g1 _ IH
                  | r s g s1 g1 H _ | b r s g
                  | b r s g s1 g1 s2 g2 H1 IH1 H2 IH2].
  - now left.
  - now left.
  - destruct IH2 as [->|(a & t & b & -> & E)]; [exact IH1 |].
    right. apply sem_suffix in H1. destruct H1 as [p ->].
    exists (p ++ a), t, b. split; [reflexivity |]. rewrite E. now rewrite app_assoc.
  - exact IH.
  - exact IH.
  - right. apply sem_suffix in H. destruct H as [t ->].
    exists [], t, s1. split; [| reflexivity]. now rewrite firstn_consumed.
  - now left.
  - destruct IH2 as [->|(a & t & c & -> & E)]; [exact IH1 |].
    right. apply sem_suffix in H1. destruct H1 as [p ->].
    exists (p ++ a), t, c. split; [reflexivity |]. rewrite E. now rewrite app_assoc.
Qed.

(** The first item of [findall] is the group of a match in a suffix of the
    text. *)
Lemma findall_from_suffix (r : regex) (s : str) (skip : nat) (m : str) (ms : list str) :
  findall_from r s skip = m :: ms ->
  exists pre s' rest g,
    s = pre ++ s' /\
    match_here r s' = Some (rest, g) /\
    m = match g with Some t => t | None => firstn (length s' - length rest) s' end.
Proof.
  revert skip. induction s as [|c s IH]; intros skip H; [discriminate H |].
  assert (N : forall k, findall_from r s k = m :: ms ->
              exists pre s' rest g,
                c :: s = pre ++ s' /\
                match_here r s' = Some (rest, g) /\
                m = match g with
                    | Some t => t
                    | None => firstn (length s' - length rest) s'
                    end).
  { intros k Hk. apply IH in Hk. destruct Hk as (pre & s' & rest & g & -> & M & E).
    exists (c :: pre), s', rest, g. auto. }
  cbn [findall_from] in H. destruct skip as [|k]; [| now apply N in H].
  destruct (match_here r (c :: s)) as [[rest g]|] eqn:E.
  - injection H as <- _. exists [], (c :: s), rest, g. auto.
  - now apply N in H.
Qed.

(** A pattern that captures digits finds nothing in a text without a
    digit. *)
Lemma findall_digitless (pattern : regex) (response : str) :
  captures_digits pattern -> digitless response -> findall pattern response = [].
Proof.
  intros C D. destruct (findall pattern response) as [|m ms] eqn:F; [reflexivity |].
  exfalso. apply findall_from_suffix in F.
  destruct F as (pre & s' & rest & g & -> & M & _).
  destruct (C _ _ _ M) as (t & -> & [L T]).
  apply match_here_sem in M. apply sem_group_within in M.
  destruct M as [M|(a & t' & b & M & ->)]; [discriminate M |].
  injection M as <-.
  destruct t as [|c t]; [destruct L; discriminate |].
  cbn [forallb] in T. apply andb_prop in T. destruct T as [T _].
  rewrite D in T; [discriminate T |].
  apply in_or_app. right. apply in_or_app. right. apply in_or_app. left. now left.
Qed.

Lemma detect_calories_digitless (patterns : list regex) (response : str) (default : Z) :
  Forall captures_digits patterns -> digitless response ->
  detect_calories patterns response default = default.
Proof.
  intros C D. induction C as [|pattern rest C1 _ IH]; [reflexivity |].
  cbn [detect_calories]. now rewrite (@findall_digitless _ _ C1 D).
Qed.

(** X26: the default figure of the extraction.  For a reply without any
    digit no calorie pattern matches: the extracted record has the default
    450 kcal and the breakdown derived from it, 18 g of protein, 60 g of
    carbohydrates, 15 g of fat, 4 g of fiber and 3 g of sugar. *)
Theorem extraction_default_calories (response h : str) :
  digitless response ->
  exists record,
    _extract_from_llm_response response h = Ok record /\
    dict_get (u "total_calories") record = Some (PInt 450) /\
    dict_get (u "nutritional_breakdown") record =
    Some (PDict [(u "calories", PInt 450);
                 (u "protein", in_grams 18);
                 (u "carbohydrates", in_grams 60);
                 (u "fat", in_grams 15);
                 (u "fiber", in_grams 4);
                 (u "sugar", in_grams 3)]).
Proof.
  intros D.
  destruct (extraction_builds response h)
    as (c & e1 & e2 & a & b & nb & _ & C & -> & _ & _ & _ & _ & _ & _ & _ & E).
  cbn zeta in E.
  rewrite (@detect_calories_digitless _ _ 450 calorie_patterns_capture_digits D) in C.
  subst c. eexists. split; [exact E |]. split; reflexivity.
Qed.

Lemma extraction_default_calories_witness :
  exists record,
    _extract_from_llm_response refusal_text (u "abcd1234") = Ok record /\
    dict_get (u "total_calories") record = Some (PInt 450) /\
    dict_get (u "nutritional_breakdown") record =
    Some (PDict [(u "calories", PInt 450);
                 (u "protein", in_grams 18);
                 (u "carbohydrates", in_grams 60);
                 (u "fat", in_grams 15);
                 (u "fiber", in_grams 4);
                 (u "sugar", in_grams 3)]).
Proof.
  apply extraction_default_calories.
  intros c H. unfold refusal_text in H. vm_compute in H.
  repeat (destruct H as [<-|H]; [reflexivity |]). contradiction.
Defined.

(** X27: a calorie figure that is a [bool] counts as a number.  The JSON
    literals true and false pass the [isinstance] test, so the validator
    keeps them as [total_calories]; the breakdown it derives from one of
    them has 0 g of protein, of carbohydrates and of fat, 4 g of fiber and
    3 g of sugar, and the [bool] itself as calories. *)
Theorem validator_keeps_boolean_calories (d d' : dict) (b : bool) :
  dict_get (u "total_calories") d = Some (PBool b) ->
  _validate_llm_result d = Ok d' ->
  dict_get (u "total_calories") d' = Some (PBool b) /\
  (missing_or_not is_dict (u "nutritional_breakdown") d = true ->
   dict_get (u "nutritional_breakdown") d' = Some (least_breakdown (PBool b))).
Proof.
  intros C H. apply validate_steps in H. destruct H as (d4 & d5 & E4 & E5 & E6).
  destruct (ensure_nutritional_breakdown_spec (defaulted d) E4) as (_ & O4 & _).
  destruct (ensure_individual_foods_spec d4 E5) as (_ & O5 & _).
  destruct (ensure_health_tips_spec d5 E6) as (_ & O6 & _).
  assert (C3 : dict_get (u "total_calories") (defaulted d) = Some (PBool b)).
  { rewrite defaulted_calories. unfold missing_or_not. now rewrite C. }
  split.
  - now rewrite O6, O5, O4 by str_neq.
  - intros M. rewrite O6, O5 by str_neq.
    unfold ensure_nutritional_breakdown in E4.
    rewrite defaulted_missing, M, C3 in E4 by not_defaulted.
    assert (B : breakdown (PBool b) = Ok (least_breakdown (PBool b)))
      by (destruct b; reflexivity).
    rewrite B in E4. cbn [bind] in E4. injection E4 as <-.
    apply dict_get_set_same.
Qed.

Lemma validator_keeps_boolean_calories_witness :
  exists d',
    _validate_llm_result true_calories = Ok d' /\
    dict_get (u "total_calories") d' = Some (PBool true) /\
    dict_get (u "nutritional_breakdown") d' = Some (least_breakdown (PBool true)).
Proof.
  assert (E : exists d', _validate_llm_result true_calories = Ok d')
    by (eexists; vm_compute; reflexivity).
  destruct E as [d' E]. exists d'. split; [exact E |].
  destruct (@validator_keeps_boolean_calories true_calories d' true eq_refl E)
    as [C B].
  split; [exact C | now apply B].
Defined.

(** ** Properties of the advice and of the summaries *)

Lemma join_names (sep : str) (names : list str) :
  join sep (map PStr names) = Ok (joined sep names).
Proof.
  induction names as [|a rest IH]; [reflexivity |].
  cbn [map join joined]. destruct rest as [|b rest]; [reflexivity |].
  cbn [map] in *. now rewrite IH.
Qed.

Section AnyModel.

Variable invoke : str -> outcome str.
Variable text_of : pyval -> str.

(** X16: the advice asks the model about the foods of the record.  For a
    record whose [foods_detected] is a list of strings, as in every record
    of the extraction and of the fallback, the prompt names the foods,
    joined by a comma and a space, and the calorie figure, [N/A] when the
    record has none; the text returned is the reply of the model, or the
    fixed advice when the call raises. *)
Theorem advice_asks_about_the_foods (d : dict) (names : list str) :
  dict_get (u "foods_detected") d = Some (PList (map PStr names)) ->
  get_nutrition_advice invoke text_of (PDict d) =
  let total_calories :=
    match dict_get (u "total_calories") d with
    | Some v => v
    | None => PyStr "N/A"
    end in
  match invoke (advice_prompt text_of (joined (u ", ") names) total_calories) with
  | Ok reply => Ok reply
  | Raise _ => Ok fixed_advice
  end.
Proof.
  intros F. unfold get_nutrition_advice, get. cbn [bind]. rewrite F.
  cbn [items_of bind]. rewrite join_names. cbn [bind try_except].
  now destruct (invoke _).
Qed.

(** X17: the advice never raises, and it does not ask the model at all
    when the data is not a dict, when [foods_detected] cannot be iterated,
    or when one of its items is not a string: the text is then the fixed
    advice. *)
Theorem advice_never_raises (nutrition_data : pyval) :
  (exists text, get_nutrition_advice invoke text_of nutrition_data = Ok text) /\
  ((forall d, nutrition_data <> PDict d) ->
   get_nutrition_advice invoke text_of nutrition_data = Ok fixed_advice) /\
  (forall d l,
     nutrition_data = PDict d ->
     dict_get (u "foods_detected") d = Some (PList l) ->
     forallb is_str l = false ->
     get_nutrition_advice invoke text_of nutrition_data = Ok fixed_advice).
Proof.
  split; [| split].
  - unfold get_nutrition_advice, try_except.
    match goal with |- exists text, match ?b with _ => _ end = _ => destruct b end;
      eauto.
  - intros N. destruct nutrition_data; try reflexivity. now destruct (N d).
  - intros d l -> F S. unfold get_nutrition_advice, get. cbn [bind]. rewrite F.
    cbn [items_of bind]. now rewrite (join_not_strings _ _ S).
Qed.

Lemma counted_int_log (log : pyval) (c total : Z) :
  int_log log c -> counted log (PInt total) = Ok (PInt (total + c)).
Proof.
  intros (l & record & -> & A & C). unfold counted.
  cbn [has_field getitem bind]. unfold dict_has. rewrite A. cbn [bind].
  cbn [has_field getitem bind]. unfold dict_has. rewrite C. cbn [bind or_keep].
  reflexivity.
Qed.

Lemma counted_all_int_logs (logs : list pyval) (cs : list Z) :
  Forall2 int_log logs cs ->
  forall total,
    counted_all logs (PInt total) = Ok (PInt (total + fold_right Z.add 0%Z cs)).
Proof.
  induction 1 as [|log c logs cs L _ IH]; intros total.
  - cbn. f_equal. f_equal. lia.
  - cbn [counted_all fold_right]. rewrite (@counted_int_log _ _ total L). cbn [bind].
    rewrite IH. do 2 f_equal. lia.
Qed.

(** X18: the daily summary asks the model with the number of the logs and
    the sum of their calorie figures.  For one or more logs whose
    [analysis_result] holds an [int] calorie figure, the prompt states the
    count and the sum, and the text returned is the reply of the model, or
    the fixed summary with the count when the call raises. *)
Theorem summary_states_count_and_sum (logs : list pyval) (cs : list Z) :
  Forall2 int_log logs cs -> logs <> [] ->
  get_daily_nutrition_summary invoke text_of logs =
  match invoke (summary_prompt text_of (length logs)
                  (PInt (fold_right Z.add 0%Z cs))) with
  | Ok reply => Ok reply
  | Raise _ => Ok (fixed_summary logs)
  end.
Proof.
  intros L N. unfold get_daily_nutrition_summary.
  destruct logs as [|log rest]; [contradiction |].
  rewrite (counted_all_int_logs L). cbn [bind Z.add try_except].
  now destruct (invoke _).
Qed.

(** X19: the daily summary never raises.  Without logs it returns the
    no-data text and the model is not asked; otherwise the text is the
    reply of the model, or the fixed summary, which states the number of
    the logs, when anything raised: a log that is not a container, an
    [analysis_result] that cannot be searched, or the call itself. *)
Theorem summary_never_raises (logs : list pyval) :
  exists text,
    get_daily_nutrition_summary invoke text_of logs = Ok text /\
    (logs = [] -> text = no_data) /\
    (logs <> [] ->
     text = fixed_summary logs \/ exists prompt, invoke prompt = Ok text).
Proof.
  unfold get_daily_nutrition_summary. destruct logs as [|log rest].
  - exists no_data. repeat split. intros N. contradiction.
  - destruct (counted_all (log :: rest) (PInt 0)) as [total|e]; cbn [bind try_except].
    + destruct (invoke _) as [reply|e] eqn:I.
      * exists reply. split; [reflexivity |]. split; [discriminate |]. eauto.
      * eexists. split; [reflexivity |]. split; [discriminate |]. auto.
    + eexists. split; [reflexivity |]. split; [discriminate |]. auto.
Qed.

End AnyModel.

Lemma advice_asks_about_the_foods_witness :
  get_nutrition_advice (replying (u "Baik")) (fun _ => [])
    (PDict [(u "foods_detected", PList [PyStr "Nasi"; PyStr "Tempe"])])
  = Ok (u "Baik").
Proof.
  apply (@advice_asks_about_the_foods (replying (u "Baik")) (fun _ => [])
           [(u "foods_detected", PList [PyStr "Nasi"; PyStr "Tempe"])]
           [u "Nasi"; u "Tempe"]).
  reflexivity.
Defined.

Lemma summary_states_count_and_sum_witness :
  get_daily_nutrition_summary (failing TypeError) (fun _ => [])
    [PDict [(u "analysis_result", PDict [(u "total_calories", PInt 500)])];
     PDict [(u "analysis_result", PDict [(u "total_calories", PInt 620)])]]
  = Ok (fixed_summary
          [PDict [(u "analysis_result", PDict [(u "total_calories", PInt 500)])];
           PDict [(u "analysis_result", PDict [(u "total_calories", PInt 620)])]]).
Proof.
  apply (@summary_states_count_and_sum (failing TypeError) (fun _ => []) _ [500; 620]%Z).
  - repeat constructor; do 2 eexists; repeat split; reflexivity.
  - discriminate.
Defined.

(** ** Properties of the daily totals *)

Import DatabaseManager.

Lemma summed_all_raises (meal : pyval) (rest : list pyval) (t : totals) (e : exn) :
  summed meal t = Raise e -> summed_all (meal :: rest) t = Raise e.
Proof. intros H. cbn [summed_all]. now rewrite H. Qed.

(** The totals stop at a protein figure that is a string. *)
Lemma summed_gram_string (m record b : dict) (c : Z) (s : str) (t : totals) (n p : Z) :
  dict_get (u "analysis_result") m = Some (PDict record) ->
  dict_get (u "total_calories") record = Some (PInt c) ->
  dict_get (u "nutritional_breakdown") record = Some (PDict b) ->
  dict_get (u "protein") b = Some (PStr s) ->
  total_calories t = PInt n -> total_protein t = PInt p ->
  summed (PDict m) t = Raise TypeError.
Proof.
  intros A C B P T N. unfold summed, get. cbn [bind]. rewrite A. cbn [bind].
  rewrite C, T. cbn [add as_int bind]. rewrite B. cbn [bind]. rewrite P, N.
  reflexivity.
Qed.

(** X20: the daily totals of the database manager cannot add up the
    records of the analyzer.  For every reply and every fingerprint the
    record of the heuristic extraction, stored as the first meal of the
    day, makes [get_daily_nutrition_summary] raise [TypeError]: the
    protein of the record is a string like [24g], and the totals start
    from the [int] 0. *)
Theorem daily_totals_reject_gram_strings
        (response h : str) (username today meal_type image_data timestamp : pyval)
        (rest : list pyval) :
  exists record,
    _extract_from_llm_response response h = Ok record /\
    DatabaseManager.get_daily_nutrition_summary
      (meal_data username today meal_type image_data record timestamp :: rest)
    = Raise TypeError.
Proof.
  destruct (extraction_builds response h)
    as (c & e1 & e2 & a & b & nb & _ & _ & -> & _ & _ & _ & _ & _ & _ & _ & E).
  cbn zeta in E. eexists. split; [exact E |].
  unfold DatabaseManager.get_daily_nutrition_summary.
  erewrite summed_all_raises; [reflexivity |].
  eapply summed_gram_string with (c := c) (n := 0%Z) (p := 0%Z); reflexivity.
Qed.

Lemma summed_int_meal (meal : pyval) (f : Z * Z * Z * Z) (c p cb ft : Z) :
  int_meal meal f ->
  summed meal {| total_calories := PInt c; total_protein := PInt p;
                 total_carbs := PInt cb; total_fat := PInt ft |}
  = Ok {| total_calories := PInt (c + calories_in f);
          total_protein := PInt (p + protein_in f);
          total_carbs := PInt (cb + carbohydrates_in f);
          total_fat := PInt (ft + fat_in f) |}.
Proof.
  destruct f as [[[fc fp] fcb] ff].
  intros (m & record & b & -> & A & C & B & P & CB & F).
  unfold summed, get. cbn [bind]. rewrite A. cbn [bind]. rewrite C, B. cbn [bind].
  rewrite P, CB, F. reflexivity.
Qed.

Lemma summed_all_int_meals (meals : list pyval) (figures : list (Z * Z * Z * Z)) :
  Forall2 int_meal meals figures ->
  forall c p cb ft,
    summed_all meals {| total_calories := PInt c; total_protein := PInt p;
                        total_carbs := PInt cb; total_fat := PInt ft |}
    = Ok {| total_calories := PInt (c + sum_of calories_in figures);
            total_protein := PInt (p + sum_of protein_in figures);
            total_carbs := PInt (cb + sum_of carbohydrates_in figures);
            total_fat := PInt (ft + sum_of fat_in figures) |}.
Proof.
  induction 1 as [|meal f meals figures M _ IH]; intros c p cb ft.
  - cbn. now rewrite !Z.add_0_r.
  - cbn [summed_all]. rewrite (@summed_int_meal _ _ c p cb ft M). cbn [bind].
    rewrite IH. unfold sum_of. cbn [fold_right]. now rewrite !Z.add_assoc.
Qed.

(** X21: on meals whose records hold [int] figures only, the daily totals
    are the sums of the calories, of the protein, of the carbohydrates and
    of the fat, with the number of the meals and the meals themselves. *)
Theorem daily_totals_of_int_meals (meals : list pyval) (figures : list (Z * Z * Z * Z)) :
  Forall2 int_meal meals figures ->
  DatabaseManager.get_daily_nutrition_summary meals =
  Ok [(u "total_calories", PInt (sum_of calories_in figures));
      (u "total_protein", PInt (sum_of protein_in figures));
      (u "total_carbs", PInt (sum_of carbohydrates_in figures));
      (u "total_fat", PInt (sum_of fat_in figures));
      (u "meal_count", PInt (Z.of_nat (length meals)));
      (u "meals", PList meals)].
Proof.
  intros M. unfold DatabaseManager.get_daily_nutrition_summary.
  rewrite (summed_all_int_meals M). reflexivity.
Qed.

Lemma daily_totals_of_int_meals_witness :
  DatabaseManager.get_daily_nutrition_summary [int_figures_meal]
  = Ok [(u "total_calories", PInt 500);
        (u "total_protein", PInt 20);
        (u "total_carbs", PInt 60);
        (u "total_fat", PInt 15);
        (u "meal_count", PInt 1);
        (u "meals", PList [int_figures_meal])].
Proof.
  rewrite (@daily_totals_of_int_meals [int_figures_meal] [(500, 20, 60, 15)%Z]).
  - reflexivity.
  - repeat constructor. do 3 eexists. repeat split; reflexivity.
Defined.
